(** * Platform KeyStore loader of GRUB on powerpc-ieee1275

    A shallow embedding of
    [grub-core/kern/powerpc/ieee1275/platform_keystore.c]: the EFI signature
    list parser, the variable unpacker, the secure boot variable loader, the
    key management mode probe and the keystore manager, over an explicit
    machine state (heap, allocator, globals), followed by the properties
    stated about them. *)

From stdpp Require Import gmap list.
From Stdlib Require Import ZArith Lia.

Local Open Scope Z_scope.

(** ** Machine integers *)

(** [grub_uint32_t] and, on this 32-bit target ([GRUB_IEEE1275_CELL_SIZEOF]
    is 4 and [&pks_max_object_size] is passed where a [grub_uint32_t *] is
    declared), [grub_size_t]: unsigned arithmetic wraps modulo 2^32. *)
Definition wrap32 (x : Z) : Z := x mod 2 ^ 32.

(** [grub_le_to_cpu32] applied to four bytes in memory order. *)
Definition le32 (bs : list Z) : Z :=
  match bs with
  | [b0; b1; b2; b3] => wrap32 (b0 + 256 * b1 + 65536 * b2 + 16777216 * b3)
  | _ => 0
  end.

(** The inverse encoding, used to lay out headers in statements. *)
Definition enc32 (x : Z) : list Z :=
  [x mod 256; (x / 256) mod 256; (x / 65536) mod 256; (x / 16777216) mod 256].

(** ** Constants *)

Definition PKS_SBVAR_DB : Z := 1.
Definition PKS_SBVAR_DBX : Z := 2.

(** Modelled from the spec: the distinguished result code by which the
    firmware reports [not found]; the macro lives in
    [grub/ieee1275/ieee1275.h], which is not among the sources.  Only its
    being one fixed negative cell value is used. *)
Definition IEEE1275_CELL_NOT_FOUND : Z := -7.

(** Modelled from the spec: [sizeof (grub_esl_t)], the packed signature list
    header of [platform_keystore.h]: a 16 byte type GUID and three 32-bit
    little-endian sizes. *)
Definition sizeof_grub_esl_t : Z := 28.

(** Modelled from the spec: [sizeof (grub_esd_t)], the packed entry header of
    [platform_keystore.h]: the 16 byte owner GUID that precedes the payload. *)
Definition sizeof_grub_esd_t : Z := 16.

(** Modelled from the spec: [sizeof (grub_pks_sd_t)], the packed record of
    [platform_keystore.h] with a 16 byte GUID, a data pointer and a
    [grub_size_t] length. *)
Definition sizeof_grub_pks_sd_t : Z := 24.

(** ** Data *)

Inductive grub_err_t : Set :=
| GRUB_ERR_NONE
| GRUB_ERR_OUT_OF_MEMORY
| GRUB_ERR_BAD_NUMBER
| GRUB_ERR_READ_ERROR
| GRUB_ERR_FILE_NOT_FOUND
| GRUB_ERR_BAD_FIRMWARE
| GRUB_ERR_BUG.

Definition grub_err_eqb (a b : grub_err_t) : bool :=
  match a, b with
  | GRUB_ERR_NONE, GRUB_ERR_NONE
  | GRUB_ERR_OUT_OF_MEMORY, GRUB_ERR_OUT_OF_MEMORY
  | GRUB_ERR_BAD_NUMBER, GRUB_ERR_BAD_NUMBER
  | GRUB_ERR_READ_ERROR, GRUB_ERR_READ_ERROR
  | GRUB_ERR_FILE_NOT_FOUND, GRUB_ERR_FILE_NOT_FOUND
  | GRUB_ERR_BAD_FIRMWARE, GRUB_ERR_BAD_FIRMWARE
  | GRUB_ERR_BUG, GRUB_ERR_BUG => true
  | _, _ => false
  end.

(** A memory cell is either indeterminate (allocated, never written) or holds
    a value. *)
Inductive cell (A : Type) : Type :=
| Indet
| Init (a : A).
Arguments Indet {A}.
Arguments Init {A} a.

(** Pointers are heap addresses; [NULL] is address 0. *)
Definition NULL : Z := 0.

(** [grub_pks_sd_t]: one slot of a signature database array. *)
Record grub_pks_sd_t : Type := mk_sd {
  guid : cell (list Z);
  data : cell Z;
  data_size : cell Z
}.

Definition fresh_slot : grub_pks_sd_t :=
  {| guid := Indet; data := Indet; data_size := Indet |}.

(** A heap block is a byte buffer (with the bytes written to it so far) or
    an array of [grub_pks_sd_t]. *)
Inductive block : Type :=
| Bytes (bs : list Z)
| Slots (sl : list grub_pks_sd_t).

(** [grub_pks_t]. *)
Record grub_pks_t : Type := mk_pks {
  db : Z;
  dbx : Z;
  db_entries : Z;
  dbx_entries : Z;
  use_static_keys : bool
}.

(** The static initialiser of [pks_keystore], which is also what
    [grub_memset (&pks_keystore, 0, sizeof (grub_pks_t))] leaves. *)
Definition pks_zero : grub_pks_t :=
  {| db := NULL; dbx := NULL; db_entries := 0; dbx_entries := 0;
     use_static_keys := false |}.

(** The machine: the heap with its allocator, [grub_errno], and the three
    file-scope variables of the module.  [m_plan] lists the outcome of the
    coming allocation requests ([false]: the request fails); requests beyond
    the plan succeed.  [m_freed] logs every argument given to [grub_free],
    oldest first. *)
Record machine : Type := mk_machine {
  m_heap : gmap Z block;
  m_brk : Z;
  m_plan : list bool;
  m_freed : list Z;
  grub_errno : grub_err_t;
  pks_max_object_size : Z;
  pks_keystore : grub_pks_t;
  pks_use_keystore : bool
}.

Definition set_heap (h : gmap Z block) (m : machine) : machine :=
  mk_machine h (m_brk m) (m_plan m) (m_freed m) (grub_errno m)
    (pks_max_object_size m) (pks_keystore m) (pks_use_keystore m).
Definition set_brk (b : Z) (m : machine) : machine :=
  mk_machine (m_heap m) b (m_plan m) (m_freed m) (grub_errno m)
    (pks_max_object_size m) (pks_keystore m) (pks_use_keystore m).
Definition set_plan (p : list bool) (m : machine) : machine :=
  mk_machine (m_heap m) (m_brk m) p (m_freed m) (grub_errno m)
    (pks_max_object_size m) (pks_keystore m) (pks_use_keystore m).
Definition set_freed (f : list Z) (m : machine) : machine :=
  mk_machine (m_heap m) (m_brk m) (m_plan m) f (grub_errno m)
    (pks_max_object_size m) (pks_keystore m) (pks_use_keystore m).
Definition set_errno (e : grub_err_t) (m : machine) : machine :=
  mk_machine (m_heap m) (m_brk m) (m_plan m) (m_freed m) e
    (pks_max_object_size m) (pks_keystore m) (pks_use_keystore m).
Definition set_max_object_size (s : Z) (m : machine) : machine :=
  mk_machine (m_heap m) (m_brk m) (m_plan m) (m_freed m) (grub_errno m)
    s (pks_keystore m) (pks_use_keystore m).
Definition set_keystore (k : grub_pks_t) (m : machine) : machine :=
  mk_machine (m_heap m) (m_brk m) (m_plan m) (m_freed m) (grub_errno m)
    (pks_max_object_size m) k (pks_use_keystore m).
Definition set_use_keystore (b : bool) (m : machine) : machine :=
  mk_machine (m_heap m) (m_brk m) (m_plan m) (m_freed m) (grub_errno m)
    (pks_max_object_size m) (pks_keystore m) b.

Arguments set_heap _ _ /.
Arguments set_brk _ _ /.
Arguments set_plan _ _ /.
Arguments set_freed _ _ /.
Arguments set_errno _ _ /.
Arguments set_max_object_size _ _ /.
Arguments set_keystore _ _ /.
Arguments set_use_keystore _ _ /.

(** ** The computation monad: state, undefined behaviour, fuel *)

Inductive fault : Set :=
| OutOfBounds      (* read or write outside a block or past a buffer *)
| Indeterminate    (* use of a cell that was never written *)
| InvalidPointer.  (* free, realloc or access through a dead pointer *)

Inductive res (A : Type) : Type :=
| Ok (a : A) (m : machine)
| Fault (f : fault)
| OutOfFuel.
Arguments Ok {A} a m.
Arguments Fault {A} f.
Arguments OutOfFuel {A}.

Definition M (A : Type) : Type := machine -> res A.

Definition ret {A} (a : A) : M A := fun m => Ok a m.

Definition bind {A B} (c : M A) (k : A -> M B) : M B :=
  fun m => match c m with
           | Ok a m' => k a m'
           | Fault f => Fault f
           | OutOfFuel => OutOfFuel
           end.

Definition throw {A} (f : fault) : M A := fun _ => Fault f.
Definition get : M machine := fun m => Ok m m.
Definition modify (f : machine -> machine) : M unit := fun m => Ok tt (f m).

Notation "x <- c ;; k" := (bind c (fun x => k))
  (at level 100, c at next level, right associativity).
Notation "c ;;; k" := (bind c (fun _ => k))
  (at level 100, right associativity).

(** ** Memory management ([grub/mm.h]) *)

(** [grub_error (code, ...)]: records the code in [grub_errno] and returns
    it; the message text is not modelled. *)
Definition grub_error (e : grub_err_t) : M grub_err_t :=
  modify (set_errno e) ;;; ret e.

(** Consume the allocator's next planned outcome. *)
Definition next_outcome : M bool :=
  fun m => match m_plan m with
           | [] => Ok true m
           | b :: pl => Ok b (set_plan pl m)
           end.

(** Place a new block at a fresh address. *)
Definition place (b : block) : M Z :=
  fun m => let p := m_brk m in
           Ok p (set_brk (p + 1) (set_heap (<[p := b]> (m_heap m)) m)).

(** [grub_malloc]: [NULL] on failure, else a fresh byte buffer with nothing
    written to it yet. *)
Definition grub_malloc (size : Z) : M Z :=
  ok <- next_outcome ;;
  if ok : bool then place (Bytes []) else ret NULL.

(** [grub_realloc] on an array of [grub_pks_sd_t]:  [NULL] on failure (the
    old array stays as it is), else an array of [size / sizeof
    (grub_pks_sd_t)] slots at a fresh address that starts with the old
    slots, the old array being released.  A null [ptr] makes it a
    [grub_malloc]. *)
Definition grub_realloc (ptr : Z) (size : Z) : M Z :=
  m <- get ;;
  old <- (if ptr =? NULL then ret []
          else match m_heap m !! ptr with
               | Some (Slots sl) => ret sl
               | _ => throw InvalidPointer
               end) ;;
  ok <- next_outcome ;;
  if ok : bool then
    modify (fun m => set_heap (delete ptr (m_heap m)) m) ;;;
    place (Slots (resize (Z.to_nat (size / sizeof_grub_pks_sd_t)) fresh_slot old))
  else ret NULL.

(** [grub_free]: a null argument is accepted and does nothing. *)
Definition grub_free (ptr : Z) : M unit :=
  modify (fun m => set_freed (m_freed m ++ [ptr]) m) ;;;
  if ptr =? NULL then ret tt
  else
    m <- get ;;
    match m_heap m !! ptr with
    | Some _ => modify (set_heap (delete ptr (m_heap m)))
    | None => throw InvalidPointer
    end.

(** Access to slot [i] of the array at [ptr]. *)
Definition load_slot (ptr : Z) (i : Z) : M grub_pks_sd_t :=
  m <- get ;;
  match m_heap m !! ptr with
  | Some (Slots sl) =>
      if i <? 0 then throw OutOfBounds
      else match sl !! Z.to_nat i with
           | Some s => ret s
           | None => throw OutOfBounds
           end
  | _ => throw InvalidPointer
  end.

Definition store_slot (ptr : Z) (i : Z) (f : grub_pks_sd_t -> grub_pks_sd_t) : M unit :=
  s <- load_slot ptr i ;;
  modify (fun m =>
    match m_heap m !! ptr with
    | Some (Slots sl) =>
        set_heap (<[ptr := Slots (<[Z.to_nat i := f s]> sl)]> (m_heap m)) m
    | _ => m
    end).

Definition load_cell {A} (c : cell A) : M A :=
  match c with
  | Init a => ret a
  | Indet => throw Indeterminate
  end.

(** The [n] bytes at offset [off] of a buffer; outside it the read is
    undefined. *)
Definition read_bytes (buf : list Z) (off n : Z) : M (list Z) :=
  if (off <? 0) || (n <? 0) || (Z.of_nat (length buf) <? off + n)
  then throw OutOfBounds
  else ret (take (Z.to_nat n) (drop (Z.to_nat off) buf)).

(** The bytes held by the byte buffer at [ptr]. *)
Definition load_buffer (ptr : Z) : M (list Z) :=
  m <- get ;;
  match m_heap m !! ptr with
  | Some (Bytes bs) => ret bs
  | _ => throw InvalidPointer
  end.

(** [grub_memcpy (dst, src, n)] into a byte buffer, [src] being given by the
    bytes read. *)
Definition write_bytes (dst : Z) (bs : list Z) : M unit :=
  m <- get ;;
  match m_heap m !! dst with
  | Some (Bytes _) => modify (set_heap (<[dst := Bytes bs]> (m_heap m)))
  | _ => throw InvalidPointer
  end.

(** ** The signature list parser *)

Definition set_data (p : Z) (s : grub_pks_sd_t) : grub_pks_sd_t :=
  {| guid := guid s; data := Init p; data_size := data_size s |}.
Definition set_data_size (n : Z) (s : grub_pks_sd_t) : grub_pks_sd_t :=
  {| guid := guid s; data := data s; data_size := Init n |}.
Definition set_guid (g : list Z) (s : grub_pks_sd_t) : grub_pks_sd_t :=
  {| guid := Init g; data := data s; data_size := data_size s |}.

(** The locals of [_esl_to_esd] that change from one iteration to the
    next. *)
Record esd_loop : Type := mk_loop {
  l_esl_size : Z;
  l_offset : Z;
  l_signature : Z;
  l_entries : Z
}.

(** One run of the body of the [while] loop of [_esl_to_esd].  [out] holds
    the values of [*pks_sd] and [*pks_sd_entries] at entry to the function;
    the result is either the locals for the next iteration or what the
    function returns: its error code and the final values of [*pks_sd] and
    [*pks_sd_entries]. *)
Definition esd_body (esl_data : list Z) (signature_size : Z) (g : list Z)
    (out : Z * Z) (st : esd_loop) : M (esd_loop + grub_err_t * (Z * Z)) :=
  let entries := l_entries st in
  let data_size := wrap32 (signature_size - sizeof_grub_esd_t) in
  signature <- grub_realloc (l_signature st)
                 (wrap32 (wrap32 (entries + 1) * sizeof_grub_pks_sd_t)) ;;
  if signature =? NULL then
    e <- grub_error GRUB_ERR_OUT_OF_MEMORY ;; ret (inr (e, out))
  else
    p <- grub_malloc data_size ;;
    store_slot signature entries (set_data p) ;;;
    if p =? NULL then
      e <- grub_error GRUB_ERR_OUT_OF_MEMORY ;;
      ret (inr (e, (signature, wrap32 (entries + 1))))
    else
      bs <- read_bytes esl_data (l_offset st + sizeof_grub_esd_t) data_size ;;
      write_bytes p bs ;;;
      store_slot signature entries (set_data_size data_size) ;;;
      store_slot signature entries (set_guid g) ;;;
      ret (inl {| l_esl_size := wrap32 (l_esl_size st - signature_size);
                  l_offset := wrap32 (l_offset st + signature_size);
                  l_signature := signature;
                  l_entries := wrap32 (entries + 1) |}).

(** The [while (esl_size > 0)] loop. *)
Fixpoint esd_while (fuel : nat) (esl_data : list Z) (signature_size : Z)
    (g : list Z) (out : Z * Z) (st : esd_loop) : M (grub_err_t * (Z * Z)) :=
  match fuel with
  | O => fun _ => OutOfFuel
  | S fuel' =>
      if 0 <? l_esl_size st then
        r <- esd_body esl_data signature_size g out st ;;
        match r with
        | inl st' => esd_while fuel' esl_data signature_size g out st'
        | inr v => ret v
        end
      else ret (GRUB_ERR_NONE, (l_signature st, l_entries st))
  end.

Definition _esl_to_esd (fuel : nat) (esl_data : list Z) (esl_size : Z)
    (signature_size : Z) (g : list Z) (out : Z * Z) : M (grub_err_t * (Z * Z)) :=
  esd_while fuel esl_data signature_size g out
    {| l_esl_size := esl_size; l_offset := 0;
       l_signature := fst out; l_entries := snd out |}.

(** ** The variable unpacker *)

(** [esl_to_esd]: the result carries the error code, the final value of
    [*next_esl] and the final values of [*pks_sd] and [*pks_sd_entries].
    [esl_data] stands for the bytes the pointer gives access to, so the
    pointer is never null here (its only origin is a checked [grub_malloc]). *)
Definition esl_to_esd (fuel : nat) (esl_data : list Z) (next_esl : Z)
    (out : Z * Z) : M (grub_err_t * Z * (Z * Z)) :=
  if next_esl <? sizeof_grub_esl_t then
    e <- grub_error GRUB_ERR_BUG ;; ret (e, next_esl, out)
  else
    g <- read_bytes esl_data 0 16 ;;
    b_list <- read_bytes esl_data 16 4 ;;
    b_header <- read_bytes esl_data 20 4 ;;
    b_size <- read_bytes esl_data 24 4 ;;
    let esl_size := le32 b_list in
    let signature_header_size := le32 b_header in
    let signature_size := le32 b_size in
    if (esl_size <? sizeof_grub_esl_t) || (next_esl <? esl_size) then
      e <- grub_error GRUB_ERR_BUG ;; ret (e, next_esl, out)
    else
      let offset := wrap32 (sizeof_grub_esl_t + signature_header_size) in
      r <- _esl_to_esd fuel (drop (Z.to_nat offset) esl_data)
             (wrap32 (esl_size - offset)) signature_size g out ;;
      ret (fst r, esl_size, snd r).

(** The locals and output arguments of [pks_sd_from_esl] that change from
    one iteration to the next ([next_esl] equals [esl_size] whenever the
    body starts). *)
Record sd_loop : Type := mk_sd_loop {
  s_esl_data : list Z;
  s_esl_size : Z;
  s_out : Z * Z
}.

(** One run of the body of the [do ... while] loop of [pks_sd_from_esl]:
    the value of [rc], and the locals after it (left where they were, apart
    from the output arguments, when the body ends in [break]). *)
Definition sd_body (fuel : nat) (st : sd_loop) : M (grub_err_t * sd_loop) :=
  r <- esl_to_esd fuel (s_esl_data st) (s_esl_size st) (s_out st) ;;
  let '(rc, next_esl, out') := r in
  if grub_err_eqb rc GRUB_ERR_NONE then
    ret (rc, {| s_esl_data := drop (Z.to_nat next_esl) (s_esl_data st);
                s_esl_size := wrap32 (s_esl_size st - next_esl);
                s_out := out' |})
  else
    ret (rc, {| s_esl_data := s_esl_data st; s_esl_size := s_esl_size st;
                s_out := out' |}).

(** The [do ... while (esl_size > 0)] loop. *)
Fixpoint sd_do_while (fuel : nat) (st : sd_loop) : M (grub_err_t * (Z * Z)) :=
  match fuel with
  | O => fun _ => OutOfFuel
  | S fuel' =>
      r <- sd_body fuel' st ;;
      let '(rc, st') := r in
      if grub_err_eqb rc GRUB_ERR_NONE && (0 <? s_esl_size st') then
        sd_do_while fuel' st'
      else ret (rc, s_out st')
  end.

Definition pks_sd_from_esl (fuel : nat) (esl_data : list Z) (esl_size : Z)
    (out : Z * Z) : M (grub_err_t * (Z * Z)) :=
  sd_do_while fuel
    {| s_esl_data := esl_data; s_esl_size := esl_size; s_out := out |}.

(** ** The firmware interface ([grub/powerpc/ieee1275/ieee1275.h]) *)

(** What the firmware answers to the four client interface calls: the
    return code, and what the call leaves in its output arguments. *)
Record firmware : Type := mk_firmware {
  (* grub_ieee1275_test *)
  fw_test : Z;
  (* grub_ieee1275_pks_max_object_size: return code, then *result *)
  fw_max_object_size : Z * Z;
  (* grub_ieee1275_pks_read_object: return code, bytes stored in the
     buffer, *data_len *)
  fw_read_object : Z * list Z * Z;
  (* grub_ieee1275_pks_read_sbvar, by sbvar_type: return code, bytes stored
     in the buffer, *data_len *)
  fw_read_sbvar : Z -> Z * list Z * Z
}.

(** ** The secure boot variable loader and the mode probe *)

(** [read_sbversion_from_pks]: the error code and the value of [*out]. *)
Definition read_sbversion_from_pks (fw : firmware) : M (grub_err_t * Z) :=
  m <- get ;;
  out <- grub_malloc (pks_max_object_size m) ;;
  if out =? NULL then
    e <- grub_error GRUB_ERR_OUT_OF_MEMORY ;; ret (e, out)
  else
    let '(rc, bs, outlen) := fw_read_object fw in
    write_bytes out bs ;;;
    if rc <? 0 then
      e <- grub_error GRUB_ERR_READ_ERROR ;; ret (e, out)
    else if negb (outlen =? 1) then
      e <- grub_error GRUB_ERR_BAD_NUMBER ;; ret (e, out)
    else
      buf <- load_buffer out ;;
      b <- read_bytes buf 0 1 ;;
      if 2 <=? hd 0 b then
        e <- grub_error GRUB_ERR_BAD_NUMBER ;; ret (e, out)
      else ret (GRUB_ERR_NONE, out).

(** [read_sbvar_from_pks]: the error code and the final values of [*pks_sd]
    and [*pks_sd_entries]. *)
Definition read_sbvar_from_pks (fuel : nat) (fw : firmware)
    (sbvarflags sbvartype : Z) (out : Z * Z) : M (grub_err_t * (Z * Z)) :=
  m <- get ;;
  esl_data <- grub_malloc (pks_max_object_size m) ;;
  if esl_data =? NULL then
    e <- grub_error GRUB_ERR_OUT_OF_MEMORY ;; ret (e, out)
  else
    let '(rc, bs, esl_data_size) := fw_read_sbvar fw sbvartype in
    write_bytes esl_data bs ;;;
    r <- (if rc =? IEEE1275_CELL_NOT_FOUND then
            e <- grub_error GRUB_ERR_FILE_NOT_FOUND ;; ret (e, out)
          else if rc <? 0 then
            e <- grub_error GRUB_ERR_READ_ERROR ;; ret (e, out)
          else if 0 <? esl_data_size then
            buf <- load_buffer esl_data ;;
            pks_sd_from_esl fuel buf esl_data_size out
          else ret (GRUB_ERR_BAD_NUMBER, out)) ;;
    grub_free esl_data ;;;
    ret r.

(** [is_pks_present]. *)
Definition is_pks_present (fw : firmware) : M bool :=
  if fw_test fw <? 0 then
    grub_error GRUB_ERR_BAD_FIRMWARE ;;; ret false
  else
    modify (set_max_object_size (snd (fw_max_object_size fw))) ;;;
    if fst (fw_max_object_size fw) <? 0 then
      grub_error GRUB_ERR_BAD_NUMBER ;;; ret false
    else
      r <- read_sbversion_from_pks fw ;;
      let '(err, data) := r in
      if negb (grub_err_eqb err GRUB_ERR_NONE) then
        grub_free data ;;; ret false
      else
        buf <- load_buffer data ;;
        b <- read_bytes buf 0 1 ;;
        let ret_ := (hd 0 b =? 1) in
        grub_free data ;;;
        ret ret_.

(** ** The keystore manager *)

(** The [for] loops of [grub_pks_tmp_free]: [grub_free (sd[i].data)] for
    [i] from [i] up, [n] times. *)
Fixpoint free_entries (sd : Z) (i : Z) (n : nat) : M unit :=
  match n with
  | O => ret tt
  | S n' =>
      s <- load_slot sd i ;;
      p <- load_cell (data s) ;;
      grub_free p ;;;
      free_entries sd (i + 1) n'
  end.

Definition grub_pks_tmp_free : M unit :=
  m <- get ;;
  let ks := pks_keystore m in
  free_entries (db ks) 0 (Z.to_nat (db_entries ks)) ;;;
  free_entries (dbx ks) 0 (Z.to_nat (dbx_entries ks)) ;;;
  grub_free (db ks) ;;;
  grub_free (dbx ks) ;;;
  modify (set_keystore pks_zero).

(** [grub_pks_get_keystore]: [None] stands for the null result. *)
Definition grub_pks_get_keystore (m : machine) : option grub_pks_t :=
  if pks_use_keystore m then Some (pks_keystore m) else None.

Definition set_db (o : Z * Z) (k : grub_pks_t) : grub_pks_t :=
  {| db := fst o; dbx := dbx k; db_entries := snd o;
     dbx_entries := dbx_entries k; use_static_keys := use_static_keys k |}.
Definition set_dbx (o : Z * Z) (k : grub_pks_t) : grub_pks_t :=
  {| db := db k; dbx := fst o; db_entries := db_entries k;
     dbx_entries := snd o; use_static_keys := use_static_keys k |}.
Definition set_use_static_keys (b : bool) (k : grub_pks_t) : grub_pks_t :=
  {| db := db k; dbx := dbx k; db_entries := db_entries k;
     dbx_entries := dbx_entries k; use_static_keys := b |}.

Definition recoverable (rc : grub_err_t) : bool :=
  grub_err_eqb rc GRUB_ERR_FILE_NOT_FOUND || grub_err_eqb rc GRUB_ERR_BAD_NUMBER.

(** [grub_pks_keystore_init]. *)
Definition grub_pks_keystore_init (fuel : nat) (fw : firmware) : M unit :=
  present <- is_pks_present fw ;;
  if negb present then ret tt
  else
    m <- get ;;
    r <- read_sbvar_from_pks fuel fw 0 PKS_SBVAR_DB
           (db (pks_keystore m), db_entries (pks_keystore m)) ;;
    modify (fun m => set_keystore (set_db (snd r) (pks_keystore m)) m) ;;;
    rc <- (if recoverable (fst r) then
             modify (fun m => set_keystore
                                (set_use_static_keys true (pks_keystore m)) m) ;;;
             ret GRUB_ERR_NONE
           else ret (fst r)) ;;
    rc <- (if grub_err_eqb rc GRUB_ERR_NONE then
             m <- get ;;
             r <- read_sbvar_from_pks fuel fw 0 PKS_SBVAR_DBX
                    (dbx (pks_keystore m), dbx_entries (pks_keystore m)) ;;
             modify (fun m => set_keystore (set_dbx (snd r) (pks_keystore m)) m) ;;;
             if recoverable (fst r) then ret GRUB_ERR_NONE else ret (fst r)
           else ret rc) ;;
    (if negb (grub_err_eqb rc GRUB_ERR_NONE) then grub_pks_tmp_free else ret tt) ;;;
    modify (set_use_keystore true).

(** The machine when the module is loaded: an empty heap, the static
    initialisers of the three variables, and the allocation plan [pl]. *)
Definition boot_machine (pl : list bool) : machine :=
  {| m_heap := ∅; m_brk := 1; m_plan := pl; m_freed := [];
     grub_errno := GRUB_ERR_NONE; pks_max_object_size := 0;
     pks_keystore := pks_zero; pks_use_keystore := false |}.

(** * Vocabulary of the statements *)

(** Every live block sits below the allocation frontier, and never at
    [NULL]. *)
Definition heap_wf (m : machine) : Prop :=
  0 < m_brk m /\ forall p, is_Some (m_heap m !! p) -> 0 < p < m_brk m.

(** The first [n] allocation requests of a plan succeed. *)
Fixpoint plan_ok (n : nat) (pl : list bool) : Prop :=
  match n, pl with
  | S n', b :: pl' => b = true /\ plan_ok n' pl'
  | _, _ => True
  end.

(** [sd] is the array [sl]: either the null pointer and no slot at all, or a
    live array block. *)
Definition sd_array (m : machine) (sd : Z) (sl : list grub_pks_sd_t) : Prop :=
  (sd = NULL /\ sl = []) \/ (sd <> NULL /\ m_heap m !! sd = Some (Slots sl)).

(** A signature database entry as its users see it: the GUID, the payload
    bytes and the recorded length. *)
Record sd_entry : Type := mk_entry {
  e_guid : list Z;
  e_data : list Z;
  e_size : Z
}.

(** The entry a slot stands for, if all of it is initialised and its data
    pointer is a live byte buffer. *)
Definition slot_entry (h : gmap Z block) (s : grub_pks_sd_t) : option sd_entry :=
  match guid s, data s, data_size s with
  | Init g, Init p, Init n =>
      match h !! p with
      | Some (Bytes bs) => Some (mk_entry g bs n)
      | _ => None
      end
  | _, _, _ => None
  end.

(** The database [(sd, n)] holds exactly the entries [ents]. *)
Definition sd_holds (m : machine) (sd : Z) (n : Z) (ents : list sd_entry) : Prop :=
  exists sl, sd_array m sd sl /\ Z.of_nat (length sl) = n /\
             Forall2 (fun s e => slot_entry (m_heap m) s = Some e) sl ents.

(** One signature as laid out in a list: the owner GUID of the entry header,
    then the payload. *)
Definition esd_bytes (sig : list Z * list Z) : list Z := fst sig ++ snd sig.

(** A signature fills its [signature_size] bytes: a [grub_esd_t] header
    holding the owner GUID, then the payload. *)
Definition esd_wf (signature_size : Z) (sig : list Z * list Z) : Prop :=
  Z.of_nat (length (fst sig)) = sizeof_grub_esd_t /\
  Z.of_nat (length (snd sig)) = signature_size - sizeof_grub_esd_t.

(** The entry region of a list: its signatures one after the other. *)
Definition esd_region (sigs : list (list Z * list Z)) : list Z :=
  concat (map esd_bytes sigs).

(** The entries a list of signatures unpacks to, under the GUID of the
    list. *)
Definition esd_entries (g : list Z) (signature_size : Z)
    (sigs : list (list Z * list Z)) : list sd_entry :=
  map (fun sig => mk_entry g (snd sig) (signature_size - sizeof_grub_esd_t)) sigs.

(** A slot the loop body has completed: GUID [g], payload at [p], payload
    size [n]. *)
Definition full_slot (g : list Z) (p n : Z) : grub_pks_sd_t :=
  {| guid := Init g; data := Init p; data_size := Init n |}.

(** The slot left behind when the payload allocation fails: only the data
    pointer was written, with the null result of [grub_malloc]. *)
Definition failed_slot : grub_pks_sd_t :=
  {| guid := Indet; data := Init NULL; data_size := Indet |}.

(** The first [k] runs of the guarded body of the [while] loop: the locals
    before run [k + 1], or the return value if the function has returned by
    then (the loop exit returns [GRUB_ERR_NONE]). *)
Fixpoint esd_iter (k : nat) (esl_data : list Z) (signature_size : Z)
    (g : list Z) (out : Z * Z) (st : esd_loop)
  : M (esd_loop + grub_err_t * (Z * Z)) :=
  match k with
  | O => ret (inl st)
  | S k' =>
      if 0 <? l_esl_size st then
        r <- esd_body esl_data signature_size g out st ;;
        match r with
        | inl st' => esd_iter k' esl_data signature_size g out st'
        | inr v => ret (inr v)
        end
      else ret (inr (GRUB_ERR_NONE, (l_signature st, l_entries st)))
  end.

(** The slots the loop appends for the signatures [sigs] when the
    allocation frontier is at [b]: run [i] takes address [b + 2 i] for the
    array and [b + 2 i + 1] for the payload. *)
Fixpoint new_slots (g : list Z) (n : Z) (b : Z) (sigs : list (list Z * list Z))
  : list grub_pks_sd_t :=
  match sigs with
  | [] => []
  | _ :: rest => full_slot g (b + 1) n :: new_slots g n (b + 2) rest
  end.

(** What [k] complete runs of the body do to the machine. *)
Record esd_post (g : list Z) (n : Z) (sigs : list (list Z * list Z))
    (sl : list grub_pks_sd_t) (sig sig' : Z) (m m' : machine) : Prop := {
  post_wf : heap_wf m';
  post_machine :
    m' = set_brk (m_brk m + 2 * Z.of_nat (length sigs))
           (set_heap (m_heap m')
              (set_plan (drop (2 * length sigs) (m_plan m)) m));
  post_array : sd_array m' sig' (sl ++ new_slots g n (m_brk m) sigs);
  post_entries :
    Forall2 (fun s x => slot_entry (m_heap m') s = Some (mk_entry g (snd x) n))
      (new_slots g n (m_brk m) sigs) sigs;
  post_frame :
    forall q, q < m_brk m -> q <> sig -> m_heap m' !! q = m_heap m !! q;
  post_fresh :
    forall q, m_brk m <= q -> is_Some (m_heap m' !! q) ->
              q = sig' \/ exists s, s ∈ new_slots g n (m_brk m) sigs /\ data s = Init q;
  post_sig : sigs <> [] -> m_heap m' !! sig = None /\ sig' <> NULL;
  post_sig_fresh : sigs <> [] -> m_brk m <= sig';
  post_sig_same : sigs = [] -> sig' = sig
}.

(** A computation that needs no fuel. *)
Definition fuel_free {A} (c : M A) : Prop := forall m, c m <> OutOfFuel.

(** The content of one EFI signature list: the type GUID of its header, the
    signature header bytes that follow the list header, the per-signature
    size, and its signatures (owner GUID and payload). *)
Record esl : Type := mk_esl {
  esl_type : list Z;
  esl_header : list Z;
  esl_signature_size : Z;
  esl_signatures : list (list Z * list Z)
}.

(** The value of the [signature_list_size] field. *)
Definition esl_length (l : esl) : Z :=
  sizeof_grub_esl_t + Z.of_nat (length (esl_header l))
  + Z.of_nat (length (esl_signatures l)) * esl_signature_size l.

(** The list as bytes: the packed header ([signature_type],
    [signature_list_size], [signature_header_size], [signature_size]), the
    signature header, the signatures. *)
Definition esl_bytes (l : esl) : list Z :=
  esl_type l ++ enc32 (esl_length l) ++ enc32 (Z.of_nat (length (esl_header l)))
  ++ enc32 (esl_signature_size l) ++ esl_header l
  ++ esd_region (esl_signatures l).

Record esl_wf (l : esl) : Prop := {
  wf_type : length (esl_type l) = 16%nat;
  wf_size : sizeof_grub_esd_t < esl_signature_size l < 2 ^ 32;
  wf_signatures : Forall (esd_wf (esl_signature_size l)) (esl_signatures l);
  wf_fits : esl_length l < 2 ^ 32
}.

(** The entries the list unpacks to. *)
Definition esl_entries (l : esl) : list sd_entry :=
  esd_entries (esl_type l) (esl_signature_size l) (esl_signatures l).

(** The first [k] runs of the body of the [do ... while] loop, the body
    being run again as long as it ends without error. *)
Fixpoint sd_iter (k : nat) (fuel : nat) (st : sd_loop) : M (grub_err_t * sd_loop) :=
  match k with
  | O => ret (GRUB_ERR_NONE, st)
  | S k' =>
      r <- sd_body fuel st ;;
      if grub_err_eqb (fst r) GRUB_ERR_NONE then sd_iter k' fuel (snd r)
      else ret r
  end.

(** A sequence of signature lists: their bytes one after the other, the
    total size, the number of signatures, the entries. *)
Definition esls_bytes (ls : list esl) : list Z := concat (map esl_bytes ls).

Fixpoint esls_length (ls : list esl) : Z :=
  match ls with
  | [] => 0
  | l :: ls' => esl_length l + esls_length ls'
  end.

Fixpoint esls_count (ls : list esl) : nat :=
  match ls with
  | [] => O
  | l :: ls' => (length (esl_signatures l) + esls_count ls')%nat
  end.

Definition esls_entries (ls : list esl) : list sd_entry :=
  concat (map esl_entries ls).

(** Two signature lists, of two and of one signature, with two byte
    payloads. *)
Definition sample_esl : esl :=
  {| esl_type := replicate 16 170; esl_header := [];
     esl_signature_size := 18;
     esl_signatures := [(replicate 16 1, [5; 6]); (replicate 16 2, [7; 8])] |}.

Definition sample_esl2 : esl :=
  {| esl_type := replicate 16 187; esl_header := [0; 0; 0];
     esl_signature_size := 18;
     esl_signatures := [(replicate 16 3, [9; 10])] |}.

(** The machine once the version buffer has been allocated and filled by
    the firmware. *)
Definition probe_buffer (bs : list Z) (pl : list bool) (m : machine) : machine :=
  set_brk (m_brk m + 1)
    (set_heap (<[m_brk m := Bytes bs]> (m_heap m)) (set_plan pl m)).

(** The machine once that buffer has been released again. *)
Definition probe_done (bs : list Z) (pl : list bool) (m : machine) : machine :=
  set_heap (delete (m_brk m) (<[m_brk m := Bytes bs]> (m_heap m)))
    (set_freed (m_freed m ++ [m_brk m]) (probe_buffer bs pl m)).

(** [is_pks_present] in closed form. *)
Definition is_pks_present_result (fw : firmware) (m : machine) : res bool :=
  let '(rc, bs, outlen) := fw_read_object fw in
  if fw_test fw <? 0 then Ok false (set_errno GRUB_ERR_BAD_FIRMWARE m)
  else
    let m0 := set_max_object_size (snd (fw_max_object_size fw)) m in
    if fst (fw_max_object_size fw) <? 0 then
      Ok false (set_errno GRUB_ERR_BAD_NUMBER m0)
    else
      match m_plan m with
      | false :: pl =>
          Ok false (set_freed (m_freed m ++ [NULL])
                      (set_errno GRUB_ERR_OUT_OF_MEMORY (set_plan pl m0)))
      | pl0 =>
          let pl := tail pl0 in
          if rc <? 0 then
            Ok false (set_errno GRUB_ERR_READ_ERROR (probe_done bs pl m0))
          else if negb (outlen =? 1) then
            Ok false (set_errno GRUB_ERR_BAD_NUMBER (probe_done bs pl m0))
          else
            match bs with
            | [] => Fault OutOfBounds
            | b :: _ =>
                if 2 <=? b then
                  Ok false (set_errno GRUB_ERR_BAD_NUMBER (probe_done bs pl m0))
                else Ok (b =? 1) (probe_done bs pl m0)
            end
      end.

(** The firmware of the samples: the capability test and the size query
    succeed, the version object is the single byte [version], the db
    variable is [db_answer] and the dbx variable [dbx_answer]. *)
Definition sample_fw (version : Z) (db_answer dbx_answer : Z * list Z * Z)
  : firmware :=
  {| fw_test := 0; fw_max_object_size := (0, 4096);
     fw_read_object := (0, [version], 1);
     fw_read_sbvar := fun t => if t =? PKS_SBVAR_DB then db_answer else dbx_answer |}.

Definition not_found : Z * list Z * Z := (IEEE1275_CELL_NOT_FOUND, [], 0).

(** What [grub_free p] does to the heap. *)
Definition free_step (h : gmap Z block) (p : Z) : gmap Z block :=
  if p =? NULL then h else delete p h.

Definition free_all (ps : list Z) (h : gmap Z block) : gmap Z block :=
  foldl free_step h ps.

(** The database [(sd, n)] is an array of [n] slots whose data pointers are
    [ptrs], in order. *)
Definition sd_owns (m : machine) (sd : Z) (n : Z) (ptrs : list Z) : Prop :=
  exists sl, sd_array m sd sl /\ Z.of_nat (length sl) = n /\
             Forall2 (fun s p => data s = Init p) sl ptrs.

Definition non_null (ps : list Z) : list Z := filter (fun p => p <> NULL) ps.

(** The three file-scope variables are the same in both machines. *)
Definition same_globals (m m' : machine) : Prop :=
  pks_keystore m' = pks_keystore m /\
  pks_use_keystore m' = pks_use_keystore m /\
  pks_max_object_size m' = pks_max_object_size m.

(** A computation that never writes the file-scope variables. *)
Definition keeps_globals {A} (c : M A) : Prop :=
  forall m a m', c m = Ok a m' -> same_globals m m'.

(** The payload addresses of [k] runs of the loop body started with the
    allocation frontier at [b]. *)
Fixpoint new_ptrs (b : Z) (k : nat) : list Z :=
  match k with
  | O => []
  | S k' => (b + 1) :: new_ptrs (b + 2) k'
  end.

(** The state of the sample runs after a failed payload allocation: a
    keystore whose allow-list is the database the parser hands back. *)
Definition with_db (o : Z * Z) (m : machine) : machine :=
  set_keystore (set_db o (pks_keystore m)) m.

(** The value [*pks_sd_entries] is left with, and the error code, of a run
    of the parser. *)
Definition out_entries {A} (r : res (A * (Z * Z))) : option Z :=
  match r with
  | Ok (_, (_, n)) _ => Some n
  | _ => None
  end.

Definition out_error {B} (r : res (grub_err_t * B)) : option grub_err_t :=
  match r with
  | Ok (e, _) _ => Some e
  | _ => None
  end.

(** What [grub_pks_get_keystore] returns once a run of
    [grub_pks_keystore_init] is over, with the last error code. *)
Definition after_init (r : res unit) : option (option grub_pks_t * grub_err_t) :=
  match r with
  | Ok _ m => Some (grub_pks_get_keystore m, grub_errno m)
  | _ => None
  end.

(** The keystore record and the flag [pks_use_keystore] once a run of
    [grub_pks_tmp_free] is over. *)
Definition after_release (r : res unit) : option (grub_pks_t * bool) :=
  match r with
  | Ok _ m => Some (pks_keystore m, pks_use_keystore m)
  | _ => None
  end.

(** ** Vocabulary of the further properties *)

(** The database [(sd, n)] holds the entries [ents], the payload of entry
    [i] being the buffer at address [ptrs !! i]. *)
Definition sd_holds_at (m : machine) (sd n : Z) (ents : list sd_entry)
    (ptrs : list Z) : Prop :=
  exists sl, sd_array m sd sl /\ Z.of_nat (length sl) = n /\
    Forall2 (fun s e => slot_entry (m_heap m) s = Some e) sl ents /\
    Forall2 (fun s p => data s = Init p) sl ptrs.

(** What appending [count] entries to the database at [sd] does to the
    heap [h], the allocation frontier being at [b]: blocks below [b] other
    than the array stay as they are; from [b] on, the only live blocks are
    the array, now at [sd'], and the [count] payloads; if an entry was
    appended the array has moved to a fresh address and its former block is
    gone, and otherwise it is where and as it was. *)
Record sd_post (b : Z) (count : nat) (sd sd' : Z) (h h' : gmap Z block)
  : Prop := {
  sdp_frame : forall q, q < b -> q <> sd -> h' !! q = h !! q;
  sdp_fresh : forall q, b <= q -> is_Some (h' !! q) ->
                        q = sd' \/ q ∈ new_ptrs b count;
  sdp_moved : count <> O -> h' !! sd = None /\ sd' <> NULL /\ b <= sd';
  sdp_same : count = O -> sd' = sd /\ h' !! sd = h !! sd
}.

(** The machine once the deny-list outputs [o] of the loader have been
    written to the keystore. *)
Definition with_dbx (o : Z * Z) (m : machine) : machine :=
  set_keystore (set_dbx o (pks_keystore m)) m.

(** A machine with a loaded keystore: an allow-list of one entry, with its
    two byte payload, and no deny-list. *)
Definition sample_loaded : machine :=
  {| m_heap := <[1 := Slots [full_slot (replicate 16 170) 2 2]]>
                 (<[2 := Bytes [5; 6]]> ∅);
     m_brk := 3; m_plan := []; m_freed := [];
     grub_errno := GRUB_ERR_NONE; pks_max_object_size := 4096;
     pks_keystore := {| db := 1; dbx := NULL; db_entries := 1; dbx_entries := 0;
                        use_static_keys := false |};
     pks_use_keystore := true |}.

(** From [m] to [m']: the allocator has only moved forward, the heap is
    still well formed, and every byte buffer of [m] is in [m'] with the
    bytes it had. *)
Definition grows (m m' : machine) : Prop :=
  heap_wf m' /\ m_brk m <= m_brk m' /\
  forall p bs, m_heap m !! p = Some (Bytes bs) -> m_heap m' !! p = Some (Bytes bs).

(** A computation that neither releases nor overwrites a byte buffer that
    was there when it started. *)
Definition keeps_bytes {A} (c : M A) : Prop :=
  forall m a m', heap_wf m -> c m = Ok a m' -> grows m m'.

(** A computation that never calls [grub_free]. *)
Definition keeps_freed {A} (c : M A) : Prop :=
  forall m a m', c m = Ok a m' -> m_freed m' = m_freed m.

(** * Properties *)

(** ** The monad and the primitives *)

Lemma bind_ok {A B} (c : M A) (k : A -> M B) m a m' :
  c m = Ok a m' -> bind c k m = k a m'.
Proof. intros H. unfold bind. now rewrite H. Qed.

Lemma bind_inv_ok {A B} (c : M A) (k : A -> M B) m b m'' :
  bind c k m = Ok b m'' -> exists a m', c m = Ok a m' /\ k a m' = Ok b m''.
Proof.
  unfold bind. destruct (c m) as [a m'| |]; try discriminate.
  intros H. now exists a, m'.
Qed.

(** Projections of updated machines and loop records. *)
Ltac msimpl :=
  cbn [set_heap set_brk set_plan set_freed set_errno
       set_max_object_size set_keystore set_use_keystore
       m_heap m_brk m_plan m_freed grub_errno pks_max_object_size pks_keystore
       pks_use_keystore l_esl_size l_offset l_signature l_entries
       s_esl_data s_esl_size s_out fst snd].

Ltac msimpl_in H :=
  cbn [set_heap set_brk set_plan set_freed set_errno
       set_max_object_size set_keystore set_use_keystore
       m_heap m_brk m_plan m_freed grub_errno pks_max_object_size pks_keystore
       pks_use_keystore l_esl_size l_offset l_signature l_entries
       s_esl_data s_esl_size s_out fst snd] in H.

Lemma mk_machine_eq h h' b b' pl pl' fr en mx ks us :
  h = h' -> b = b' -> pl = pl' ->
  mk_machine h b pl fr en mx ks us = mk_machine h' b' pl' fr en mx ks us.
Proof. now intros -> -> ->. Qed.

Lemma machine_step_trans m m1 m' b1 h1 p1 b' h' p' :
  m1 = set_brk b1 (set_heap h1 (set_plan p1 m)) ->
  m' = set_brk b' (set_heap h' (set_plan p' m1)) ->
  m' = set_brk b' (set_heap h' (set_plan p' m)).
Proof. intros -> ->. reflexivity. Qed.

Lemma Ok_eq {A} (a : A) m m' : m = m' -> Ok a m = Ok a m'.
Proof. now intros ->. Qed.

Lemma wrap32_small x : 0 <= x < 2 ^ 32 -> wrap32 x = x.
Proof. intros H. unfold wrap32. now apply Z.mod_small. Qed.

Lemma wrap32_range x : 0 <= wrap32 x < 2 ^ 32.
Proof. unfold wrap32. apply Z.mod_pos_bound. lia. Qed.

Lemma le32_enc32 x : 0 <= x < 2 ^ 32 -> le32 (enc32 x) = x.
Proof.
  intros H. unfold le32, enc32.
  rewrite wrap32_small.
  - pose proof (Z.div_mod x 256 ltac:(lia)).
    pose proof (Z.div_mod (x / 256) 256 ltac:(lia)).
    pose proof (Z.div_mod (x / 256 / 256) 256 ltac:(lia)).
    assert (x / 65536 = x / 256 / 256) as ->
      by (rewrite Z.div_div by lia; reflexivity).
    assert (x / 16777216 = x / 256 / 256 / 256) as ->
      by (rewrite !Z.div_div by lia; reflexivity).
    assert (0 <= x / 256 / 256 / 256 < 256) as Hq.
    { rewrite !Z.div_div by lia. split.
      - apply Z.div_pos; lia.
      - apply Z.div_lt_upper_bound; lia. }
    rewrite (Z.mod_small (x / 256 / 256 / 256)) by exact Hq. lia.
  - pose proof (Z.mod_pos_bound x 256 ltac:(lia)).
    pose proof (Z.mod_pos_bound (x / 256) 256 ltac:(lia)).
    pose proof (Z.mod_pos_bound (x / 65536) 256 ltac:(lia)).
    pose proof (Z.mod_pos_bound (x / 16777216) 256 ltac:(lia)).
    lia.
Qed.

Lemma plan_ok_S n pl :
  plan_ok (S n) pl -> head pl <> Some false /\ plan_ok n (tail pl).
Proof.
  destruct pl as [|b pl]; simpl.
  - intros _. split; [discriminate | now destruct n].
  - intros [-> H]. split; [discriminate | assumption].
Qed.

Lemma plan_ok_le n k pl : (k <= n)%nat -> plan_ok n pl -> plan_ok k pl.
Proof.
  revert k pl. induction n as [|n IH]; intros k pl Hk H.
  - assert (k = O) as -> by lia. exact I.
  - destruct k as [|k]; [now destruct pl |].
    destruct pl as [|b pl]; [exact I |].
    destruct H as [-> H]. split; [reflexivity |]. apply IH; [lia | assumption].
Qed.

Lemma plan_ok_drop n k pl : plan_ok (k + n) pl -> plan_ok n (drop k pl).
Proof.
  revert pl. induction k as [|k IH]; intros pl H; [exact H |].
  destruct pl as [|b pl]; [now destruct n |].
  simpl. apply IH. now destruct H.
Qed.

Lemma next_outcome_ok m :
  head (m_plan m) <> Some false ->
  next_outcome m = Ok true (set_plan (tail (m_plan m)) m).
Proof.
  unfold next_outcome. destruct m as [h b pl fr en mx ks us]; simpl.
  destruct pl as [|[] pl]; simpl; intros H; try reflexivity. now elim H.
Qed.

Lemma next_outcome_fail m pl :
  m_plan m = false :: pl -> next_outcome m = Ok false (set_plan pl m).
Proof. unfold next_outcome. now intros ->. Qed.

Lemma grub_malloc_ok size m :
  head (m_plan m) <> Some false ->
  grub_malloc size m =
    Ok (m_brk m)
       (set_brk (m_brk m + 1)
          (set_heap (<[m_brk m := Bytes []]> (m_heap m))
             (set_plan (tail (m_plan m)) m))).
Proof.
  intros H. unfold grub_malloc.
  rewrite (bind_ok _ _ _ _ _ (next_outcome_ok m H)). reflexivity.
Qed.

Lemma grub_malloc_fail size m pl :
  m_plan m = false :: pl -> grub_malloc size m = Ok NULL (set_plan pl m).
Proof.
  intros H. unfold grub_malloc.
  rewrite (bind_ok _ _ _ _ _ (next_outcome_fail m pl H)). reflexivity.
Qed.

Lemma grub_realloc_ok ptr size m sl :
  sd_array m ptr sl ->
  head (m_plan m) <> Some false ->
  grub_realloc ptr size m =
    Ok (m_brk m)
       (set_brk (m_brk m + 1)
          (set_heap (<[m_brk m :=
                        Slots (resize (Z.to_nat (size / sizeof_grub_pks_sd_t))
                                 fresh_slot sl)]> (delete ptr (m_heap m)))
             (set_plan (tail (m_plan m)) m))).
Proof.
  intros Harr Hpl. unfold grub_realloc, bind at 1, get.
  assert ((if ptr =? NULL then ret []
           else match m_heap m !! ptr with
                | Some (Slots sl0) => ret sl0
                | _ => throw InvalidPointer
                end) m = Ok sl m) as Hold.
  { destruct Harr as [[-> ->] | [Hne Hl]]; [reflexivity |].
    destruct (Z.eqb_spec ptr NULL); [contradiction |]. now rewrite Hl. }
  rewrite (bind_ok _ _ _ _ _ Hold).
  rewrite (bind_ok _ _ _ _ _ (next_outcome_ok m Hpl)). reflexivity.
Qed.

Lemma grub_realloc_fail ptr size m sl pl :
  sd_array m ptr sl ->
  m_plan m = false :: pl ->
  grub_realloc ptr size m = Ok NULL (set_plan pl m).
Proof.
  intros Harr Hpl. unfold grub_realloc, bind at 1, get.
  assert ((if ptr =? NULL then ret []
           else match m_heap m !! ptr with
                | Some (Slots sl0) => ret sl0
                | _ => throw InvalidPointer
                end) m = Ok sl m) as Hold.
  { destruct Harr as [[-> ->] | [Hne Hl]]; [reflexivity |].
    destruct (Z.eqb_spec ptr NULL); [contradiction |]. now rewrite Hl. }
  rewrite (bind_ok _ _ _ _ _ Hold).
  rewrite (bind_ok _ _ _ _ _ (next_outcome_fail m pl Hpl)). reflexivity.
Qed.

Lemma store_slot_ok ptr i f m sl s :
  m_heap m !! ptr = Some (Slots sl) ->
  0 <= i ->
  sl !! Z.to_nat i = Some s ->
  store_slot ptr i f m =
    Ok tt (set_heap (<[ptr := Slots (<[Z.to_nat i := f s]> sl)]> (m_heap m)) m).
Proof.
  intros Hl Hi Hs. unfold store_slot, load_slot, bind, get, modify, ret.
  rewrite Hl. destruct (Z.ltb_spec i 0); [lia |]. rewrite Hs.
  now rewrite Hl.
Qed.

Lemma write_bytes_ok dst bs m old :
  m_heap m !! dst = Some (Bytes old) ->
  write_bytes dst bs m = Ok tt (set_heap (<[dst := Bytes bs]> (m_heap m)) m).
Proof.
  intros Hl. unfold write_bytes, bind, get, modify. now rewrite Hl.
Qed.

Lemma read_bytes_ok (pre mid post : list Z) off n m :
  off = Z.of_nat (length pre) ->
  n = Z.of_nat (length mid) ->
  read_bytes (pre ++ mid ++ post) off n m = Ok mid m.
Proof.
  intros -> ->. unfold read_bytes.
  destruct (Z.ltb_spec (Z.of_nat (length pre)) 0); [lia |].
  destruct (Z.ltb_spec (Z.of_nat (length mid)) 0); [lia |].
  rewrite !length_app.
  destruct (Z.ltb_spec (Z.of_nat (length pre + (length mid + length post)))
              (Z.of_nat (length pre) + Z.of_nat (length mid))); [lia |].
  simpl. rewrite !Nat2Z.id. rewrite drop_app_length. now rewrite take_app_length.
Qed.

Lemma grub_free_null m :
  grub_free NULL m = Ok tt (set_freed (m_freed m ++ [NULL]) m).
Proof. reflexivity. Qed.

Lemma grub_free_live ptr m b :
  m_heap m !! ptr = Some b ->
  ptr <> NULL ->
  grub_free ptr m =
    Ok tt (set_heap (delete ptr (m_heap m)) (set_freed (m_freed m ++ [ptr]) m)).
Proof.
  intros Hl Hne. unfold grub_free, bind, modify, get.
  destruct (Z.eqb_spec ptr NULL); [contradiction |].
  simpl. now rewrite Hl.
Qed.

(** ** One iteration of the entry loop *)

Lemma sd_array_fresh m sd sl :
  heap_wf m -> sd_array m sd sl -> sd <> m_brk m /\ sd <> m_brk m + 1.
Proof.
  intros [Hb Hwf] [[-> _] | [_ Hl]].
  - unfold NULL. lia.
  - assert (0 < sd < m_brk m) by (apply Hwf; eauto). lia.
Qed.

Lemma realloc_size (e : Z) :
  0 <= e -> (e + 1) * sizeof_grub_pks_sd_t < 2 ^ 32 ->
  wrap32 (e + 1) = e + 1 /\
  Z.to_nat (wrap32 (wrap32 (e + 1) * sizeof_grub_pks_sd_t) / sizeof_grub_pks_sd_t)
  = S (Z.to_nat e).
Proof.
  unfold sizeof_grub_pks_sd_t. intros He Hlt.
  assert (wrap32 (e + 1) = e + 1) as Hw by (apply wrap32_small; lia).
  split; [exact Hw |]. rewrite Hw.
  rewrite wrap32_small by lia.
  rewrite Z.div_mul by lia. lia.
Qed.

Lemma esd_body_ok esl_data signature_size g out st m sl pre owner payload post :
  heap_wf m ->
  sd_array m (l_signature st) sl ->
  Z.of_nat (length sl) = l_entries st ->
  (l_entries st + 1) * sizeof_grub_pks_sd_t < 2 ^ 32 ->
  plan_ok 2 (m_plan m) ->
  signature_size < 2 ^ 32 ->
  esl_data = pre ++ owner ++ payload ++ post ->
  l_offset st = Z.of_nat (length pre) ->
  Z.of_nat (length owner) = sizeof_grub_esd_t ->
  Z.of_nat (length payload) = signature_size - sizeof_grub_esd_t ->
  esd_body esl_data signature_size g out st m =
    Ok (inl {| l_esl_size := wrap32 (l_esl_size st - signature_size);
               l_offset := wrap32 (l_offset st + signature_size);
               l_signature := m_brk m;
               l_entries := l_entries st + 1 |})
       (set_brk (m_brk m + 2)
          (set_heap
             (<[m_brk m := Slots (sl ++ [full_slot g (m_brk m + 1)
                                           (signature_size - sizeof_grub_esd_t)])]>
                (<[m_brk m + 1 := Bytes payload]>
                   (delete (l_signature st) (m_heap m))))
             (set_plan (drop 2 (m_plan m)) m))).
Proof.
  intros Hwf Harr Hlen Hsz Hpl Hss -> Hoff Hown Hpay.
  destruct (sd_array_fresh _ _ _ Hwf Harr) as [Hne0 Hne1].
  assert (0 <= l_entries st) as He by lia.
  destruct (realloc_size _ He Hsz) as [Hw Hcap].
  apply plan_ok_S in Hpl as [Hp1 Hpl]. apply plan_ok_S in Hpl as [Hp2 _].
  assert (Z.to_nat (l_entries st) = length sl) as Hn by lia.
  assert (wrap32 (signature_size - sizeof_grub_esd_t)
          = signature_size - sizeof_grub_esd_t) as Hds
    by (apply wrap32_small; unfold sizeof_grub_esd_t in *; lia).
  unfold esd_body.
  rewrite (bind_ok _ _ _ _ _ (grub_realloc_ok _ _ _ _ Harr Hp1)).
  destruct Hwf as [Hb Hwf].
  destruct m as [h b pl fr en mx ks us].
  destruct st as [esz off sig e].
  msimpl. msimpl_in Hb. msimpl_in Hne0. msimpl_in Hne1. msimpl_in Hp1.
  msimpl_in Hp2. msimpl_in Hn. msimpl_in Hcap. msimpl_in Hw. msimpl_in He.
  msimpl_in Hoff.
  destruct (Z.eqb_spec b NULL) as [E|_]; [unfold NULL in E; lia |].
  rewrite Hcap, Hw, Hds.
  rewrite Hn, resize_ge, Nat.sub_succ_l, Nat.sub_diag by lia.
  cbn [replicate app].
  erewrite bind_ok by (apply grub_malloc_ok; exact Hp2). msimpl.
  erewrite bind_ok.
  2:{ eapply store_slot_ok with (sl := sl ++ [fresh_slot]) (s := fresh_slot).
      - msimpl. rewrite lookup_insert_ne by lia. apply lookup_insert_eq.
      - exact He.
      - rewrite Hn. rewrite lookup_app_r by lia. now rewrite Nat.sub_diag. }
  msimpl.
  destruct (Z.eqb_spec (b + 1) NULL) as [E|_]; [unfold NULL in E; lia |].
  erewrite bind_ok.
  2:{ rewrite (app_assoc pre owner). apply read_bytes_ok.
      - rewrite length_app. lia.
      - lia. }
  erewrite bind_ok.
  2:{ eapply write_bytes_ok. msimpl. rewrite lookup_insert_ne by lia.
      apply lookup_insert_eq. }
  msimpl.
  erewrite bind_ok.
  2:{ eapply store_slot_ok; [| exact He |].
      - msimpl. rewrite lookup_insert_ne by lia. apply lookup_insert_eq.
      - rewrite Hn. apply list_lookup_insert_eq. rewrite length_app.
        cbn [length]. lia. }
  msimpl.
  erewrite bind_ok.
  2:{ eapply store_slot_ok; [| exact He |].
      - msimpl. apply lookup_insert_eq.
      - rewrite Hn. apply list_lookup_insert_eq.
        rewrite length_insert, length_app. cbn [length]. lia. }
  msimpl.
  unfold ret. apply Ok_eq. apply mk_machine_eq.
  - apply map_eq. intros i.
    rewrite !lookup_insert. repeat case_decide; try lia; try reflexivity.
    subst i. f_equal. f_equal.
    rewrite !list_insert_insert_eq.
    rewrite insert_app_r_alt by lia. rewrite Hn, Nat.sub_diag. reflexivity.
  - lia.
  - now destruct pl as [|? [|? ?]].
Qed.

Lemma esd_body_malloc_fail esl_data signature_size g out st m sl pl :
  heap_wf m ->
  sd_array m (l_signature st) sl ->
  Z.of_nat (length sl) = l_entries st ->
  (l_entries st + 1) * sizeof_grub_pks_sd_t < 2 ^ 32 ->
  head (m_plan m) <> Some false ->
  tail (m_plan m) = false :: pl ->
  esd_body esl_data signature_size g out st m =
    Ok (inr (GRUB_ERR_OUT_OF_MEMORY, (m_brk m, l_entries st + 1)))
       (set_errno GRUB_ERR_OUT_OF_MEMORY
          (set_brk (m_brk m + 1)
             (set_heap
                (<[m_brk m := Slots (sl ++ [failed_slot])]>
                   (delete (l_signature st) (m_heap m)))
                (set_plan pl m)))).
Proof.
  intros Hwf Harr Hlen Hsz Hp1 Hp2.
  assert (0 <= l_entries st) as He by lia.
  destruct (realloc_size _ He Hsz) as [Hw Hcap].
  assert (Z.to_nat (l_entries st) = length sl) as Hn by lia.
  unfold esd_body.
  rewrite (bind_ok _ _ _ _ _ (grub_realloc_ok _ _ _ _ Harr Hp1)).
  destruct Hwf as [Hb Hwf].
  destruct m as [h b pl0 fr en mx ks us].
  destruct st as [esz off sig e].
  msimpl. msimpl_in Hb. msimpl_in Hp1. msimpl_in Hp2. msimpl_in Hn.
  msimpl_in Hcap. msimpl_in Hw. msimpl_in He.
  destruct (Z.eqb_spec b NULL) as [E|_]; [unfold NULL in E; lia |].
  rewrite Hcap, Hw.
  rewrite Hn, resize_ge, Nat.sub_succ_l, Nat.sub_diag by lia.
  cbn [replicate app].
  erewrite bind_ok by (eapply grub_malloc_fail; msimpl; exact Hp2). msimpl.
  erewrite bind_ok.
  2:{ eapply store_slot_ok with (sl := sl ++ [fresh_slot]) (s := fresh_slot).
      - msimpl. apply lookup_insert_eq.
      - exact He.
      - rewrite Hn. rewrite lookup_app_r by lia. now rewrite Nat.sub_diag. }
  msimpl.
  destruct (Z.eqb_spec NULL NULL) as [_|E]; [| now elim E].
  unfold bind, grub_error, bind, modify, ret. msimpl. apply Ok_eq.
  apply mk_machine_eq; [| reflexivity | reflexivity].
  apply map_eq. intros i.
  rewrite !lookup_insert. repeat case_decide; try lia; try reflexivity.
  f_equal. f_equal.
  rewrite insert_app_r_alt by lia. rewrite Hn, Nat.sub_diag. reflexivity.
Qed.

Lemma esd_body_realloc_fail esl_data signature_size g out st m sl pl :
  sd_array m (l_signature st) sl ->
  m_plan m = false :: pl ->
  esd_body esl_data signature_size g out st m =
    Ok (inr (GRUB_ERR_OUT_OF_MEMORY, out))
       (set_errno GRUB_ERR_OUT_OF_MEMORY (set_plan pl m)).
Proof.
  intros Harr Hpl. unfold esd_body.
  rewrite (bind_ok _ _ _ _ _ (grub_realloc_fail _ _ _ _ _ Harr Hpl)).
  reflexivity.
Qed.

(** ** Iterations of the entry loop *)

Lemma esd_while_iter_inl k f esl_data ssz g out st m st' m' :
  esd_iter k esl_data ssz g out st m = Ok (inl st') m' ->
  esd_while (k + f) esl_data ssz g out st m = esd_while f esl_data ssz g out st' m'.
Proof.
  revert st m. induction k as [|k IH]; intros st m H; simpl in *.
  - unfold ret in H. now inversion H.
  - destruct (0 <? l_esl_size st); [| discriminate].
    apply bind_inv_ok in H as (r & m1 & Hb & H).
    rewrite (bind_ok _ _ _ _ _ Hb).
    destruct r as [st1 | v]; [now apply IH | discriminate].
Qed.

Lemma esd_while_iter_inr k f esl_data ssz g out st m v m' :
  esd_iter k esl_data ssz g out st m = Ok (inr v) m' ->
  esd_while (k + f) esl_data ssz g out st m = Ok v m'.
Proof.
  revert st m. induction k as [|k IH]; intros st m H; simpl in *.
  - discriminate.
  - destruct (0 <? l_esl_size st).
    + apply bind_inv_ok in H as (r & m1 & Hb & H).
      rewrite (bind_ok _ _ _ _ _ Hb).
      destruct r as [st1 | v1]; [now apply IH |].
      unfold ret in *. congruence.
    + unfold ret in *. congruence.
Qed.

Lemma esd_iter_app j k esl_data ssz g out st m st' m' :
  esd_iter j esl_data ssz g out st m = Ok (inl st') m' ->
  esd_iter (j + k) esl_data ssz g out st m = esd_iter k esl_data ssz g out st' m'.
Proof.
  revert st m. induction j as [|j IH]; intros st m H; simpl in *.
  - unfold ret in H. now inversion H.
  - destruct (0 <? l_esl_size st); [| discriminate].
    apply bind_inv_ok in H as (r & m1 & Hb & H).
    rewrite (bind_ok _ _ _ _ _ Hb).
    destruct r as [st1 | v]; [now apply IH | discriminate].
Qed.

Lemma new_slots_length g n b sigs : length (new_slots g n b sigs) = length sigs.
Proof. revert b. induction sigs as [|s sigs IH]; intros b; simpl; auto. Qed.

Lemma esd_region_cons s sigs :
  esd_region (s :: sigs) = fst s ++ snd s ++ esd_region sigs.
Proof. unfold esd_region, esd_bytes. simpl. now rewrite <- app_assoc. Qed.

Lemma esd_iter_ok sigs : forall esl_data ssz g out st m sl pre post r,
  heap_wf m ->
  sd_array m (l_signature st) sl ->
  Z.of_nat (length sl) = l_entries st ->
  (l_entries st + Z.of_nat (length sigs)) * sizeof_grub_pks_sd_t < 2 ^ 32 ->
  plan_ok (2 * length sigs) (m_plan m) ->
  Forall (esd_wf ssz) sigs ->
  esl_data = pre ++ esd_region sigs ++ post ->
  l_offset st = Z.of_nat (length pre) ->
  0 <= r ->
  l_esl_size st = (Z.of_nat (length sigs) + r) * ssz ->
  l_offset st + l_esl_size st < 2 ^ 32 ->
  0 < ssz ->
  exists sig' m',
    esd_iter (length sigs) esl_data ssz g out st m =
      Ok (inl {| l_esl_size := r * ssz;
                 l_offset := l_offset st + Z.of_nat (length sigs) * ssz;
                 l_signature := sig';
                 l_entries := l_entries st + Z.of_nat (length sigs) |}) m' /\
    esd_post g (ssz - sizeof_grub_esd_t) sigs sl (l_signature st) sig' m m'.
Proof.
  induction sigs as [|s sigs IH];
    intros esl_data ssz g out st m sl pre post r
      Hwf Harr Hlen Hsz Hpl Hsigs Hdata Hoff Hr Hesl Hlt Hss.
  - exists (l_signature st), m. split.
    + cbn [esd_iter length]. unfold ret. f_equal. f_equal.
      cbn [length] in Hesl.
      destruct st; msimpl; msimpl_in Hesl. f_equal; lia.
    + split; cbn [length new_slots].
      * exact Hwf.
      * destruct m; msimpl. apply mk_machine_eq; [reflexivity | lia | reflexivity].
      * now rewrite app_nil_r.
      * constructor.
      * reflexivity.
      * intros q Hq Hs. destruct Hwf as [_ Hwf]. apply Hwf in Hs. lia.
      * intros H. now elim H.
      * intros H. now elim H.
      * reflexivity.
  - apply Forall_cons in Hsigs as [[Hown Hpay] Hsigs].
    simpl length in *.
    assert (0 <= l_entries st) as He by lia.
    assert (ssz <= l_esl_size st) as Hge by nia.
    assert (sizeof_grub_esd_t <= ssz) as Hss16 by lia.
    assert ((l_entries st + 1) * sizeof_grub_pks_sd_t < 2 ^ 32) as Hsz1
      by (unfold sizeof_grub_pks_sd_t in *; lia).
    pose proof (esd_body_ok esl_data ssz g out st m sl pre (fst s) (snd s)
                  (esd_region sigs ++ post) Hwf Harr Hlen Hsz1
                  ltac:(eapply plan_ok_le; [| exact Hpl]; lia) ltac:(lia)
                  ltac:(rewrite Hdata, esd_region_cons, <- !app_assoc; reflexivity)
                  Hoff Hown Hpay) as Hbody.
    rewrite (wrap32_small (l_esl_size st - ssz)) in Hbody by lia.
    rewrite (wrap32_small (l_offset st + ssz)) in Hbody by lia.
    match type of Hbody with _ = Ok (inl ?st1) ?m1 =>
      set (st1' := st1) in *; set (m1' := m1) in * end.
    assert (heap_wf m1') as Hwf1.
    { destruct Hwf as [Hb Hwf]. split; [subst m1'; msimpl; lia |].
      intros p. subst m1'. msimpl. rewrite !lookup_insert.
      repeat case_decide; try lia.
      intros Hp. rewrite lookup_delete in Hp. case_decide.
      - destruct Hp; discriminate.
      - apply Hwf in Hp. lia. }
    destruct (sd_array_fresh _ _ _ Hwf Harr) as [Hne0 Hne1].
    assert (m_brk m <> NULL) by (destruct Hwf; unfold NULL; lia).
    specialize (IH esl_data ssz g out st1' m1'
                  (sl ++ [full_slot g (m_brk m + 1) (ssz - sizeof_grub_esd_t)])
                  (pre ++ fst s ++ snd s) post r Hwf1).
    destruct IH as (sig' & m' & Hiter & Hpost).
    + right. split; [assumption |]. subst st1' m1'; msimpl. apply lookup_insert_eq.
    + subst st1'; msimpl. rewrite length_app; simpl. lia.
    + subst st1'; msimpl. lia.
    + subst m1'; msimpl.
      apply (plan_ok_drop _ 2). eapply plan_ok_le; [| exact Hpl]. lia.
    + exact Hsigs.
    + rewrite Hdata, esd_region_cons, <- !app_assoc. reflexivity.
    + subst st1'; msimpl. rewrite !length_app. unfold sizeof_grub_esd_t in *. lia.
    + exact Hr.
    + subst st1'; msimpl. lia.
    + subst st1'; msimpl. lia.
    + exact Hss.
    + exists sig', m'. split.
      * simpl esd_iter.
        destruct (Z.ltb_spec 0 (l_esl_size st)); [| lia].
        rewrite (bind_ok _ _ _ _ _ Hbody). rewrite Hiter.
        subst st1'; msimpl. do 2 f_equal. f_equal; lia.
      * destruct Hpost as [Pwf Pm Parr Pent Pframe Pfresh Psig Psf Pss].
        assert (m_heap m' !! (m_brk m + 1) = Some (Bytes (snd s))) as Hp1.
        { rewrite Pframe; subst st1' m1'; msimpl; try lia.
          rewrite lookup_insert_ne by lia. apply lookup_insert_eq. }
        split.
        -- exact Pwf.
        -- rewrite Pm at 1. subst m1'. destruct m; msimpl.
           cbn [length]. apply mk_machine_eq; [reflexivity | lia |].
           rewrite drop_drop. f_equal. lia.
        -- simpl new_slots. rewrite <- app_assoc in Parr. simpl in Parr.
           replace (m_brk m + 2) with (m_brk m1') by (subst m1'; reflexivity).
           exact Parr.
        -- simpl new_slots. constructor.
           ++ unfold slot_entry, full_slot; simpl. now rewrite Hp1.
           ++ exact Pent.
        -- intros q Hq Hqs. rewrite Pframe.
           ++ subst m1'; msimpl. rewrite !lookup_insert_ne by lia.
              now rewrite lookup_delete_ne.
           ++ subst m1'; msimpl. lia.
           ++ subst st1'; msimpl. lia.
        -- intros q Hq Hs. simpl new_slots.
           destruct (decide (q = m_brk m + 1)) as [-> | Hq1].
           { right. eexists. split; [apply list_elem_of_here | reflexivity]. }
           destruct (decide (q = m_brk m)) as [-> | Hq0].
           { destruct sigs as [|s2 sigs].
             - simpl in Hiter. unfold ret in Hiter. inversion Hiter; subst.
               left. reflexivity.
             - destruct Psig as [Pnone _]; [discriminate |].
               subst st1'; msimpl_in Pnone. rewrite Pnone in Hs.
               destruct Hs; discriminate. }
           destruct (Pfresh q) as [-> | (s' & Hin & Hd)].
           ++ subst m1'; msimpl. lia.
           ++ exact Hs.
           ++ now left.
           ++ right. exists s'. split; [| exact Hd].
              apply list_elem_of_further. exact Hin.
        -- intros _. split.
           ++ destruct Harr as [[Hn _] | [Hn Hl]].
              ** destruct Pwf as [_ Pwf].
                 destruct (m_heap m' !! l_signature st) eqn:E; [| reflexivity].
                 assert (0 < l_signature st) by (apply Pwf; eauto).
                 unfold NULL in Hn. lia.
              ** rewrite Pframe.
                 --- subst m1'; msimpl. rewrite !lookup_insert_ne by lia.
                     apply lookup_delete_eq.
                 --- destruct Hwf as [_ Hwf'].
                     assert (0 < l_signature st < m_brk m) by (apply Hwf'; eauto).
                     subst m1'; msimpl. lia.
                 --- subst st1'; msimpl. lia.
           ++ destruct sigs as [|s2 sigs].
              ** simpl in Hiter. unfold ret in Hiter. inversion Hiter; subst.
                 assumption.
              ** apply Psig. discriminate.
        -- intros _. destruct sigs as [|s2 sigs].
           ++ rewrite (Pss eq_refl). subst st1'; msimpl. lia.
           ++ specialize (Psf ltac:(discriminate)). subst m1'; msimpl_in Psf. lia.
        -- discriminate.
Qed.

(** ** Termination of the entry loop *)

Lemma fuel_free_ret {A} (a : A) : fuel_free (ret a).
Proof. intros m. discriminate. Qed.

Lemma fuel_free_throw {A} f : fuel_free (@throw A f).
Proof. intros m. discriminate. Qed.

Lemma fuel_free_bind {A B} (c : M A) (k : A -> M B) :
  fuel_free c -> (forall a, fuel_free (k a)) -> fuel_free (bind c k).
Proof.
  intros Hc Hk m. unfold bind. specialize (Hc m).
  destruct (c m) as [a m'| |]; [apply Hk | discriminate | contradiction].
Qed.

Lemma fuel_free_get : fuel_free get.
Proof. intros m. discriminate. Qed.

Lemma fuel_free_modify f : fuel_free (modify f).
Proof. intros m. discriminate. Qed.

Lemma fuel_free_next_outcome : fuel_free next_outcome.
Proof. intros m. unfold next_outcome. destruct (m_plan m); discriminate. Qed.

Lemma fuel_free_place b : fuel_free (place b).
Proof. intros m. discriminate. Qed.

Create HintDb fuel_free.
#[local] Hint Resolve fuel_free_ret fuel_free_throw fuel_free_get
  fuel_free_modify fuel_free_next_outcome fuel_free_place : fuel_free.

Ltac fuel_free_tac :=
  repeat first
    [ progress auto with fuel_free
    | apply fuel_free_bind; [| intros ?]
    | match goal with
      | |- fuel_free (if ?b then _ else _) => destruct b
      | |- fuel_free (match ?x with _ => _ end) => destruct x
      end ].

Lemma fuel_free_grub_error e : fuel_free (grub_error e).
Proof. unfold grub_error. fuel_free_tac. Qed.

Lemma fuel_free_grub_malloc size : fuel_free (grub_malloc size).
Proof. unfold grub_malloc. fuel_free_tac. Qed.

Lemma fuel_free_grub_realloc ptr size : fuel_free (grub_realloc ptr size).
Proof. unfold grub_realloc. fuel_free_tac. Qed.

Lemma fuel_free_grub_free ptr : fuel_free (grub_free ptr).
Proof. unfold grub_free. fuel_free_tac. Qed.

Lemma fuel_free_load_slot ptr i : fuel_free (load_slot ptr i).
Proof. unfold load_slot. fuel_free_tac. Qed.

Lemma fuel_free_store_slot ptr i f : fuel_free (store_slot ptr i f).
Proof.
  unfold store_slot. apply fuel_free_bind; [apply fuel_free_load_slot |].
  intros s. apply fuel_free_modify.
Qed.

Lemma fuel_free_read_bytes buf off n : fuel_free (read_bytes buf off n).
Proof. unfold read_bytes. fuel_free_tac. Qed.

Lemma fuel_free_write_bytes dst bs : fuel_free (write_bytes dst bs).
Proof. unfold write_bytes. fuel_free_tac. Qed.

Lemma fuel_free_load_buffer ptr : fuel_free (load_buffer ptr).
Proof. unfold load_buffer. fuel_free_tac. Qed.

Lemma fuel_free_load_cell {A} (c : cell A) : fuel_free (load_cell c).
Proof. destruct c; simpl; auto with fuel_free. Qed.

#[local] Hint Resolve fuel_free_grub_error fuel_free_grub_malloc
  fuel_free_grub_realloc fuel_free_grub_free fuel_free_load_slot
  fuel_free_store_slot fuel_free_read_bytes fuel_free_write_bytes
  fuel_free_load_buffer fuel_free_load_cell : fuel_free.

Lemma fuel_free_esd_body esl_data ssz g out st :
  fuel_free (esd_body esl_data ssz g out st).
Proof. unfold esd_body. fuel_free_tac. Qed.

(** Whatever the allocator does, a run of the body that goes on to the next
    iteration has moved the three counters by one signature. *)
Lemma esd_body_inl esl_data ssz g out st m st' m' :
  esd_body esl_data ssz g out st m = Ok (inl st') m' ->
  l_esl_size st' = wrap32 (l_esl_size st - ssz) /\
  l_offset st' = wrap32 (l_offset st + ssz) /\
  l_entries st' = wrap32 (l_entries st + 1).
Proof.
  unfold esd_body. intros H.
  apply bind_inv_ok in H as (sg & m1 & _ & H).
  destruct (sg =? NULL).
  { apply bind_inv_ok in H as (? & ? & _ & H). discriminate. }
  apply bind_inv_ok in H as (p & m2 & _ & H).
  apply bind_inv_ok in H as (? & m3 & _ & H).
  destruct (p =? NULL).
  { apply bind_inv_ok in H as (? & ? & _ & H). discriminate. }
  apply bind_inv_ok in H as (bs & m4 & _ & H).
  apply bind_inv_ok in H as (? & m5 & _ & H).
  apply bind_inv_ok in H as (? & m6 & _ & H).
  apply bind_inv_ok in H as (? & m7 & _ & H).
  unfold ret in H. inversion H; subst. now cbn.
Qed.

(** The body returns from the function only with an allocation error. *)
Lemma esd_body_inr esl_data ssz g out st m e o m' :
  esd_body esl_data ssz g out st m = Ok (inr (e, o)) m' ->
  e = GRUB_ERR_OUT_OF_MEMORY.
Proof.
  unfold esd_body. intros H.
  apply bind_inv_ok in H as (sg & m1 & _ & H).
  destruct (sg =? NULL).
  { apply bind_inv_ok in H as (? & ? & He & H). unfold ret in H.
    unfold grub_error, bind, modify, ret in He. congruence. }
  apply bind_inv_ok in H as (p & m2 & _ & H).
  apply bind_inv_ok in H as (? & m3 & _ & H).
  destruct (p =? NULL).
  { apply bind_inv_ok in H as (? & ? & He & H). unfold ret in H.
    unfold grub_error, bind, modify, ret in He. congruence. }
  apply bind_inv_ok in H as (bs & m4 & _ & H).
  apply bind_inv_ok in H as (? & m5 & _ & H).
  apply bind_inv_ok in H as (? & m6 & _ & H).
  apply bind_inv_ok in H as (? & m7 & _ & H).
  discriminate.
Qed.








(** ** Well-formed signature lists *)

Lemma read_bytes_at buf (pre mid post : list Z) off n m :
  buf = pre ++ mid ++ post ->
  off = Z.of_nat (length pre) ->
  n = Z.of_nat (length mid) ->
  read_bytes buf off n m = Ok mid m.
Proof. intros ->. apply read_bytes_ok. Qed.

Lemma esd_region_length ssz sigs :
  Forall (esd_wf ssz) sigs ->
  Z.of_nat (length (esd_region sigs)) = Z.of_nat (length sigs) * ssz.
Proof.
  induction 1 as [|s sigs [Ho Hp] _ IH].
  - reflexivity.
  - rewrite esd_region_cons, !length_app. cbn [length].
    unfold sizeof_grub_esd_t in *. lia.
Qed.

Lemma esl_bytes_length l :
  esl_wf l -> Z.of_nat (length (esl_bytes l)) = esl_length l.
Proof.
  intros [Ht Hs Hsig Hf]. unfold esl_bytes, esl_length.
  rewrite !length_app, Ht. cbn [enc32 length].
  pose proof (esd_region_length _ _ Hsig). unfold sizeof_grub_esl_t. lia.
Qed.

Lemma slot_entry_frame (h h' : gmap Z block) s e :
  (forall p bs, h !! p = Some (Bytes bs) -> h' !! p = Some (Bytes bs)) ->
  slot_entry h s = Some e -> slot_entry h' s = Some e.
Proof.
  intros Hf. unfold slot_entry.
  destruct (guid s), (data s) as [|p], (data_size s); try discriminate.
  destruct (h !! p) as [[bs|]|] eqn:E; try discriminate.
  now rewrite (Hf _ _ E).
Qed.

Lemma esd_post_bytes g n sigs sl sd sd' m m' :
  heap_wf m -> sd_array m sd sl ->
  esd_post g n sigs sl sd sd' m m' ->
  forall p bs, m_heap m !! p = Some (Bytes bs) -> m_heap m' !! p = Some (Bytes bs).
Proof.
  intros [Hb Hwf] Harr Hpost p bs Hp.
  rewrite (post_frame _ _ _ _ _ _ _ _ Hpost); [exact Hp | |].
  - assert (0 < p < m_brk m) by (apply Hwf; eauto). lia.
  - destruct Harr as [[-> _] | [_ Hl]].
    + assert (0 < p < m_brk m) by (apply Hwf; eauto). unfold NULL. lia.
    + intros ->. congruence.
Qed.

Lemma esd_post_holds g ssz sigs sl sd sd' m m' old :
  heap_wf m -> sd_array m sd sl ->
  Forall2 (fun s e => slot_entry (m_heap m) s = Some e) sl old ->
  esd_post g (ssz - sizeof_grub_esd_t) sigs sl sd sd' m m' ->
  sd_holds m' sd' (Z.of_nat (length sl) + Z.of_nat (length sigs))
    (old ++ esd_entries g ssz sigs).
Proof.
  intros Hwf Harr Hold Hpost.
  exists (sl ++ new_slots g (ssz - sizeof_grub_esd_t) (m_brk m) sigs).
  split; [apply (post_array _ _ _ _ _ _ _ _ Hpost) |].
  split; [rewrite length_app, new_slots_length; lia |].
  apply Forall2_app.
  - eapply Forall2_impl; [exact Hold |].
    intros s e. apply slot_entry_frame.
    eapply esd_post_bytes; eassumption.
  - unfold esd_entries. apply Forall2_fmap_r.
    apply (post_entries _ _ _ _ _ _ _ _ Hpost).
Qed.

(** [esl_to_esd] on a well-formed list: the header is accepted and the
    entry region is handed to [_esl_to_esd]. *)
Lemma esl_to_esd_header l post fuel next_esl out m :
  esl_wf l ->
  esl_length l <= next_esl ->
  esl_to_esd fuel (esl_bytes l ++ post) next_esl out m =
    (r <- _esl_to_esd fuel (esd_region (esl_signatures l) ++ post)
            (Z.of_nat (length (esl_signatures l)) * esl_signature_size l)
            (esl_signature_size l) (esl_type l) out ;;
     ret (fst r, esl_length l, snd r)) m.
Proof.
  intros Hl Hnext.
  pose proof (esl_bytes_length l Hl) as Hbl.
  destruct Hl as [Ht [Hs Hs32] Hsig Hf].
  pose proof (esd_region_length _ _ Hsig) as Hrl.
  set (n := length (esl_signatures l)) in *.
  set (ssz := esl_signature_size l) in *.
  set (hl := length (esl_header l)) in *.
  assert (0 <= Z.of_nat n * ssz) as Hreg by lia.
  assert (esl_length l = sizeof_grub_esl_t + Z.of_nat hl + Z.of_nat n * ssz)
    as Hlen_eq by reflexivity.
  assert (sizeof_grub_esl_t = 28) as H28 by reflexivity.
  assert (0 < ssz) as Hs0 by (unfold sizeof_grub_esd_t in Hs; lia).
  unfold esl_to_esd.
  destruct (Z.ltb_spec next_esl sizeof_grub_esl_t) as [|_]; [lia |].
  assert (esl_bytes l ++ post =
          esl_type l ++ enc32 (esl_length l) ++ enc32 (Z.of_nat hl) ++ enc32 ssz
          ++ esl_header l ++ esd_region (esl_signatures l) ++ post) as Hbuf
    by (unfold esl_bytes; rewrite <- !app_assoc; reflexivity).
  rewrite Hbuf.
  erewrite bind_ok.
  2:{ eapply read_bytes_at with (pre := []) (mid := esl_type l); [reflexivity | |].
      - reflexivity.
      - rewrite Ht. reflexivity. }
  erewrite bind_ok.
  2:{ eapply read_bytes_at with (pre := esl_type l) (mid := enc32 (esl_length l));
        [reflexivity | |].
      - rewrite Ht. reflexivity.
      - reflexivity. }
  erewrite bind_ok.
  2:{ eapply read_bytes_at
        with (pre := esl_type l ++ enc32 (esl_length l)) (mid := enc32 (Z.of_nat hl)).
      - rewrite <- !app_assoc. reflexivity.
      - rewrite length_app, Ht. reflexivity.
      - reflexivity. }
  erewrite bind_ok.
  2:{ eapply read_bytes_at
        with (pre := esl_type l ++ enc32 (esl_length l) ++ enc32 (Z.of_nat hl))
             (mid := enc32 ssz).
      - rewrite <- !app_assoc. reflexivity.
      - rewrite !length_app, Ht. reflexivity.
      - reflexivity. }
  rewrite !le32_enc32 by lia.
  destruct (Z.ltb_spec (esl_length l) sizeof_grub_esl_t) as [|_]; [lia |].
  destruct (Z.ltb_spec next_esl (esl_length l)) as [|_]; [lia |].
  cbn [orb].
  rewrite (wrap32_small (sizeof_grub_esl_t + Z.of_nat hl)) by lia.
  replace (esl_length l - (sizeof_grub_esl_t + Z.of_nat hl))
    with (Z.of_nat n * ssz) by lia.
  rewrite wrap32_small by lia.
  replace (drop (Z.to_nat (sizeof_grub_esl_t + Z.of_nat hl))
             (esl_type l ++ enc32 (esl_length l) ++ enc32 (Z.of_nat hl)
              ++ enc32 ssz ++ esl_header l ++ esd_region (esl_signatures l) ++ post))
    with (esd_region (esl_signatures l) ++ post).
  2:{ symmetry.
      rewrite !(app_assoc _ _ (esd_region (esl_signatures l) ++ post)).
      rewrite !(app_assoc _ _ (esl_header l)).
      apply drop_app_length'.
      rewrite !length_app, Ht. cbn [enc32 length]. fold hl. lia. }
  reflexivity.
Qed.

(** [esl_to_esd] on a well-formed list, with the allocator cooperating. *)
Lemma esl_to_esd_ok l post fuel next_esl sd e m sl :
  esl_wf l ->
  esl_length l <= next_esl ->
  heap_wf m ->
  sd_array m sd sl ->
  Z.of_nat (length sl) = e ->
  (e + Z.of_nat (length (esl_signatures l))) * sizeof_grub_pks_sd_t < 2 ^ 32 ->
  plan_ok (2 * length (esl_signatures l)) (m_plan m) ->
  (length (esl_signatures l) < fuel)%nat ->
  exists sd' m',
    esl_to_esd fuel (esl_bytes l ++ post) next_esl (sd, e) m =
      Ok (GRUB_ERR_NONE, esl_length l,
          (sd', e + Z.of_nat (length (esl_signatures l)))) m' /\
    esd_post (esl_type l) (esl_signature_size l - sizeof_grub_esd_t)
      (esl_signatures l) sl sd sd' m m'.
Proof.
  intros Hl Hnext Hwf Harr Hlen Hcap Hpl Hfuel.
  rewrite (esl_to_esd_header l post fuel next_esl (sd, e) m Hl Hnext).
  destruct Hl as [Ht [Hs Hs32] Hsig Hf].
  set (n := length (esl_signatures l)) in *.
  set (ssz := esl_signature_size l) in *.
  assert (0 < ssz) as Hs0 by (unfold sizeof_grub_esd_t in Hs; lia).
  assert (Z.of_nat n * ssz < 2 ^ 32) as Hreg.
  { unfold esl_length, sizeof_grub_esl_t in Hf. fold n ssz in Hf. lia. }
  destruct (esd_iter_ok (esl_signatures l) (esd_region (esl_signatures l) ++ post)
              ssz (esl_type l) (sd, e)
              {| l_esl_size := Z.of_nat n * ssz; l_offset := 0;
                 l_signature := sd; l_entries := e |}
              m sl [] post 0 Hwf Harr Hlen Hcap Hpl Hsig eq_refl eq_refl
              ltac:(lia) ltac:(cbn [l_esl_size]; fold n; lia)
              ltac:(cbn [l_esl_size l_offset]; lia) Hs0)
    as (sd' & m' & Hiter & Hpost).
  exists sd', m'. split; [| exact Hpost].
  unfold _esl_to_esd. cbn [fst snd].
  replace fuel with (n + S (fuel - n - 1))%nat by lia.
  fold n in Hiter. unfold bind.
  rewrite (esd_while_iter_inl _ _ _ _ _ _ _ _ _ _ Hiter).
  cbn [esd_while l_esl_size l_signature l_entries].
  rewrite Z.mul_0_l. cbn [Z.ltb Z.compare]. unfold ret.
  cbn [fst snd]. reflexivity.
Qed.

Lemma boot_machine_wf pl : heap_wf (boot_machine pl).
Proof.
  split; [cbn; lia |]. intros p [b Hb]. cbn in Hb.
  rewrite lookup_empty in Hb. discriminate.
Qed.

Lemma sd_holds_null m : sd_holds m NULL 0 [].
Proof. exists []. split; [left; now split |]. split; [reflexivity | constructor]. Qed.

(** C3. Unpacking one well-formed signature list of [N] signatures (entry
    region an exact multiple of the signature size, signature size above
    the entry header), the allocator granting the [2 N] requests: the call
    returns [GRUB_ERR_NONE], reports the list size as consumed, and the
    database holds its former entries followed by exactly [N] new ones, each
    with the type GUID of the list header (whatever the owner GUID of the
    signature) and a copy of the signature's payload, of length signature
    size minus entry header size. *)
Theorem esl_to_esd_unpacks l post fuel next_esl sd e old m :
  esl_wf l ->
  esl_length l <= next_esl ->
  heap_wf m ->
  sd_holds m sd e old ->
  (e + Z.of_nat (length (esl_signatures l))) * sizeof_grub_pks_sd_t < 2 ^ 32 ->
  plan_ok (2 * length (esl_signatures l)) (m_plan m) ->
  (length (esl_signatures l) < fuel)%nat ->
  exists sd' m',
    esl_to_esd fuel (esl_bytes l ++ post) next_esl (sd, e) m =
      Ok (GRUB_ERR_NONE, esl_length l,
          (sd', e + Z.of_nat (length (esl_signatures l)))) m' /\
    sd_holds m' sd' (e + Z.of_nat (length (esl_signatures l)))
      (old ++ esl_entries l) /\
    length (esl_entries l) = length (esl_signatures l) /\
    map e_data (esl_entries l) = map snd (esl_signatures l) /\
    Forall (fun en =>
              e_guid en = esl_type l /\
              e_size en = esl_signature_size l - sizeof_grub_esd_t /\
              Z.of_nat (length (e_data en)) = esl_signature_size l - sizeof_grub_esd_t)
      (esl_entries l).
Proof.
  intros Hl Hnext Hwf (sl & Harr & Hlen & Hold) Hcap Hpl Hfuel.
  destruct (esl_to_esd_ok l post fuel next_esl sd e m sl
              Hl Hnext Hwf Harr Hlen Hcap Hpl Hfuel) as (sd' & m' & Hrun & Hpost).
  exists sd', m'. split; [exact Hrun |]. split.
  - rewrite <- Hlen. eapply esd_post_holds; eassumption.
  - unfold esl_entries, esd_entries. split; [apply length_map |]. split.
    + rewrite <- list_fmap_compose. reflexivity.
    + apply Forall_fmap. eapply Forall_impl; [apply (wf_signatures l Hl) |].
      intros s [_ Hp]. cbn. auto.
Qed.

(** ** The driving loop of the unpacker *)

Lemma esl_length_min l : esl_wf l -> sizeof_grub_esl_t <= esl_length l.
Proof.
  intros [_ [Hs _] _ _]. unfold esl_length, sizeof_grub_esd_t in *.
  assert (0 <= Z.of_nat (length (esl_signatures l)) * esl_signature_size l) by lia.
  lia.
Qed.

Lemma esls_length_nonneg ls : Forall esl_wf ls -> 0 <= esls_length ls.
Proof.
  induction 1 as [|l ls Hl _ IH]; cbn [esls_length]; [lia |].
  pose proof (esl_length_min l Hl). unfold sizeof_grub_esl_t in *. lia.
Qed.

Lemma esls_length_pos l ls : Forall esl_wf (l :: ls) -> 0 < esls_length (l :: ls).
Proof.
  intros H. apply Forall_cons in H as [Hl Hls]. cbn [esls_length].
  pose proof (esl_length_min l Hl). pose proof (esls_length_nonneg ls Hls).
  unfold sizeof_grub_esl_t in *. lia.
Qed.

(** One run of the body of the driving loop over a well-formed list. *)
Lemma sd_body_ok l rest size_rest fuel sd e old m :
  esl_wf l ->
  0 <= size_rest ->
  esl_length l + size_rest < 2 ^ 32 ->
  heap_wf m ->
  sd_holds m sd e old ->
  (e + Z.of_nat (length (esl_signatures l))) * sizeof_grub_pks_sd_t < 2 ^ 32 ->
  plan_ok (2 * length (esl_signatures l)) (m_plan m) ->
  (length (esl_signatures l) < fuel)%nat ->
  exists sd' m',
    sd_body fuel {| s_esl_data := esl_bytes l ++ rest;
                    s_esl_size := esl_length l + size_rest;
                    s_out := (sd, e) |} m =
      Ok (GRUB_ERR_NONE,
          {| s_esl_data := rest; s_esl_size := size_rest;
             s_out := (sd', e + Z.of_nat (length (esl_signatures l))) |}) m' /\
    sd_holds m' sd' (e + Z.of_nat (length (esl_signatures l)))
      (old ++ esl_entries l) /\
    heap_wf m' /\
    m' = set_brk (m_brk m + 2 * Z.of_nat (length (esl_signatures l)))
           (set_heap (m_heap m')
              (set_plan (drop (2 * length (esl_signatures l)) (m_plan m)) m)).
Proof.
  intros Hl Hrest Hfit Hwf (sl & Harr & Hlen & Hold) Hcap Hpl Hfuel.
  destruct (esl_to_esd_ok l rest fuel (esl_length l + size_rest) sd e m sl
              Hl ltac:(lia) Hwf Harr Hlen Hcap Hpl Hfuel)
    as (sd' & m' & Hrun & Hpost).
  exists sd', m'. split; [| split; [| split]].
  - unfold sd_body. cbn [s_esl_data s_esl_size s_out].
    rewrite (bind_ok _ _ _ _ _ Hrun). cbn [grub_err_eqb].
    pose proof (esl_length_min l Hl) as Hmin. unfold sizeof_grub_esl_t in Hmin.
    rewrite (drop_app_length' (esl_bytes l) rest)
      by (pose proof (esl_bytes_length l Hl); lia).
    replace (esl_length l + size_rest - esl_length l) with size_rest by lia.
    rewrite wrap32_small by lia. reflexivity.
  - rewrite <- Hlen. eapply esd_post_holds; eassumption.
  - apply (post_wf _ _ _ _ _ _ _ _ Hpost).
  - apply (post_machine _ _ _ _ _ _ _ _ Hpost).
Qed.

Lemma esls_bytes_cons l ls rest :
  esls_bytes (l :: ls) ++ rest = esl_bytes l ++ esls_bytes ls ++ rest.
Proof. unfold esls_bytes. cbn [map concat]. now rewrite <- app_assoc. Qed.

Lemma sd_do_while_ok ls : forall l post fuel sd e old m,
  Forall esl_wf (l :: ls) ->
  esls_length (l :: ls) < 2 ^ 32 ->
  heap_wf m ->
  sd_holds m sd e old ->
  (e + Z.of_nat (esls_count (l :: ls))) * sizeof_grub_pks_sd_t < 2 ^ 32 ->
  plan_ok (2 * esls_count (l :: ls)) (m_plan m) ->
  (length (l :: ls) + esls_count (l :: ls) < fuel)%nat ->
  exists sd' m',
    sd_do_while fuel
      {| s_esl_data := esls_bytes (l :: ls) ++ post;
         s_esl_size := esls_length (l :: ls); s_out := (sd, e) |} m =
      Ok (GRUB_ERR_NONE, (sd', e + Z.of_nat (esls_count (l :: ls)))) m' /\
    sd_holds m' sd' (e + Z.of_nat (esls_count (l :: ls)))
      (old ++ esls_entries (l :: ls)) /\
    heap_wf m' /\
    m' = set_brk (m_brk m + 2 * Z.of_nat (esls_count (l :: ls)))
           (set_heap (m_heap m')
              (set_plan (drop (2 * esls_count (l :: ls)) (m_plan m)) m)).
Proof.
  induction ls as [|l2 ls IH]; intros l post fuel sd e old m
    Hls Hfit Hwf Hold Hcap Hpl Hfuel.
  - apply Forall_cons in Hls as [Hl _].
    cbn [esls_length esls_count length] in *.
    rewrite Nat.add_0_r in *. rewrite Z.add_0_r in Hfit.
    destruct fuel as [|fuel]; [lia |].
    destruct (sd_body_ok l post 0 fuel sd e old m Hl ltac:(lia) ltac:(lia)
                Hwf Hold Hcap Hpl ltac:(lia)) as (sd' & m' & Hb & Hh & Hw & Hm).
    exists sd', m'. split; [| split; [| split]].
    + cbn [sd_do_while]. rewrite esls_bytes_cons. unfold esls_bytes at 1.
      cbn [map concat app].
      rewrite (bind_ok _ _ _ _ _ Hb). cbn [grub_err_eqb s_esl_size andb s_out].
      reflexivity.
    + unfold esls_entries. cbn [map concat]. now rewrite app_nil_r.
    + exact Hw.
    + exact Hm.
  - pose proof Hls as Hls'. apply Forall_cons in Hls' as [Hl Hrest].
    pose proof (esls_length_pos _ _ Hrest) as Hpos.
    pose proof (esl_length_min l Hl) as Hmin. unfold sizeof_grub_esl_t in Hmin.
    remember (l2 :: ls) as ls2 eqn:Els2.
    cbn [esls_length esls_count length] in Hfit, Hcap, Hpl, Hfuel |- *.
    destruct fuel as [|fuel]; [lia |].
    destruct (sd_body_ok l (esls_bytes ls2 ++ post) (esls_length ls2) fuel
                sd e old m Hl ltac:(lia) ltac:(lia) Hwf Hold
                ltac:(unfold sizeof_grub_pks_sd_t in *; lia)
                ltac:(eapply plan_ok_le; [| exact Hpl]; lia) ltac:(lia))
      as (sd1 & m1 & Hb & Hh & Hw & Hm).
    subst ls2.
    destruct (IH l2 post fuel sd1 (e + Z.of_nat (length (esl_signatures l)))
                (old ++ esl_entries l) m1 Hrest ltac:(lia) Hw Hh
                ltac:(unfold sizeof_grub_pks_sd_t in *; lia)
                ltac:(rewrite Hm; cbn [m_plan set_brk set_heap set_plan];
                      apply (plan_ok_drop _ (2 * length (esl_signatures l)));
                      eapply plan_ok_le; [| exact Hpl]; lia)
                ltac:(lia))
      as (sd' & m' & Hrun & Hh' & Hw' & Hm').
    exists sd', m'. split; [| split; [| split]].
    + cbn [sd_do_while]. rewrite esls_bytes_cons.
      rewrite (bind_ok _ _ _ _ _ Hb). cbn [grub_err_eqb s_esl_size andb].
      destruct (Z.ltb_spec 0 (esls_length (l2 :: ls))); [| lia].
      rewrite Hrun. do 3 f_equal. lia.
    + unfold esls_entries in *. cbn [map concat] in *.
      rewrite app_assoc.
      replace (e + Z.of_nat (length (esl_signatures l) + esls_count (l2 :: ls)))
        with (e + Z.of_nat (length (esl_signatures l))
              + Z.of_nat (esls_count (l2 :: ls))) by lia.
      exact Hh'.
    + exact Hw'.
    + assert (m_brk m1 = m_brk m + 2 * Z.of_nat (length (esl_signatures l)))
        as Hb1 by (rewrite Hm; reflexivity).
      assert (m_plan m1 = drop (2 * length (esl_signatures l)) (m_plan m))
        as Hp1 by (rewrite Hm; reflexivity).
      rewrite (machine_step_trans _ _ _ _ _ _ _ _ _ Hm Hm') at 1.
      rewrite Hb1, Hp1, drop_drop.
      replace (m_brk m + 2 * Z.of_nat (length (esl_signatures l))
               + 2 * Z.of_nat (esls_count (l2 :: ls)))
        with (m_brk m + 2 * Z.of_nat (length (esl_signatures l)
                                      + esls_count (l2 :: ls))) by lia.
      replace (2 * length (esl_signatures l) + 2 * esls_count (l2 :: ls))%nat
        with (2 * (length (esl_signatures l) + esls_count (l2 :: ls)))%nat by lia.
      reflexivity.
Qed.

Lemma esls_count_app a b : esls_count (a ++ b) = (esls_count a + esls_count b)%nat.
Proof. induction a as [|l a IH]; cbn [esls_count app]; lia. Qed.

Lemma esls_length_app a b : esls_length (a ++ b) = esls_length a + esls_length b.
Proof. induction a as [|l a IH]; cbn [esls_length app]; lia. Qed.

Lemma esls_entries_app a b : esls_entries (a ++ b) = esls_entries a ++ esls_entries b.
Proof. unfold esls_entries. now rewrite map_app, concat_app. Qed.

Lemma esls_length_zero ls : Forall esl_wf ls -> esls_length ls = 0 <-> ls = [].
Proof.
  intros H. split; [| now intros ->].
  destruct ls as [|l ls]; [reflexivity |].
  pose proof (esls_length_pos _ _ H). lia.
Qed.

Lemma sd_iter_ok done : forall todo post fuel sd e old m,
  Forall esl_wf (done ++ todo) ->
  esls_length (done ++ todo) < 2 ^ 32 ->
  heap_wf m ->
  sd_holds m sd e old ->
  (e + Z.of_nat (esls_count done)) * sizeof_grub_pks_sd_t < 2 ^ 32 ->
  plan_ok (2 * esls_count done) (m_plan m) ->
  (esls_count done < fuel)%nat ->
  exists sd' m',
    sd_iter (length done) fuel
      {| s_esl_data := esls_bytes (done ++ todo) ++ post;
         s_esl_size := esls_length (done ++ todo); s_out := (sd, e) |} m =
      Ok (GRUB_ERR_NONE,
          {| s_esl_data := esls_bytes todo ++ post;
             s_esl_size := esls_length todo;
             s_out := (sd', e + Z.of_nat (esls_count done)) |}) m' /\
    sd_holds m' sd' (e + Z.of_nat (esls_count done)) (old ++ esls_entries done).
Proof.
  induction done as [|l done IH]; intros todo post fuel sd e old m
    Hls Hfit Hwf Hold Hcap Hpl Hfuel.
  - exists sd, m. cbn [length sd_iter app esls_count esls_entries map concat].
    rewrite Z.add_0_r, app_nil_r. split; [reflexivity | exact Hold].
  - cbn [app] in Hls, Hfit. pose proof Hls as Hls'.
    apply Forall_cons in Hls' as [Hl Hrest].
    pose proof (esls_length_nonneg _ Hrest) as Hnn.
    pose proof (esl_length_min l Hl) as Hmin. unfold sizeof_grub_esl_t in Hmin.
    cbn [esls_length esls_count length] in Hfit, Hcap, Hpl, Hfuel.
    destruct (sd_body_ok l (esls_bytes (done ++ todo) ++ post)
                (esls_length (done ++ todo)) fuel
                sd e old m Hl ltac:(lia) ltac:(lia) Hwf Hold
                ltac:(unfold sizeof_grub_pks_sd_t in *; lia)
                ltac:(eapply plan_ok_le; [| exact Hpl]; lia) ltac:(lia))
      as (sd1 & m1 & Hb & Hh & Hw & Hm).
    destruct (IH todo post fuel sd1 (e + Z.of_nat (length (esl_signatures l)))
                (old ++ esl_entries l) m1 Hrest ltac:(lia) Hw Hh
                ltac:(unfold sizeof_grub_pks_sd_t in *; lia)
                ltac:(rewrite Hm; cbn [m_plan set_brk set_heap set_plan];
                      apply (plan_ok_drop _ (2 * length (esl_signatures l)));
                      eapply plan_ok_le; [| exact Hpl]; lia)
                ltac:(lia))
      as (sd' & m' & Hrun & Hh').
    exists sd', m'. split.
    + cbn [length sd_iter app esls_length esls_count].
      rewrite esls_bytes_cons.
      rewrite (bind_ok _ _ _ _ _ Hb). cbn [fst snd grub_err_eqb].
      rewrite Hrun. do 4 f_equal. lia.
    + unfold esls_entries in *. cbn [map concat esls_count] in *.
      rewrite app_assoc.
      replace (e + Z.of_nat (length (esl_signatures l) + esls_count done))
        with (e + Z.of_nat (length (esl_signatures l))
              + Z.of_nat (esls_count done)) by lia.
      exact Hh'.
Qed.

(** C4. Unpacking a buffer that holds [K >= 1] well-formed signature lists
    one after the other, each declaring its own extent, the allocator
    granting every request: [pks_sd_from_esl] returns [GRUB_ERR_NONE] and the
    database holds its former entries followed by the entries of list 1,
    then those of list 2, up to list [K].  After [j] runs of the loop body
    the cursor stands at list [j + 1] and the unconsumed size is the total
    size of the lists not yet unpacked, which is zero exactly when [j = K]. *)
Theorem pks_sd_from_esl_concat l ls post fuel sd e old m :
  Forall esl_wf (l :: ls) ->
  esls_length (l :: ls) < 2 ^ 32 ->
  heap_wf m ->
  sd_holds m sd e old ->
  (e + Z.of_nat (esls_count (l :: ls))) * sizeof_grub_pks_sd_t < 2 ^ 32 ->
  plan_ok (2 * esls_count (l :: ls)) (m_plan m) ->
  (length (l :: ls) + esls_count (l :: ls) < fuel)%nat ->
  (exists sd' m',
     pks_sd_from_esl fuel (esls_bytes (l :: ls) ++ post) (esls_length (l :: ls))
       (sd, e) m =
       Ok (GRUB_ERR_NONE, (sd', e + Z.of_nat (esls_count (l :: ls)))) m' /\
     sd_holds m' sd' (e + Z.of_nat (esls_count (l :: ls)))
       (old ++ esls_entries (l :: ls))) /\
  (forall j, (j <= length (l :: ls))%nat ->
     exists sd_j m_j,
       sd_iter j fuel
         {| s_esl_data := esls_bytes (l :: ls) ++ post;
            s_esl_size := esls_length (l :: ls); s_out := (sd, e) |} m =
         Ok (GRUB_ERR_NONE,
             {| s_esl_data := esls_bytes (drop j (l :: ls)) ++ post;
                s_esl_size := esls_length (drop j (l :: ls));
                s_out := (sd_j, e + Z.of_nat (esls_count (take j (l :: ls)))) |})
            m_j /\
       sd_holds m_j sd_j (e + Z.of_nat (esls_count (take j (l :: ls))))
         (old ++ esls_entries (take j (l :: ls))) /\
       (esls_length (drop j (l :: ls)) = 0 <-> j = length (l :: ls))).
Proof.
  intros Hls Hfit Hwf Hold Hcap Hpl Hfuel. split.
  - destruct (sd_do_while_ok ls l post fuel sd e old m
                Hls Hfit Hwf Hold Hcap Hpl Hfuel) as (sd' & m' & Hrun & Hh & _).
    exists sd', m'. split; [exact Hrun | exact Hh].
  - intros j Hj.
    set (all := l :: ls) in *.
    assert (esls_count all = (esls_count (take j all) + esls_count (drop j all))%nat)
      as Hcnt by (rewrite <- esls_count_app, take_drop; reflexivity).
    assert (Forall esl_wf (drop j all)) as Hdrop by now apply Forall_drop.
    destruct (sd_iter_ok (take j all) (drop j all) post fuel sd e old m)
      as (sd_j & m_j & Hrun & Hh).
    + now rewrite take_drop.
    + now rewrite take_drop.
    + exact Hwf.
    + exact Hold.
    + unfold sizeof_grub_pks_sd_t in *. lia.
    + eapply plan_ok_le; [| exact Hpl]. lia.
    + lia.
    + exists sd_j, m_j. rewrite take_drop in Hrun.
      rewrite length_take, Nat.min_l in Hrun by exact Hj.
      split; [exact Hrun |]. split; [exact Hh |].
      rewrite (esls_length_zero _ Hdrop). split.
      * intros H. apply (f_equal length) in H. rewrite length_drop in H.
        cbn [length] in H. lia.
      * intros ->. apply drop_all.
Qed.

(** ** Rejected lists *)

Lemma read_bytes_in buf off n m :
  0 <= off -> 0 <= n -> off + n <= Z.of_nat (length buf) ->
  read_bytes buf off n m = Ok (take (Z.to_nat n) (drop (Z.to_nat off) buf)) m.
Proof.
  intros Ho Hn Hl. unfold read_bytes.
  destruct (Z.ltb_spec off 0); [lia |].
  destruct (Z.ltb_spec n 0); [lia |].
  destruct (Z.ltb_spec (Z.of_nat (length buf)) (off + n)); [lia |].
  reflexivity.
Qed.

(** C5. [esl_to_esd] answers [GRUB_ERR_BUG], the structural error, and
    leaves the machine as it was but for [grub_errno] (so no entry is
    appended, and [*pks_sd], [*pks_sd_entries] and [*next_esl] keep their
    values) whenever the asserted size is below a bare list header, or the
    list size decoded from a readable header is below a bare header or above
    the asserted size. *)
Theorem esl_to_esd_rejects fuel esl_data next_esl out m :
  (next_esl < sizeof_grub_esl_t ->
   esl_to_esd fuel esl_data next_esl out m =
     Ok (GRUB_ERR_BUG, next_esl, out) (set_errno GRUB_ERR_BUG m)) /\
  (sizeof_grub_esl_t <= Z.of_nat (length esl_data) ->
   le32 (take 4 (drop 16 esl_data)) < sizeof_grub_esl_t \/
   next_esl < le32 (take 4 (drop 16 esl_data)) ->
   esl_to_esd fuel esl_data next_esl out m =
     Ok (GRUB_ERR_BUG, next_esl, out) (set_errno GRUB_ERR_BUG m)).
Proof.
  assert (next_esl < sizeof_grub_esl_t ->
          esl_to_esd fuel esl_data next_esl out m =
            Ok (GRUB_ERR_BUG, next_esl, out) (set_errno GRUB_ERR_BUG m)) as Hshort.
  { intros H. unfold esl_to_esd.
    destruct (Z.ltb_spec next_esl sizeof_grub_esl_t); [reflexivity | lia]. }
  split; [exact Hshort |].
  intros Hlen Hbad.
  destruct (Z.lt_ge_cases next_esl sizeof_grub_esl_t) as [Hlt | Hge];
    [now apply Hshort |].
  unfold esl_to_esd, sizeof_grub_esl_t in *.
  destruct (Z.ltb_spec next_esl 28); [lia |].
  rewrite (bind_ok _ _ _ _ _ (read_bytes_in esl_data 0 16 m
             ltac:(lia) ltac:(lia) ltac:(lia))).
  rewrite (bind_ok _ _ _ _ _ (read_bytes_in esl_data 16 4 m
             ltac:(lia) ltac:(lia) ltac:(lia))).
  rewrite (bind_ok _ _ _ _ _ (read_bytes_in esl_data 20 4 m
             ltac:(lia) ltac:(lia) ltac:(lia))).
  rewrite (bind_ok _ _ _ _ _ (read_bytes_in esl_data 24 4 m
             ltac:(lia) ltac:(lia) ltac:(lia))).
  change (Z.to_nat 4) with 4%nat in *. change (Z.to_nat 16) with 16%nat in *.
  destruct (Z.ltb_spec (le32 (take 4 (drop 16 esl_data))) 28) as [|Hge28];
    [reflexivity |].
  destruct (Z.ltb_spec next_esl (le32 (take 4 (drop 16 esl_data))));
    [reflexivity | lia].
Qed.

Lemma esl_to_esd_rejects_witness :
  esl_to_esd 1 (replicate 16 0 ++ enc32 64 ++ enc32 0 ++ enc32 18) 28 (NULL, 0)
    (boot_machine []) =
  Ok (GRUB_ERR_BUG, 28, (NULL, 0)) (set_errno GRUB_ERR_BUG (boot_machine [])).
Proof.
  apply (esl_to_esd_rejects 1 (replicate 16 0 ++ enc32 64 ++ enc32 0 ++ enc32 18)
           28 (NULL, 0) (boot_machine [])).
  - unfold sizeof_grub_esl_t. simpl. lia.
  - right. vm_compute. reflexivity.
Defined.

(** ** Sample data *)

Lemma sample_esl_wf : esl_wf sample_esl.
Proof.
  split.
  - reflexivity.
  - unfold sizeof_grub_esd_t. cbn. lia.
  - repeat constructor.
  - vm_compute. reflexivity.
Qed.

Lemma sample_esl2_wf : esl_wf sample_esl2.
Proof.
  split.
  - reflexivity.
  - unfold sizeof_grub_esd_t. cbn. lia.
  - repeat constructor.
  - vm_compute. reflexivity.
Qed.

Lemma esl_to_esd_unpacks_witness :
  exists sd' m',
    esl_to_esd 3 (esl_bytes sample_esl ++ []) 64 (NULL, 0) (boot_machine []) =
      Ok (GRUB_ERR_NONE, 64, (sd', 2)) m' /\
    sd_holds m' sd' 2
      [mk_entry (replicate 16 170) [5; 6] 2; mk_entry (replicate 16 170) [7; 8] 2].
Proof.
  destruct (esl_to_esd_unpacks sample_esl [] 3 64 NULL 0 [] (boot_machine [])
              sample_esl_wf ltac:(vm_compute; discriminate)
              (boot_machine_wf []) (sd_holds_null _)
              ltac:(vm_compute; reflexivity) ltac:(exact I) ltac:(cbn; lia))
    as (sd' & m' & H1 & H2 & _).
  exists sd', m'. split; [exact H1 | exact H2].
Defined.

Lemma pks_sd_from_esl_concat_witness :
  exists sd' m',
    pks_sd_from_esl 6 (esls_bytes [sample_esl; sample_esl2] ++ []) 113 (NULL, 0)
      (boot_machine []) = Ok (GRUB_ERR_NONE, (sd', 3)) m' /\
    sd_holds m' sd' 3
      [mk_entry (replicate 16 170) [5; 6] 2; mk_entry (replicate 16 170) [7; 8] 2;
       mk_entry (replicate 16 187) [9; 10] 2].
Proof.
  destruct (pks_sd_from_esl_concat sample_esl [sample_esl2] [] 6 NULL 0 []
              (boot_machine [])
              ltac:(constructor; [apply sample_esl_wf |
                      constructor; [apply sample_esl2_wf | constructor]])
              ltac:(vm_compute; reflexivity)
              (boot_machine_wf []) (sd_holds_null _)
              ltac:(vm_compute; reflexivity) ltac:(exact I) ltac:(cbn; lia))
    as [(sd' & m' & H1 & H2) _].
  exists sd', m'. split; [exact H1 | exact H2].
Defined.

(** ** The mode probe *)

Lemma read_sbversion_eval fw m rc bs outlen :
  0 < m_brk m ->
  head (m_plan m) <> Some false ->
  fw_read_object fw = (rc, bs, outlen) ->
  read_sbversion_from_pks fw m =
    let m1 := probe_buffer bs (tail (m_plan m)) m in
    if rc <? 0 then Ok (GRUB_ERR_READ_ERROR, m_brk m) (set_errno GRUB_ERR_READ_ERROR m1)
    else if negb (outlen =? 1) then
      Ok (GRUB_ERR_BAD_NUMBER, m_brk m) (set_errno GRUB_ERR_BAD_NUMBER m1)
    else
      match bs with
      | [] => Fault OutOfBounds
      | b :: _ =>
          if 2 <=? b then
            Ok (GRUB_ERR_BAD_NUMBER, m_brk m) (set_errno GRUB_ERR_BAD_NUMBER m1)
          else Ok (GRUB_ERR_NONE, m_brk m) m1
      end.
Proof.
  intros Hb Hpl Hro. unfold read_sbversion_from_pks.
  unfold bind at 1, get.
  rewrite (bind_ok _ _ _ _ _ (grub_malloc_ok _ m Hpl)).
  destruct (Z.eqb_spec (m_brk m) NULL) as [E|_]; [unfold NULL in E; lia |].
  rewrite Hro.
  erewrite bind_ok by (eapply write_bytes_ok; msimpl; apply lookup_insert_eq).
  msimpl. rewrite insert_insert_eq.
  change (set_brk (m_brk m + 1)
            (set_heap (<[m_brk m := Bytes bs]> (m_heap m))
               (set_plan (tail (m_plan m)) m)))
    with (probe_buffer bs (tail (m_plan m)) m).
  cbn zeta.
  destruct (rc <? 0); [reflexivity |].
  destruct (outlen =? 1); cbn [negb]; [| reflexivity].
  erewrite bind_ok
    by (unfold load_buffer, bind, get, probe_buffer; msimpl;
        rewrite lookup_insert_eq; reflexivity).
  destruct bs as [|b0 bs]; [reflexivity |].
  erewrite bind_ok
    by (apply (read_bytes_at (b0 :: bs) [] [b0] bs); reflexivity).
  cbn [hd]. destruct (2 <=? b0); reflexivity.
Qed.

Lemma probe_free bs pl m (e : grub_err_t) (r : bool) :
  0 < m_brk m ->
  (grub_free (m_brk m) ;;; ret r) (set_errno e (probe_buffer bs pl m)) =
    Ok r (set_errno e (probe_done bs pl m)).
Proof.
  intros Hb.
  erewrite bind_ok.
  2:{ eapply grub_free_live.
      - unfold probe_buffer. msimpl. apply lookup_insert_eq.
      - unfold NULL. lia. }
  reflexivity.
Qed.

Lemma is_pks_present_eval fw m :
  heap_wf m -> is_pks_present fw m = is_pks_present_result fw m.
Proof.
  intros [Hb _]. unfold is_pks_present, is_pks_present_result.
  destruct (fw_read_object fw) as [[rc bs] outlen] eqn:Hro.
  destruct (fw_test fw <? 0); [reflexivity |].
  unfold bind at 1, modify at 1.
  destruct (fst (fw_max_object_size fw) <? 0); [reflexivity |].
  set (m0 := set_max_object_size (snd (fw_max_object_size fw)) m).
  assert (0 < m_brk m0) as Hb0 by exact Hb.
  assert (m_plan m0 = m_plan m) as Hp0 by reflexivity.
  assert (m_freed m0 = m_freed m) as Hf0 by reflexivity.
  assert (forall bs' pl', set_errno (grub_errno m0) (probe_done bs' pl' m0)
                          = probe_done bs' pl' m0) as Hsame
    by (intros; destruct m; reflexivity).
  destruct (m_plan m) as [|[|] pl] eqn:Hplan.
  1,2: unfold bind at 1;
    rewrite (read_sbversion_eval fw m0 rc bs outlen Hb0
               ltac:(rewrite Hp0; discriminate) Hro);
    cbn zeta; rewrite Hp0; cbn [tail];
    destruct (rc <? 0); [apply (probe_free _ _ m0 _ _ Hb0) |];
    destruct (outlen =? 1); cbn [negb]; [| apply (probe_free _ _ m0 _ _ Hb0)];
    destruct bs as [|b0 bs]; [reflexivity |];
    destruct (2 <=? b0); [apply (probe_free _ _ m0 _ _ Hb0) |];
    cbn [grub_err_eqb negb];
    (erewrite bind_ok
       by (unfold load_buffer, bind, get, probe_buffer; msimpl;
           rewrite lookup_insert_eq; reflexivity));
    (erewrite bind_ok
       by (apply (read_bytes_at (b0 :: bs) [] [b0] bs); reflexivity));
    cbn [hd];
    rewrite <- Hsame;
    rewrite <- (probe_free _ _ m0 (grub_errno m0) (b0 =? 1) Hb0);
    destruct m; reflexivity.
  unfold read_sbversion_from_pks, bind at 1 2, get.
  rewrite (bind_ok _ _ _ _ _ (grub_malloc_fail _ m0 pl Hp0)).
  cbn [Z.eqb NULL]. rewrite <- Hf0. reflexivity.
Qed.

(** C6. With the firmware answering the version read by return code [rc],
    [outlen] bytes reported and the bytes [bs] stored: the probe returns
    true exactly when the capability test, the size query and the buffer
    allocation succeed and the read succeeds with length 1 and byte 1; after
    a successful read, byte 0 of length 1 gives false and leaves
    [grub_errno] alone, and a length other than 1 or a byte of 2 or more
    gives false with [GRUB_ERR_BAD_NUMBER] reported. *)
Theorem is_pks_present_decides fw m rc bs outlen :
  heap_wf m ->
  fw_read_object fw = (rc, bs, outlen) ->
  ((exists m', is_pks_present fw m = Ok true m') <->
   0 <= fw_test fw /\ 0 <= fst (fw_max_object_size fw) /\
   head (m_plan m) <> Some false /\
   0 <= rc /\ outlen = 1 /\ head bs = Some 1) /\
  (0 <= fw_test fw -> 0 <= fst (fw_max_object_size fw) ->
   head (m_plan m) <> Some false -> 0 <= rc ->
   (outlen = 1 -> head bs = Some 1 ->
    exists m', is_pks_present fw m = Ok true m' /\ grub_errno m' = grub_errno m) /\
   (outlen = 1 -> head bs = Some 0 ->
    exists m', is_pks_present fw m = Ok false m' /\ grub_errno m' = grub_errno m) /\
   (outlen <> 1 \/ (exists b, head bs = Some b /\ 2 <= b) ->
    exists m', is_pks_present fw m = Ok false m' /\
               grub_errno m' = GRUB_ERR_BAD_NUMBER)).
Proof.
  intros Hwf Hro. rewrite (is_pks_present_eval fw m Hwf).
  unfold is_pks_present_result. rewrite Hro.
  destruct (Z.ltb_spec (fw_test fw) 0) as [Ht|Ht].
  { split; [| intros; lia]. split; [intros [m' H]; discriminate | intros; lia]. }
  destruct (Z.ltb_spec (fst (fw_max_object_size fw)) 0) as [Hs|Hs].
  { split; [| intros; lia]. split; [intros [m' H]; discriminate | intros; lia]. }
  destruct (m_plan m) as [|[|] pl] eqn:Hplan.
  3:{ split; [| intros _ _ H; now elim H].
      split; [intros [m' H]; discriminate | intros (_ & _ & H & _); now elim H]. }
  all: cbn [tail head];
    destruct (Z.ltb_spec rc 0) as [Hrc|Hrc];
    [ split; [| intros; lia];
      split; [intros [m' H]; discriminate | intros; lia] |];
    destruct (Z.eqb_spec outlen 1) as [Hol|Hol]; cbn [negb];
    [| split;
       [ split; [intros [m' H]; discriminate | intros (_ & _ & _ & _ & H & _); lia]
       | intros _ _ _ _; split; [intros; lia |]; split; [intros; lia |];
         intros _; eexists; split; [reflexivity | reflexivity] ] ];
    destruct bs as [|b0 bs];
    [ split;
      [ split; [intros [m' H]; discriminate
               | intros (_ & _ & _ & _ & _ & H); discriminate]
      | intros _ _ _ _; split; [intros _ H; discriminate |];
        split; [intros _ H; discriminate |];
        intros [H | (b & H & _)]; [lia | discriminate] ] |];
    cbn [head];
    destruct (Z.leb_spec 2 b0) as [Hb2|Hb2];
    [ split;
      [ split; [intros [m' H]; discriminate
               | intros (_ & _ & _ & _ & _ & H); inversion H; lia]
      | intros _ _ _ _; split; [intros _ H; inversion H; lia |];
        split; [intros _ H; inversion H; lia |];
        intros _; eexists; split; [reflexivity | reflexivity] ] |];
    destruct (Z.eqb_spec b0 1) as [Hb1|Hb1];
    [ split;
      [ split; [intros _; repeat split; try lia; try discriminate; congruence
               | intros _; eexists; reflexivity]
      | intros _ _ _ _; split;
        [intros _ _; eexists; split; [reflexivity | reflexivity] |];
        split; [intros _ H; inversion H; lia |];
        intros [H | (b & H & Hge)]; [lia | inversion H; lia] ]
    | split;
      [ split; [intros [m' H]; discriminate
               | intros (_ & _ & _ & _ & _ & H); inversion H; lia]
      | intros _ _ _ _; split; [intros _ H; inversion H; lia |];
        split; [intros _ _; eexists; split; [reflexivity | reflexivity] |];
        intros [H | (b & H & Hge)]; [lia | inversion H; lia] ] ].
Qed.

Lemma is_pks_present_decides_witness :
  exists m', is_pks_present (sample_fw 1 not_found not_found) (boot_machine []) =
             Ok true m'.
Proof.
  apply (is_pks_present_decides (sample_fw 1 not_found not_found)
           (boot_machine []) 0 [1] 1 (boot_machine_wf []) eq_refl).
  repeat split; try (cbn; lia); try discriminate.
Defined.

(** ** Teardown *)

Lemma grub_free_any p m :
  p = NULL \/ is_Some (m_heap m !! p) ->
  grub_free p m =
    Ok tt (set_heap (free_step (m_heap m) p) (set_freed (m_freed m ++ [p]) m)).
Proof.
  intros H. unfold free_step.
  destruct (Z.eqb_spec p NULL) as [-> | Hne].
  - rewrite grub_free_null. now destruct m.
  - destruct H as [H | [b Hb]]; [contradiction |].
    now rewrite (grub_free_live p m b Hb Hne).
Qed.

Lemma lookup_free_all ps : forall h q,
  q ∉ ps -> free_all ps h !! q = h !! q.
Proof.
  induction ps as [|p ps IH]; intros h q Hq; [reflexivity |].
  apply not_elem_of_cons in Hq as [Hne Hq].
  cbn [free_all foldl]. fold (free_all ps (free_step h p)).
  rewrite IH by exact Hq. unfold free_step.
  destruct (p =? NULL); [reflexivity |]. now rewrite lookup_delete_ne.
Qed.

Lemma free_all_app ps qs h : free_all (ps ++ qs) h = free_all qs (free_all ps h).
Proof. unfold free_all. apply foldl_app. Qed.

Lemma non_null_cons_null ps : non_null (NULL :: ps) = non_null ps.
Proof.
  unfold non_null. apply (filter_cons_False (fun q => q <> NULL)).
  intros H. now apply H.
Qed.

Lemma non_null_cons p ps : p <> NULL -> non_null (p :: ps) = p :: non_null ps.
Proof.
  intros H. unfold non_null. now apply (filter_cons_True (fun q => q <> NULL)).
Qed.

Lemma elem_of_non_null p ps : p ∈ non_null ps <-> p <> NULL /\ p ∈ ps.
Proof. unfold non_null. apply (list_elem_of_filter (fun q => q <> NULL)). Qed.

Lemma free_entries_ok ptrs : forall i m sd sl,
  sd <> NULL ->
  m_heap m !! sd = Some (Slots sl) ->
  0 <= i ->
  Forall2 (fun s p => data s = Init p) (drop (Z.to_nat i) sl) ptrs ->
  NoDup (non_null ptrs) ->
  (forall p, p ∈ ptrs -> p <> NULL -> is_Some (m_heap m !! p) /\ p <> sd) ->
  free_entries sd i (length ptrs) m =
    Ok tt (set_heap (free_all ptrs (m_heap m)) (set_freed (m_freed m ++ ptrs) m)).
Proof.
  induction ptrs as [|p ptrs IH]; intros i m sd sl Hsd Hl Hi Hf Hnd Hlive.
  - cbn [length free_entries free_all foldl]. rewrite app_nil_r.
    now destruct m.
  - destruct (drop (Z.to_nat i) sl) as [|s tl] eqn:Hdrop; [inversion Hf |].
    apply Forall2_cons in Hf as [Hs Hf].
    assert (sl !! Z.to_nat i = Some s) as Hsl.
    { rewrite <- (Nat.add_0_r (Z.to_nat i)), <- lookup_drop, Hdrop. reflexivity. }
    assert (drop (Z.to_nat (i + 1)) sl = tl) as Htl.
    { replace (Z.to_nat (i + 1)) with (S (Z.to_nat i)) by lia.
      rewrite (drop_S _ _ _ Hsl) in Hdrop. congruence. }
    cbn [length free_entries].
    erewrite bind_ok.
    2:{ unfold load_slot, bind, get. rewrite Hl.
        destruct (Z.ltb_spec i 0); [lia |]. rewrite Hsl. reflexivity. }
    rewrite Hs. cbn [load_cell].
    erewrite bind_ok by reflexivity.
    assert (p = NULL \/ is_Some (m_heap m !! p)) as Hp.
    { destruct (Z.eq_dec p NULL); [now left | right].
      apply Hlive; [apply list_elem_of_here | assumption]. }
    rewrite (bind_ok _ _ _ _ _ (grub_free_any p m Hp)).
    rewrite (IH (i + 1) _ sd sl Hsd); try lia.
    + apply Ok_eq. destruct m; msimpl. cbn [free_all foldl].
      now rewrite <- app_assoc.
    + msimpl. unfold free_step. destruct (Z.eqb_spec p NULL); [exact Hl |].
      rewrite lookup_delete_ne; [exact Hl |].
      intros ->. destruct (Hlive sd); [apply list_elem_of_here | | ]; auto.
    + now rewrite Htl.
    + destruct (Z.eq_dec p NULL) as [-> | Hne].
      * now rewrite non_null_cons_null in Hnd.
      * rewrite non_null_cons in Hnd by exact Hne.
        now apply NoDup_cons in Hnd as [_ Hnd].
    + intros q Hq Hqn. msimpl.
      destruct (Hlive q (list_elem_of_further _ _ _ Hq) Hqn) as [Hql Hqs].
      split; [| exact Hqs].
      unfold free_step. destruct (Z.eqb_spec p NULL); [exact Hql |].
      rewrite lookup_delete_ne; [exact Hql |].
      intros ->. rewrite non_null_cons in Hnd by assumption.
      apply NoDup_cons in Hnd as [Hnin _]. apply Hnin.
      apply elem_of_non_null. now split.
Qed.

(** Releasing the payloads of one database, null or not. *)
Lemma free_entries_db m sd n ptrs :
  sd_owns m sd n ptrs ->
  NoDup (non_null ptrs) ->
  (forall p, p ∈ ptrs -> p <> NULL -> is_Some (m_heap m !! p) /\ p <> sd) ->
  free_entries sd 0 (Z.to_nat n) m =
    Ok tt (set_heap (free_all ptrs (m_heap m)) (set_freed (m_freed m ++ ptrs) m)).
Proof.
  intros (sl & Harr & Hlen & Hf) Hnd Hlive.
  pose proof (Forall2_length _ _ _ Hf) as Hlen2.
  replace (Z.to_nat n) with (length ptrs) by lia.
  destruct Harr as [[-> ->] | [Hne Hl]].
  - destruct ptrs; [| discriminate].
    cbn [length free_entries free_all foldl]. rewrite app_nil_r. now destruct m.
  - apply (free_entries_ok ptrs 0 m sd sl); auto. lia.
Qed.

Lemma grub_pks_tmp_free_ok m ptrs1 ptrs2 :
  let ks := pks_keystore m in
  sd_owns m (db ks) (db_entries ks) ptrs1 ->
  sd_owns m (dbx ks) (dbx_entries ks) ptrs2 ->
  NoDup (non_null (ptrs1 ++ ptrs2)) ->
  (forall p, p ∈ ptrs1 ++ ptrs2 -> p <> NULL ->
             is_Some (m_heap m !! p) /\ p <> db ks /\ p <> dbx ks) ->
  (db ks = NULL \/ db ks <> dbx ks) ->
  grub_pks_tmp_free m =
    Ok tt (set_keystore pks_zero
             (set_heap (free_all (ptrs1 ++ ptrs2 ++ [db ks; dbx ks]) (m_heap m))
                (set_freed (m_freed m ++ ptrs1 ++ ptrs2 ++ [db ks; dbx ks]) m))).
Proof.
  intros ks Ho1 Ho2 Hnd Hlive Hdist.
  unfold non_null in Hnd. rewrite filter_app in Hnd.
  apply NoDup_app in Hnd as (Hnd1 & Hdisj & Hnd2).
  fold (non_null ptrs1) in *. fold (non_null ptrs2) in *.
  unfold grub_pks_tmp_free. unfold bind at 1, get. fold ks.
  erewrite bind_ok.
  2:{ apply (free_entries_db m (db ks) (db_entries ks) ptrs1 Ho1 Hnd1).
      intros p Hp Hpn. destruct (Hlive p) as (? & ? & ?); auto.
      apply elem_of_app. now left. }
  assert (forall p, p ∈ ptrs2 -> p <> NULL -> p ∉ ptrs1) as Hnot1.
  { intros p Hp Hpn Hin. apply (Hdisj p); apply elem_of_non_null; auto. }
  erewrite bind_ok.
  2:{ apply (free_entries_db _ (dbx ks) (dbx_entries ks) ptrs2).
      - destruct Ho2 as (sl & Harr & Hlen & Hf). exists sl.
        split; [| now split].
        destruct Harr as [? | [Hne Hl]]; [now left | right].
        split; [exact Hne |]. msimpl. rewrite lookup_free_all; [exact Hl |].
        intros Hin. destruct (Hlive (dbx ks)) as (_ & _ & H); auto.
        apply elem_of_app. now left.
      - exact Hnd2.
      - intros p Hp Hpn. msimpl.
        destruct (Hlive p) as (Hl & _ & Hx); auto.
        { apply elem_of_app. now right. }
        split; [| exact Hx]. rewrite lookup_free_all; auto. }
  msimpl.
  assert (forall q, q <> NULL -> q ∉ ptrs1 ++ ptrs2 ->
            free_all ptrs2 (free_all ptrs1 (m_heap m)) !! q = m_heap m !! q) as Hkeep.
  { intros q Hq Hnin. apply not_elem_of_app in Hnin as [H1 H2].
    now rewrite !lookup_free_all. }
  assert (forall sd n ptrs, sd_owns m sd n ptrs -> sd <> NULL ->
            (forall p, p ∈ ptrs1 ++ ptrs2 -> p <> NULL -> p <> sd) ->
            is_Some (free_all ptrs2 (free_all ptrs1 (m_heap m)) !! sd)) as Harr_live.
  { intros sd n ptrs (sl & Harr & _) Hne Hd.
    destruct Harr as [[? _] | [_ Hl]]; [contradiction |].
    rewrite Hkeep; [eauto | exact Hne |].
    intros Hin. now apply (Hd sd Hin Hne). }
  erewrite bind_ok.
  2:{ apply grub_free_any. msimpl.
      destruct (Z.eq_dec (db ks) NULL) as [? | Hne]; [now left | right].
      apply (Harr_live _ _ _ Ho1 Hne).
      intros p Hp Hpn. now destruct (Hlive p Hp Hpn) as (_ & ? & _). }
  erewrite bind_ok.
  2:{ apply grub_free_any. msimpl.
      destruct (Z.eq_dec (dbx ks) NULL) as [? | Hne]; [now left | right].
      unfold free_step. destruct (Z.eqb_spec (db ks) NULL) as [E | E].
      - apply (Harr_live _ _ _ Ho2 Hne).
        intros p Hp Hpn. now destruct (Hlive p Hp Hpn) as (_ & _ & ?).
      - destruct Hdist as [? | Hd]; [contradiction |].
        rewrite lookup_delete_ne by exact Hd.
        apply (Harr_live _ _ _ Ho2 Hne).
        intros p Hp Hpn. now destruct (Hlive p Hp Hpn) as (_ & _ & ?). }
  unfold modify. apply Ok_eq. destruct m; msimpl.
  rewrite !free_all_app. cbn [free_all foldl].
  rewrite <- !app_assoc. reflexivity.
Qed.

(** ** What the loaders leave alone *)

Lemma same_globals_refl m : same_globals m m.
Proof. now repeat split. Qed.

Lemma same_globals_trans m1 m2 m3 :
  same_globals m1 m2 -> same_globals m2 m3 -> same_globals m1 m3.
Proof. unfold same_globals. intros (-> & -> & ->) (-> & -> & ->). auto. Qed.

Lemma keeps_ret {A} (a : A) : keeps_globals (ret a).
Proof. intros m a' m' H. inversion H; subst. apply same_globals_refl. Qed.

Lemma keeps_throw {A} f : keeps_globals (@throw A f).
Proof. intros m a m' H. discriminate. Qed.

Lemma keeps_get : keeps_globals get.
Proof. intros m a m' H. inversion H; subst. apply same_globals_refl. Qed.

Lemma keeps_bind {A B} (c : M A) (k : A -> M B) :
  keeps_globals c -> (forall a, keeps_globals (k a)) -> keeps_globals (bind c k).
Proof.
  intros Hc Hk m b m'' H. apply bind_inv_ok in H as (a & m' & H1 & H2).
  eapply same_globals_trans; [eapply Hc | eapply Hk]; eassumption.
Qed.

Lemma keeps_modify f :
  (forall m, same_globals m (f m)) -> keeps_globals (modify f).
Proof. intros Hf m a m' H. inversion H; subst. apply Hf. Qed.

Lemma keeps_next_outcome : keeps_globals next_outcome.
Proof.
  intros m a m' H. unfold next_outcome in H.
  destruct (m_plan m); inversion H; subst; now repeat split.
Qed.

Lemma keeps_place b : keeps_globals (place b).
Proof. intros m a m' H. inversion H; subst. now repeat split. Qed.

Create HintDb keeps.
#[local] Hint Resolve keeps_ret keeps_throw keeps_get keeps_next_outcome
  keeps_place : keeps.

Ltac keeps_tac :=
  repeat first
    [ progress auto with keeps
    | apply keeps_bind; [| intros ?]
    | apply keeps_modify; intros ?; now repeat split
    | match goal with
      | |- keeps_globals (if ?b then _ else _) => destruct b
      | |- keeps_globals (match ?x with _ => _ end) => destruct x
      | |- keeps_globals (let '(_, _) := ?x in _) => destruct x
      end ].

Lemma keeps_grub_error e : keeps_globals (grub_error e).
Proof. unfold grub_error. keeps_tac. Qed.

Lemma keeps_grub_malloc size : keeps_globals (grub_malloc size).
Proof. unfold grub_malloc. keeps_tac. Qed.

Lemma keeps_grub_realloc ptr size : keeps_globals (grub_realloc ptr size).
Proof. unfold grub_realloc. keeps_tac. Qed.

Lemma keeps_grub_free ptr : keeps_globals (grub_free ptr).
Proof. unfold grub_free. keeps_tac. Qed.

Lemma keeps_load_slot ptr i : keeps_globals (load_slot ptr i).
Proof. unfold load_slot. keeps_tac. Qed.

Lemma keeps_store_slot ptr i f : keeps_globals (store_slot ptr i f).
Proof.
  unfold store_slot. apply keeps_bind; [apply keeps_load_slot |].
  intros s. apply keeps_modify. intros m.
  destruct (m_heap m !! ptr) as [[|]|]; now repeat split.
Qed.

Lemma keeps_read_bytes buf off n : keeps_globals (read_bytes buf off n).
Proof. unfold read_bytes. keeps_tac. Qed.

Lemma keeps_write_bytes dst bs : keeps_globals (write_bytes dst bs).
Proof. unfold write_bytes. keeps_tac. Qed.

Lemma keeps_load_buffer ptr : keeps_globals (load_buffer ptr).
Proof. unfold load_buffer. keeps_tac. Qed.

Lemma keeps_load_cell {A} (c : cell A) : keeps_globals (load_cell c).
Proof. destruct c; simpl; auto with keeps. Qed.

#[local] Hint Resolve keeps_grub_error keeps_grub_malloc keeps_grub_realloc
  keeps_grub_free keeps_load_slot keeps_store_slot keeps_read_bytes
  keeps_write_bytes keeps_load_buffer keeps_load_cell : keeps.

Lemma keeps_esd_body esl_data ssz g out st :
  keeps_globals (esd_body esl_data ssz g out st).
Proof. unfold esd_body. keeps_tac. Qed.

Lemma keeps_esd_while fuel : forall esl_data ssz g out st,
  keeps_globals (esd_while fuel esl_data ssz g out st).
Proof.
  induction fuel as [|fuel IH]; intros esl_data ssz g out st.
  - intros m a m' H. discriminate.
  - cbn [esd_while]. destruct (0 <? l_esl_size st); [| apply keeps_ret].
    apply keeps_bind; [apply keeps_esd_body |].
    intros [st' | v]; [apply IH | apply keeps_ret].
Qed.

Lemma keeps_esl_to_esd fuel esl_data next_esl out :
  keeps_globals (esl_to_esd fuel esl_data next_esl out).
Proof.
  unfold esl_to_esd, _esl_to_esd.
  pose proof (keeps_esd_while fuel). keeps_tac.
Qed.

Lemma keeps_sd_body fuel st : keeps_globals (sd_body fuel st).
Proof.
  unfold sd_body. apply keeps_bind; [apply keeps_esl_to_esd |].
  intros [[rc n] o]. destruct (grub_err_eqb rc GRUB_ERR_NONE); apply keeps_ret.
Qed.

Lemma keeps_sd_do_while fuel : forall st, keeps_globals (sd_do_while fuel st).
Proof.
  induction fuel as [|fuel IH]; intros st.
  - intros m a m' H. discriminate.
  - cbn [sd_do_while]. apply keeps_bind; [apply keeps_sd_body |].
    intros [rc st'].
    destruct (grub_err_eqb rc GRUB_ERR_NONE && (0 <? s_esl_size st'));
      [apply IH | apply keeps_ret].
Qed.

Lemma keeps_read_sbvar_from_pks fuel fw flags type out :
  keeps_globals (read_sbvar_from_pks fuel fw flags type out).
Proof.
  unfold read_sbvar_from_pks, pks_sd_from_esl.
  pose proof (keeps_sd_do_while fuel).
  apply keeps_bind; [apply keeps_get |]. intros m0.
  apply keeps_bind; [apply keeps_grub_malloc |]. intros p.
  destruct (p =? NULL); [keeps_tac |].
  destruct (fw_read_sbvar fw type) as [[rc bs] len].
  keeps_tac.
Qed.

Lemma keeps_free_entries n : forall sd i, keeps_globals (free_entries sd i n).
Proof.
  induction n as [|n IH]; intros sd i; cbn [free_entries]; [apply keeps_ret |].
  pose proof (IH sd (i + 1)). keeps_tac.
Qed.

(** [grub_pks_tmp_free] ends by clearing the record, and touches neither
    of the two other variables. *)
Lemma grub_pks_tmp_free_inv m m1 :
  grub_pks_tmp_free m = Ok tt m1 ->
  pks_keystore m1 = pks_zero /\
  pks_use_keystore m1 = pks_use_keystore m /\
  pks_max_object_size m1 = pks_max_object_size m.
Proof.
  unfold grub_pks_tmp_free. intros H.
  apply bind_inv_ok in H as (m0 & ? & Hg & H). inversion Hg; subst.
  apply bind_inv_ok in H as (? & ma & H1 & H).
  apply bind_inv_ok in H as (? & mb & H2 & H).
  apply bind_inv_ok in H as (? & mc & H3 & H).
  apply bind_inv_ok in H as (? & md & H4 & H).
  apply keeps_free_entries in H1. apply keeps_free_entries in H2.
  apply keeps_grub_free in H3. apply keeps_grub_free in H4.
  inversion H; subst. msimpl.
  destruct H1 as (_ & Hu1 & Hx1), H2 as (_ & Hu2 & Hx2),
    H3 as (_ & Hu3 & Hx3), H4 as (_ & Hu4 & Hx4).
  split; [reflexivity |]. split; congruence.
Qed.

Lemma grub_pks_tmp_free_empty m :
  pks_keystore m = pks_zero ->
  grub_pks_tmp_free m = Ok tt (set_freed (m_freed m ++ [NULL; NULL]) m).
Proof.
  intros H. destruct m as [h b pl fr en mx ks us]. cbn in H. subst ks.
  unfold grub_pks_tmp_free, grub_free, bind, get, modify, ret.
  cbn [pks_keystore pks_zero db dbx db_entries dbx_entries].
  change (Z.to_nat 0) with O.
  cbn. now rewrite <- app_assoc.
Qed.

(** C8, as stated, fails in one respect: the teardown does not bring the
    keystore back to its disabled initial state.  On a machine where
    [pks_use_keystore] is set, [grub_pks_tmp_free] clears the record and
    leaves the flag set, so [grub_pks_get_keystore] still returns the
    keystore. *)
Lemma grub_pks_tmp_free_flag_counterexample :
  let r := grub_pks_tmp_free (set_use_keystore true (boot_machine [])) in
  after_release r = Some (pks_zero, true) /\
  after_release r <> Some (pks_zero, false).
Proof. vm_compute. split; [reflexivity | discriminate]. Qed.

(** C8 (amended). Once [grub_pks_tmp_free] has run, the keystore record is
    its initial value (null arrays, zero counts, [use_static_keys] cleared)
    while [pks_use_keystore], which is not part of the record, is as it was;
    and running it again changes nothing: the heap and every variable stay
    as they are, and the deallocator is only handed the two null array
    pointers. *)
Theorem grub_pks_tmp_free_idempotent m m1 :
  grub_pks_tmp_free m = Ok tt m1 ->
  pks_keystore m1 = pks_zero /\
  pks_use_keystore m1 = pks_use_keystore m /\
  grub_pks_tmp_free m1 = Ok tt (set_freed (m_freed m1 ++ [NULL; NULL]) m1).
Proof.
  intros H. apply grub_pks_tmp_free_inv in H as (Hz & Hu & _).
  split; [exact Hz |]. split; [exact Hu |].
  now apply grub_pks_tmp_free_empty.
Qed.

Lemma grub_pks_tmp_free_idempotent_witness :
  grub_pks_tmp_free (set_freed [NULL; NULL] (boot_machine [])) =
  Ok tt (set_freed ([NULL; NULL] ++ [NULL; NULL]) (boot_machine [])).
Proof.
  apply (grub_pks_tmp_free_idempotent (boot_machine [])
           (set_freed [NULL; NULL] (boot_machine []))).
  vm_compute. reflexivity.
Defined.

(** ** A payload allocation that fails *)

Lemma new_ptrs_length b k : length (new_ptrs b k) = k.
Proof. revert b. induction k as [|k IH]; intros b; cbn; auto. Qed.

Lemma new_ptrs_bounds k : forall b p, p ∈ new_ptrs b k -> b < p < b + 2 * Z.of_nat k.
Proof.
  induction k as [|k IH]; intros b p Hp; cbn [new_ptrs] in Hp.
  - inversion Hp.
  - apply elem_of_cons in Hp as [-> | Hp]; [lia |].
    apply IH in Hp. lia.
Qed.

Lemma new_ptrs_NoDup k : forall b, NoDup (new_ptrs b k).
Proof.
  induction k as [|k IH]; intros b; cbn [new_ptrs]; constructor.
  - intros Hin. apply new_ptrs_bounds in Hin. lia.
  - apply IH.
Qed.

Lemma new_slots_ptrs g n sigs : forall b,
  Forall2 (fun s p => data s = Init p) (new_slots g n b sigs)
    (new_ptrs b (length sigs)).
Proof.
  induction sigs as [|x sigs IH]; intros b; cbn [new_slots new_ptrs length];
    constructor; [reflexivity | apply IH].
Qed.

Lemma plan_ok_replicate n k pl : (n <= k)%nat -> plan_ok n (replicate k true ++ pl).
Proof.
  revert k. induction n as [|n IH]; intros k Hk; [now destruct (_ ++ _) |].
  destruct k as [|k]; [lia |]. cbn. split; [reflexivity |]. apply IH. lia.
Qed.

Lemma drop_replicate_app {A} n k (x : A) l :
  (n <= k)%nat -> drop n (replicate k x ++ l) = replicate (k - n) x ++ l.
Proof.
  revert k. induction n as [|n IH]; intros k Hk.
  - now rewrite Nat.sub_0_r.
  - destruct k as [|k]; [lia |]. cbn. apply IH. lia.
Qed.

Lemma esd_partial done post r fuel ssz g sd e m sl pl :
  let K := length done in
  heap_wf m ->
  sd_array m sd sl ->
  Z.of_nat (length sl) = e ->
  (e + Z.of_nat K + 1) * sizeof_grub_pks_sd_t < 2 ^ 32 ->
  m_plan m = replicate (2 * K + 1) true ++ false :: pl ->
  Forall (esd_wf ssz) done ->
  0 < ssz -> 1 <= r -> (Z.of_nat K + r) * ssz < 2 ^ 32 ->
  (K < fuel)%nat ->
  exists m',
    _esl_to_esd fuel (esd_region done ++ post) ((Z.of_nat K + r) * ssz) ssz g
      (sd, e) m =
      Ok (GRUB_ERR_OUT_OF_MEMORY, (m_brk m + 2 * Z.of_nat K, e + Z.of_nat K + 1)) m' /\
    heap_wf m' /\
    m_heap m' !! (m_brk m + 2 * Z.of_nat K) =
      Some (Slots (sl ++ new_slots g (ssz - sizeof_grub_esd_t) (m_brk m) done
                   ++ [failed_slot])) /\
    (forall q, q < m_brk m -> q <> sd -> m_heap m' !! q = m_heap m !! q) /\
    Forall2 (fun s x => slot_entry (m_heap m') s
                        = Some (mk_entry g (snd x) (ssz - sizeof_grub_esd_t)))
      (new_slots g (ssz - sizeof_grub_esd_t) (m_brk m) done) done /\
    m' = set_errno GRUB_ERR_OUT_OF_MEMORY
           (set_brk (m_brk m + 2 * Z.of_nat K + 1)
              (set_heap (m_heap m') (set_plan pl m))).
Proof.
  intros K Hwf Harr Hlen Hcap Hplan Hdone Hss Hr Hfit Hfuel.
  destruct (esd_iter_ok done (esd_region done ++ post) ssz g (sd, e)
              {| l_esl_size := (Z.of_nat K + r) * ssz; l_offset := 0;
                 l_signature := sd; l_entries := e |}
              m sl [] post r Hwf Harr Hlen
              ltac:(cbn [l_entries]; fold K; unfold sizeof_grub_pks_sd_t in *; lia)
              ltac:(rewrite Hplan; apply plan_ok_replicate; lia)
              Hdone eq_refl eq_refl ltac:(lia) eq_refl
              ltac:(cbn [l_esl_size l_offset]; lia) Hss)
    as (sigK & mK & Hiter & Hpost).
  fold K in Hiter. cbn [l_offset l_entries] in Hiter.
  destruct Hpost as [Pwf Pm Parr Pent Pframe Pfresh Psig Psf Pss]. fold K in Pm.
  assert (m_plan mK = true :: false :: pl) as HplanK.
  { rewrite Pm. cbn [m_plan set_brk set_heap set_plan]. rewrite Hplan.
    rewrite drop_replicate_app by lia.
    replace (2 * K + 1 - 2 * K)%nat with 1%nat by lia. reflexivity. }
  assert (m_brk mK = m_brk m + 2 * Z.of_nat K) as HbrkK by (rewrite Pm; reflexivity).
  set (stK := {| l_esl_size := r * ssz; l_offset := 0 + Z.of_nat K * ssz;
                 l_signature := sigK; l_entries := e + Z.of_nat K |}) in *.
  pose proof (esd_body_malloc_fail (esd_region done ++ post) ssz g (sd, e) stK mK
                (sl ++ new_slots g (ssz - sizeof_grub_esd_t) (m_brk m) done) pl
                Pwf Parr
                ltac:(rewrite length_app, new_slots_length; subst stK;
                      cbn [l_entries]; fold K; lia)
                ltac:(subst stK; cbn [l_entries]; lia)
                ltac:(rewrite HplanK; discriminate)
                ltac:(rewrite HplanK; reflexivity)) as Hbody.
  rewrite HbrkK in Hbody. subst stK. cbn [l_entries l_signature] in Hbody.
  match type of Hbody with _ = Ok _ ?mf => set (m' := mf) in * end.
  exists m'. split; [| split; [| split; [| split; [| split]]]].
  - unfold _esl_to_esd. cbn [fst snd].
    replace fuel with (S K + (fuel - S K))%nat by lia.
    apply esd_while_iter_inr.
    replace (S K) with (K + 1)%nat by lia.
    rewrite (esd_iter_app _ 1 _ _ _ _ _ _ _ _ Hiter).
    cbn [esd_iter l_esl_size].
    destruct (Z.ltb_spec 0 (r * ssz)); [| nia].
    rewrite (bind_ok _ _ _ _ _ Hbody). reflexivity.
  - destruct Pwf as [Pb Pwf]. split; [subst m'; msimpl; lia |].
    intros p. subst m'. msimpl. rewrite lookup_insert.
    case_decide; [lia |]. rewrite lookup_delete. case_decide.
    + intros [? ?]; discriminate.
    + intros Hp. apply Pwf in Hp. lia.
  - subst m'. msimpl. rewrite lookup_insert_eq. now rewrite <- app_assoc.
  - intros q Hq Hqs. subst m'. msimpl.
    rewrite lookup_insert_ne by lia.
    assert (sigK <> q) as Hne.
    { intros <-. destruct done as [|x done'].
      - now rewrite (Pss eq_refl) in Hqs.
      - specialize (Psf ltac:(discriminate)). lia. }
    rewrite lookup_delete_ne by exact Hne. now apply Pframe.
  - eapply Forall2_impl; [exact Pent |]. intros s x.
    apply slot_entry_frame. intros p bs Hp. subst m'. msimpl.
    destruct Pwf as [_ Pwf'].
    assert (0 < p < m_brk mK) by (apply Pwf'; eauto).
    rewrite lookup_insert_ne by lia.
    rewrite lookup_delete_ne; [exact Hp |].
    intros <-. destruct Parr as [[E _] | [_ Hl]]; [unfold NULL in E; lia | congruence].
  - assert (m_freed mK = m_freed m) as E1 by (rewrite Pm; reflexivity).
    assert (pks_max_object_size mK = pks_max_object_size m) as E2
      by (rewrite Pm; reflexivity).
    assert (pks_keystore mK = pks_keystore m) as E3 by (rewrite Pm; reflexivity).
    assert (pks_use_keystore mK = pks_use_keystore m) as E4
      by (rewrite Pm; reflexivity).
    subst m'. msimpl. rewrite E1, E2, E3, E4. reflexivity.
Qed.

Lemma free_all_none ps : forall h q, h !! q = None -> free_all ps h !! q = None.
Proof.
  induction ps as [|p ps IH]; intros h q Hq; [exact Hq |].
  cbn [free_all foldl]. fold (free_all ps (free_step h p)). apply IH.
  unfold free_step. destruct (p =? NULL); [exact Hq |].
  rewrite lookup_delete. case_decide; [reflexivity | exact Hq].
Qed.

Lemma lookup_free_all_in ps : forall h q,
  q ∈ ps -> q <> NULL -> free_all ps h !! q = None.
Proof.
  induction ps as [|p ps IH]; intros h q Hq Hne; [inversion Hq |].
  cbn [free_all foldl]. fold (free_all ps (free_step h p)).
  destruct (decide (q = p)) as [-> | Hqp].
  - apply free_all_none. unfold free_step.
    destruct (Z.eqb_spec p NULL); [contradiction |]. apply lookup_delete_eq.
  - apply elem_of_cons in Hq as [? | Hq]; [contradiction |]. now apply IH.
Qed.

Lemma new_ptrs_live g n h sigs : forall b,
  Forall2 (fun s (x : list Z * list Z) =>
             slot_entry h s = Some (mk_entry g (snd x) n))
    (new_slots g n b sigs) sigs ->
  forall p, p ∈ new_ptrs b (length sigs) -> exists bs, h !! p = Some (Bytes bs).
Proof.
  induction sigs as [|x sigs IH]; intros b Hf p Hp;
    cbn [new_slots new_ptrs length] in *.
  - inversion Hp.
  - apply Forall2_cons in Hf as [Hs Hf].
    apply elem_of_cons in Hp as [-> | Hp]; [| now apply (IH (b + 2))].
    unfold slot_entry, full_slot in Hs. cbn in Hs.
    destruct (h !! (b + 1)) as [[bs|]|]; try discriminate. eauto.
Qed.

(** A payload allocation failing in run [K + 1] of the entry loop, then the
    teardown of the keystore the database belongs to. *)
Lemma partial_teardown done post r fuel ssz g m pl old_ptrs :
  let K := length done in
  let sd := db (pks_keystore m) in
  let e := db_entries (pks_keystore m) in
  let sd' := m_brk m + 2 * Z.of_nat K in
  heap_wf m ->
  dbx (pks_keystore m) = NULL -> dbx_entries (pks_keystore m) = 0 ->
  sd_owns m sd e old_ptrs ->
  NoDup (non_null old_ptrs) ->
  (forall p, p ∈ old_ptrs -> p <> NULL -> is_Some (m_heap m !! p) /\ p <> sd) ->
  (e + Z.of_nat K + 1) * sizeof_grub_pks_sd_t < 2 ^ 32 ->
  m_plan m = replicate (2 * K + 1) true ++ false :: pl ->
  Forall (esd_wf ssz) done ->
  0 < ssz -> 1 <= r -> (Z.of_nat K + r) * ssz < 2 ^ 32 ->
  (K < fuel)%nat ->
  exists m' m'',
    _esl_to_esd fuel (esd_region done ++ post) ((Z.of_nat K + r) * ssz) ssz g
      (sd, e) m = Ok (GRUB_ERR_OUT_OF_MEMORY, (sd', e + Z.of_nat K + 1)) m' /\
    load_slot sd' (e + Z.of_nat K) m' = Ok failed_slot m' /\
    grub_pks_tmp_free (with_db (sd', e + Z.of_nat K + 1) m') = Ok tt m'' /\
    m_freed m'' =
      m_freed m ++ old_ptrs ++ new_ptrs (m_brk m) K ++ [NULL] ++ [sd'; NULL] /\
    pks_keystore m'' = pks_zero /\
    Forall (fun p => p <> NULL /\
                     (exists bs, m_heap m' !! p = Some (Bytes bs)) /\
                     m_heap m'' !! p = None) (new_ptrs (m_brk m) K).
Proof.
  intros K sd e sd' Hwf Hx Hxe (sl & Harr & Hlen & Hptrs) Hnd Hlive
    Hcap Hplan Hdone Hss Hr Hfit Hfuel.
  destruct (esd_partial done post r fuel ssz g sd e m sl pl
              Hwf Harr Hlen Hcap Hplan Hdone Hss Hr Hfit Hfuel)
    as (m' & Hrun & Hwf' & Harr' & Hframe & Hent & Hm').
  fold K in Hrun, Harr', Hm'. fold sd' in Hrun, Harr', Hm'.
  pose proof (Forall2_length _ _ _ Hptrs) as Hlp.
  assert (0 < m_brk m) as Hb by (destruct Hwf; assumption).
  assert (sd' <> NULL) as Hsd' by (unfold NULL, sd'; lia).
  set (ptrs := old_ptrs ++ new_ptrs (m_brk m) K ++ [NULL]).
  set (m1 := with_db (sd', e + Z.of_nat K + 1) m').
  assert (pks_keystore m1 =
          set_db (sd', e + Z.of_nat K + 1) (pks_keystore m)) as Hks.
  { subst m1. unfold with_db. cbn [pks_keystore set_keystore].
    rewrite Hm'. reflexivity. }
  assert (m_heap m1 = m_heap m') as Hh1 by reflexivity.
  assert (forall p, p ∈ old_ptrs -> p <> NULL -> 0 < p < m_brk m) as Hold_lt.
  { intros p Hp Hpn. destruct Hwf as [_ Hwf]. apply Hwf. now apply Hlive. }
  assert (forall p, p ∈ new_ptrs (m_brk m) K ->
                    exists bs, m_heap m' !! p = Some (Bytes bs)) as Hnew_live
    by (intros p Hp;
        exact (new_ptrs_live g (ssz - sizeof_grub_esd_t) (m_heap m') done
                 (m_brk m) Hent p Hp)).
  assert (grub_pks_tmp_free m1 =
          Ok tt (set_keystore pks_zero
                   (set_heap (free_all (ptrs ++ [] ++ [sd'; NULL]) (m_heap m1))
                      (set_freed (m_freed m1 ++ ptrs ++ [] ++ [sd'; NULL]) m1))))
    as Hfree.
  { pose proof (grub_pks_tmp_free_ok m1 ptrs []) as H. cbv zeta in H.
    rewrite Hks in H. cbn [db dbx db_entries dbx_entries set_db fst snd] in H.
    rewrite Hx in H. apply H; clear H.
    - exists (sl ++ new_slots g (ssz - sizeof_grub_esd_t) (m_brk m) done
              ++ [failed_slot]).
      split; [right; split; [exact Hsd' | rewrite Hh1; exact Harr'] |].
      split; [rewrite !length_app, new_slots_length; cbn [length]; fold K; lia |].
      subst ptrs. apply Forall2_app; [exact Hptrs |].
      apply Forall2_app; [apply new_slots_ptrs |].
      constructor; [reflexivity | constructor].
    - exists []. split; [left; now split |]. split; [now rewrite Hxe | constructor].
    - rewrite app_nil_r. subst ptrs. unfold non_null.
      rewrite !filter_app. fold (non_null old_ptrs).
      fold (non_null (new_ptrs (m_brk m) K)). fold (non_null [NULL]).
      rewrite non_null_cons_null. unfold non_null at 3. rewrite filter_nil, app_nil_r.
      apply NoDup_app. split; [exact Hnd |]. split.
      + intros p Hp1 Hp2.
        apply elem_of_non_null in Hp1 as [Hpn Hp1].
        apply elem_of_non_null in Hp2 as [_ Hp2].
        apply new_ptrs_bounds in Hp2. specialize (Hold_lt p Hp1 Hpn). lia.
      + apply NoDup_filter, new_ptrs_NoDup.
    - intros p Hp Hpn. rewrite app_nil_r in Hp. subst ptrs.
      rewrite Hh1.
      apply elem_of_app in Hp as [Hp | Hp].
      + specialize (Hold_lt p Hp Hpn). destruct (Hlive p Hp Hpn) as [Hl Hs].
        rewrite Hframe by (try lia; exact Hs).
        split; [exact Hl |]. split; [unfold sd'; lia | exact Hpn].
      + apply elem_of_app in Hp as [Hp | Hp].
        * destruct (Hnew_live p Hp) as [bs Hbs].
          apply new_ptrs_bounds in Hp. fold K in Hp.
          split; [rewrite Hbs; eauto |]. split; [unfold sd'; lia | exact Hpn].
        * apply list_elem_of_singleton in Hp. contradiction.
    - right. exact Hsd'. }
  eexists m', _. split; [exact Hrun |]. split; [| split; [exact Hfree |]].
  { unfold load_slot, bind, get. rewrite Harr'.
    destruct (Z.ltb_spec (e + Z.of_nat K) 0); [lia |].
    rewrite app_assoc, lookup_app_r
      by (rewrite length_app, new_slots_length; fold K; lia).
    rewrite length_app, new_slots_length. fold K.
    replace (Z.to_nat (e + Z.of_nat K) - (length sl + K))%nat with O by lia.
    reflexivity. }
  cbn [m_freed set_keystore set_heap set_freed pks_keystore m_heap].
  split; [| split; [reflexivity |]].
  - subst m1 ptrs. unfold with_db. cbn [m_freed set_keystore].
    rewrite Hm'. cbn [m_freed set_errno set_brk set_heap set_plan].
    rewrite <- !app_assoc. reflexivity.
  - apply Forall_forall. intros p Hp.
    pose proof (new_ptrs_bounds _ _ _ Hp) as Hpb.
    assert (p <> NULL) as Hpn by (unfold NULL; lia).
    split; [exact Hpn |]. split; [now apply Hnew_live |].
    apply lookup_free_all_in; [| exact Hpn].
    subst ptrs. rewrite !elem_of_app. left. right. now left.
Qed.

Lemma NoDup_non_null_nil : NoDup (non_null []).
Proof. unfold non_null. rewrite filter_nil. constructor. Qed.

Lemma sd_owns_null m : sd_owns m NULL 0 [].
Proof. exists []. split; [left; now split |]. split; [reflexivity | constructor]. Qed.

(** C2, as stated, fails: in a region of [N = 2] signatures whose second
    payload allocation fails ([K = 1] entries complete), the parser returns
    the out-of-memory error but writes the count 2, not 1. *)
Lemma esl_to_esd_count_counterexample :
  let r := _esl_to_esd 3 (esd_region (esl_signatures sample_esl)) 36 18
             (esl_type sample_esl) (NULL, 0)
             (boot_machine [true; true; true; false]) in
  out_error r = Some GRUB_ERR_OUT_OF_MEMORY /\
  out_entries r = Some 2 /\ out_entries r <> Some 1.
Proof. vm_compute. repeat split; discriminate. Qed.

(** C2 (amended). When the payload allocation of run [K + 1] fails, [K]
    entries having been completed, [_esl_to_esd] returns
    [GRUB_ERR_OUT_OF_MEMORY] and writes the count at entry plus [K + 1]: the
    count includes the slot whose payload is missing.  The teardown of the
    keystore that owns the database then completes, and hands to the
    deallocator, in order: the payload pointers the database held before,
    the [K] payload buffers of this run, the null pointer of the last slot,
    the array and the null deny-list array.  Those [K] pointers are
    distinct, non-null, live byte buffers before the teardown and gone
    after it. *)
Theorem esl_to_esd_partial_count done post r fuel ssz g m pl old_ptrs :
  let K := length done in
  let sd := db (pks_keystore m) in
  let e := db_entries (pks_keystore m) in
  let sd' := m_brk m + 2 * Z.of_nat K in
  heap_wf m ->
  dbx (pks_keystore m) = NULL -> dbx_entries (pks_keystore m) = 0 ->
  sd_owns m sd e old_ptrs ->
  NoDup (non_null old_ptrs) ->
  (forall p, p ∈ old_ptrs -> p <> NULL -> is_Some (m_heap m !! p) /\ p <> sd) ->
  (e + Z.of_nat K + 1) * sizeof_grub_pks_sd_t < 2 ^ 32 ->
  m_plan m = replicate (2 * K + 1) true ++ false :: pl ->
  Forall (esd_wf ssz) done ->
  0 < ssz -> 1 <= r -> (Z.of_nat K + r) * ssz < 2 ^ 32 ->
  (K < fuel)%nat ->
  exists m' m'',
    _esl_to_esd fuel (esd_region done ++ post) ((Z.of_nat K + r) * ssz) ssz g
      (sd, e) m = Ok (GRUB_ERR_OUT_OF_MEMORY, (sd', e + Z.of_nat K + 1)) m' /\
    grub_pks_tmp_free (with_db (sd', e + Z.of_nat K + 1) m') = Ok tt m'' /\
    m_freed m'' =
      m_freed m ++ old_ptrs ++ new_ptrs (m_brk m) K ++ [NULL] ++ [sd'; NULL] /\
    length (new_ptrs (m_brk m) K) = K /\
    NoDup (new_ptrs (m_brk m) K) /\
    Forall (fun p => p <> NULL /\
                     (exists bs, m_heap m' !! p = Some (Bytes bs)) /\
                     m_heap m'' !! p = None) (new_ptrs (m_brk m) K).
Proof.
  intros K sd e sd' Hwf Hx Hxe Hown Hnd Hlive Hcap Hplan Hdone Hss Hr Hfit Hfuel.
  destruct (partial_teardown done post r fuel ssz g m pl old_ptrs
              Hwf Hx Hxe Hown Hnd Hlive Hcap Hplan Hdone Hss Hr Hfit Hfuel)
    as (m' & m'' & Hrun & _ & Hfree & Hlog & _ & Hall).
  exists m', m''. split; [exact Hrun |]. split; [exact Hfree |].
  split; [exact Hlog |]. split; [apply new_ptrs_length |].
  split; [apply new_ptrs_NoDup | exact Hall].
Qed.

Lemma esl_to_esd_partial_count_witness :
  exists m' m'',
    _esl_to_esd 2 (esd_region [(replicate 16 1, [5; 6])] ++ replicate 18 0)
      36 18 (replicate 16 170) (NULL, 0)
      (boot_machine [true; true; true; false]) =
      Ok (GRUB_ERR_OUT_OF_MEMORY, (3, 2)) m' /\
    grub_pks_tmp_free (with_db (3, 2) m') = Ok tt m'' /\
    m_freed m'' = [2; NULL; 3; NULL].
Proof.
  destruct (esl_to_esd_partial_count [(replicate 16 1, [5; 6])] (replicate 18 0)
              1 2 18 (replicate 16 170)
              (boot_machine [true; true; true; false]) [] []
              (boot_machine_wf _) eq_refl eq_refl (sd_owns_null _)
              NoDup_non_null_nil
              ltac:(intros p Hp; inversion Hp)
              ltac:(vm_compute; reflexivity) eq_refl
              ltac:(repeat constructor)
              ltac:(lia) ltac:(lia) ltac:(vm_compute; reflexivity)
              ltac:(cbn; lia))
    as (m' & m'' & H1 & H2 & H3 & _).
  exists m', m''. split; [exact H1 |]. split; [exact H2 | exact H3].
Defined.

(** C10. When the payload allocation of run [K + 1] fails, the slot the
    array was grown by holds the null pointer in its data field (and nothing
    else: its GUID and size were never written), the count handed back
    includes that slot, and the teardown that follows completes without
    reading an indeterminate pointer: for that slot the deallocator is
    given [NULL]. *)
Theorem failed_slot_is_null done post r fuel ssz g m pl old_ptrs :
  let K := length done in
  let sd := db (pks_keystore m) in
  let e := db_entries (pks_keystore m) in
  let sd' := m_brk m + 2 * Z.of_nat K in
  heap_wf m ->
  dbx (pks_keystore m) = NULL -> dbx_entries (pks_keystore m) = 0 ->
  sd_owns m sd e old_ptrs ->
  NoDup (non_null old_ptrs) ->
  (forall p, p ∈ old_ptrs -> p <> NULL -> is_Some (m_heap m !! p) /\ p <> sd) ->
  (e + Z.of_nat K + 1) * sizeof_grub_pks_sd_t < 2 ^ 32 ->
  m_plan m = replicate (2 * K + 1) true ++ false :: pl ->
  Forall (esd_wf ssz) done ->
  0 < ssz -> 1 <= r -> (Z.of_nat K + r) * ssz < 2 ^ 32 ->
  (K < fuel)%nat ->
  exists m' m'' s,
    _esl_to_esd fuel (esd_region done ++ post) ((Z.of_nat K + r) * ssz) ssz g
      (sd, e) m = Ok (GRUB_ERR_OUT_OF_MEMORY, (sd', e + Z.of_nat K + 1)) m' /\
    load_slot sd' (e + Z.of_nat K) m' = Ok s m' /\
    data s = Init NULL /\ guid s = Indet /\ data_size s = Indet /\
    grub_pks_tmp_free (with_db (sd', e + Z.of_nat K + 1) m') = Ok tt m'' /\
    drop (length (m_freed m)) (m_freed m'') !! Z.to_nat (e + Z.of_nat K)
      = Some NULL.
Proof.
  intros K sd e sd' Hwf Hx Hxe Hown Hnd Hlive Hcap Hplan Hdone Hss Hr Hfit Hfuel.
  destruct (partial_teardown done post r fuel ssz g m pl old_ptrs
              Hwf Hx Hxe Hown Hnd Hlive Hcap Hplan Hdone Hss Hr Hfit Hfuel)
    as (m' & m'' & Hrun & Hslot & Hfree & Hlog & _ & _).
  exists m', m'', failed_slot. split; [exact Hrun |]. split; [exact Hslot |].
  split; [reflexivity |]. split; [reflexivity |]. split; [reflexivity |].
  split; [exact Hfree |].
  rewrite Hlog, drop_app_length.
  destruct Hown as (sl & _ & Hlen & Hptrs).
  apply Forall2_length in Hptrs.
  fold e in Hlen.
  rewrite lookup_app_r by lia.
  rewrite lookup_app_r by (rewrite new_ptrs_length; lia).
  rewrite new_ptrs_length.
  match goal with
  | |- _ !! ?i = _ => replace i with O by (unfold K, e in *; lia)
  end.
  reflexivity.
Qed.

Lemma failed_slot_is_null_witness :
  exists m' m'' s,
    _esl_to_esd 2 (esd_region [(replicate 16 1, [5; 6])] ++ replicate 18 0)
      36 18 (replicate 16 170) (NULL, 0)
      (boot_machine [true; true; true; false]) =
      Ok (GRUB_ERR_OUT_OF_MEMORY, (3, 2)) m' /\
    load_slot 3 1 m' = Ok s m' /\ data s = Init NULL /\
    grub_pks_tmp_free (with_db (3, 2) m') = Ok tt m''.
Proof.
  destruct (failed_slot_is_null [(replicate 16 1, [5; 6])] (replicate 18 0)
              1 2 18 (replicate 16 170)
              (boot_machine [true; true; true; false]) [] []
              (boot_machine_wf _) eq_refl eq_refl (sd_owns_null _)
              NoDup_non_null_nil
              ltac:(intros p Hp; inversion Hp)
              ltac:(vm_compute; reflexivity) eq_refl
              ltac:(repeat constructor)
              ltac:(lia) ltac:(lia) ltac:(vm_compute; reflexivity)
              ltac:(cbn; lia))
    as (m' & m'' & s & H1 & H2 & H3 & _ & _ & H4 & _).
  exists m', m'', s. split; [exact H1 |]. split; [exact H2 |].
  split; [exact H3 | exact H4].
Defined.

(** ** The keystore manager *)

Lemma grub_err_eqb_eq a b : grub_err_eqb a b = true <-> a = b.
Proof. destruct a, b; cbn; split; intros H; try reflexivity; discriminate. Qed.

Lemma grub_err_eqb_refl a : grub_err_eqb a a = true.
Proof. now apply grub_err_eqb_eq. Qed.

Lemma grub_err_eqb_neq a b : a <> b -> grub_err_eqb a b = false.
Proof.
  intros H. destruct (grub_err_eqb a b) eqn:E; [| reflexivity].
  apply grub_err_eqb_eq in E. contradiction.
Qed.

(** C1, as stated, fails: the probe enables dynamic key management, the
    allow-list is one list of two signatures and the first payload
    allocation fails; after [grub_pks_keystore_init] the keystore record is
    cleared but [grub_pks_get_keystore] returns it, not the null result. *)
Lemma keystore_init_oom_counterexample :
  let r := grub_pks_keystore_init 10
             (sample_fw 1 (0, esl_bytes sample_esl, 64) not_found)
             (boot_machine [true; true; true; false]) in
  after_init r = Some (Some pks_zero, GRUB_ERR_OUT_OF_MEMORY) /\
  after_init r <> Some (None, GRUB_ERR_OUT_OF_MEMORY).
Proof. vm_compute. split; [reflexivity | discriminate]. Qed.

(** The failure path of [grub_pks_keystore_init], step by step. *)
Lemma init_failure_path fuel fw m m1 rc out m2 m3 :
  is_pks_present fw m = Ok true m1 ->
  read_sbvar_from_pks fuel fw 0 PKS_SBVAR_DB
    (db (pks_keystore m1), db_entries (pks_keystore m1)) m1 = Ok (rc, out) m2 ->
  rc <> GRUB_ERR_NONE ->
  recoverable rc = false ->
  grub_pks_tmp_free (with_db out m2) = Ok tt m3 ->
  grub_pks_keystore_init fuel fw m = Ok tt (set_use_keystore true m3).
Proof.
  intros Hprobe Hload Hrc Hrec Hfree.
  unfold grub_pks_keystore_init.
  rewrite (bind_ok _ _ _ _ _ Hprobe). cbn [negb].
  unfold bind at 1, get.
  rewrite (bind_ok _ _ _ _ _ Hload). cbn [fst snd].
  unfold bind at 1, modify at 1. fold (with_db out m2).
  rewrite Hrec. unfold bind at 1, ret at 1.
  rewrite (grub_err_eqb_neq _ _ Hrc).
  unfold bind at 1, ret at 1.
  rewrite (grub_err_eqb_neq _ _ Hrc). cbn [negb].
  rewrite (bind_ok _ _ _ _ _ Hfree). reflexivity.
Qed.

(** C1 (amended). If the probe has enabled dynamic key management and the
    allow-list load fails with an out-of-memory or any other error that is
    not one of the two recoverable ones, then [grub_pks_keystore_init] tears
    the keystore down and, the teardown having run to its end, returns with
    the keystore record cleared (both arrays null, both counts zero,
    [use_static_keys] false) and with [pks_use_keystore] set:
    [grub_pks_get_keystore] returns the empty keystore. *)
Theorem keystore_init_load_failure fuel fw m m1 rc out m2 m3 :
  is_pks_present fw m = Ok true m1 ->
  read_sbvar_from_pks fuel fw 0 PKS_SBVAR_DB
    (db (pks_keystore m1), db_entries (pks_keystore m1)) m1 = Ok (rc, out) m2 ->
  rc <> GRUB_ERR_NONE ->
  recoverable rc = false ->
  grub_pks_tmp_free (with_db out m2) = Ok tt m3 ->
  grub_pks_keystore_init fuel fw m = Ok tt (set_use_keystore true m3) /\
  pks_keystore (set_use_keystore true m3) = pks_zero /\
  grub_pks_get_keystore (set_use_keystore true m3) = Some pks_zero.
Proof.
  intros Hprobe Hload Hrc Hrec Hfree.
  pose proof (grub_pks_tmp_free_inv _ _ Hfree) as (Hz & _ & _).
  split; [| split].
  - exact (init_failure_path fuel fw m m1 rc out m2 m3 Hprobe Hload Hrc Hrec Hfree).
  - exact Hz.
  - unfold grub_pks_get_keystore. cbn [pks_use_keystore set_use_keystore].
    cbn [pks_keystore]. now rewrite Hz.
Qed.

Lemma keystore_init_load_failure_witness :
  exists m3,
    grub_pks_keystore_init 10
      (sample_fw 1 (0, esl_bytes sample_esl, 64) not_found)
      (boot_machine [true; true; true; false]) = Ok tt (set_use_keystore true m3) /\
    grub_pks_get_keystore (set_use_keystore true m3) = Some pks_zero.
Proof.
  eexists.
  refine ((fun H => conj (proj1 H) (proj2 (proj2 H)))
            (keystore_init_load_failure 10
               (sample_fw 1 (0, esl_bytes sample_esl, 64) not_found)
               (boot_machine [true; true; true; false]) _
               GRUB_ERR_OUT_OF_MEMORY _ _ _ _ _ _ _ _)).
  - vm_compute. reflexivity.
  - vm_compute. reflexivity.
  - discriminate.
  - reflexivity.
  - vm_compute. reflexivity.
Defined.

(** A slip that the amended C1 leaves aside.  When it is [grub_realloc]
    that fails, [_esl_to_esd] returns without writing [*pks_sd] back; if the
    array had already been moved during the same call, the keystore is left
    pointing at the released array, and the teardown reads it.  Here the
    allow-list is two lists of two signatures and the ninth allocation
    request, the second [grub_realloc] of the second list, fails. *)
Remark keystore_init_realloc_failure_faults :
  grub_pks_keystore_init 10
    (sample_fw 1 (0, esls_bytes [sample_esl; sample_esl], 128) not_found)
    (boot_machine (replicate 8 true ++ [false])) = Fault InvalidPointer.
Proof. vm_compute. reflexivity. Qed.

(** ** The allow-list load running out of memory, end to end *)

Lemma esd_region_app a b : esd_region (a ++ b) = esd_region a ++ esd_region b.
Proof. unfold esd_region. now rewrite map_app, concat_app. Qed.

(** [read_sbvar_from_pks] into an empty database when the payload
    allocation of signature [K + 1] of the first list fails. *)
Lemma read_sbvar_partial fuel fw flags type m l post K rc len pl :
  let b := m_brk m in
  let sd' := b + 1 + 2 * Z.of_nat K in
  heap_wf m ->
  fw_read_sbvar fw type = (rc, esl_bytes l ++ post, len) ->
  0 <= rc -> esl_length l <= len ->
  esl_wf l -> (K < length (esl_signatures l))%nat ->
  m_plan m = true :: replicate (2 * K + 1) true ++ false :: pl ->
  (Z.of_nat K + 1) * sizeof_grub_pks_sd_t < 2 ^ 32 ->
  (K + 1 < fuel)%nat ->
  exists m2,
    read_sbvar_from_pks fuel fw flags type (NULL, 0) m =
      Ok (GRUB_ERR_OUT_OF_MEMORY, (sd', Z.of_nat K + 1)) m2 /\
    m_heap m2 !! sd' =
      Some (Slots (new_slots (esl_type l) (esl_signature_size l - sizeof_grub_esd_t)
                     (b + 1) (take K (esl_signatures l)) ++ [failed_slot])) /\
    (forall p, p ∈ new_ptrs (b + 1) K -> exists bs, m_heap m2 !! p = Some (Bytes bs)) /\
    m_heap m2 !! b = None /\
    (forall q, q < b -> m_heap m2 !! q = m_heap m !! q) /\
    m2 = set_errno GRUB_ERR_OUT_OF_MEMORY
           (set_brk (sd' + 1)
              (set_heap (m_heap m2)
                 (set_freed (m_freed m ++ [b]) (set_plan pl m)))).
Proof.
  intros b sd' Hwf Hfw Hrc Hlen Hl HK Hplan Hcap Hfuel.
  pose proof (esl_length_min l Hl) as Hmin. unfold sizeof_grub_esl_t in Hmin.
  pose proof Hl as [Ht [Hs Hs32] Hsig Hf].
  set (sigs := esl_signatures l) in *. set (ssz := esl_signature_size l) in *.
  set (done := take K sigs).
  assert (length done = K) as HdK by (subst done; rewrite length_take; lia).
  assert (0 < ssz) as Hs0 by (unfold sizeof_grub_esd_t in Hs; lia).
  assert (Z.of_nat (length sigs) * ssz < 2 ^ 32) as Hreg.
  { unfold esl_length, sizeof_grub_esl_t in Hf. fold sigs ssz in Hf. lia. }
  assert (0 < b) as Hb by (destruct Hwf; assumption).
  set (buf := esl_bytes l ++ post) in *.
  set (mb := set_brk (b + 1)
               (set_heap (<[b := Bytes buf]> (m_heap m))
                  (set_plan (replicate (2 * K + 1) true ++ false :: pl) m))).
  assert (heap_wf mb) as Hwfb.
  { destruct Hwf as [_ Hwf]. split; [subst mb; msimpl; lia |].
    intros p. subst mb. msimpl. rewrite lookup_insert. case_decide; [lia |].
    intros Hp. apply Hwf in Hp. fold b in Hp. lia. }
  destruct (esd_partial done (esd_region (drop K sigs) ++ post)
              (Z.of_nat (length sigs) - Z.of_nat K) (fuel - 1) ssz (esl_type l)
              NULL 0 mb [] pl Hwfb (or_introl (conj eq_refl eq_refl)) eq_refl
              ltac:(rewrite HdK; lia)
              ltac:(rewrite HdK; reflexivity)
              ltac:(subst done; now apply Forall_take)
              Hs0 ltac:(lia) ltac:(rewrite HdK; nia) ltac:(rewrite HdK; lia))
    as (m' & Hrun & Hwf' & Harr' & Hframe & Hent & Hm').
  rewrite HdK in Hrun, Harr', Hm'.
  replace (m_brk mb) with (b + 1) in * by reflexivity.
  cbn [app] in Harr'.
  assert (m_heap m' !! b = Some (Bytes buf)) as Hbuf_live.
  { rewrite Hframe; [subst mb; msimpl; apply lookup_insert_eq | lia |].
    unfold NULL. lia. }
  set (m2 := set_heap (delete b (m_heap m')) (set_freed (m_freed m' ++ [b]) m')).
  exists m2. split; [| split; [| split; [| split; [| split]]]].
  - unfold read_sbvar_from_pks. unfold bind at 1, get.
    rewrite (bind_ok _ _ _ _ _
               (grub_malloc_ok _ m ltac:(rewrite Hplan; discriminate))).
    fold b. destruct (Z.eqb_spec b NULL) as [E|_]; [unfold NULL in E; lia |].
    rewrite Hfw.
    erewrite bind_ok by (eapply write_bytes_ok; msimpl; apply lookup_insert_eq).
    msimpl. rewrite insert_insert_eq. rewrite Hplan. cbn [tail].
    fold mb.
    destruct (Z.eqb_spec rc IEEE1275_CELL_NOT_FOUND) as [E|_];
      [unfold IEEE1275_CELL_NOT_FOUND in E; lia |].
    destruct (Z.ltb_spec rc 0); [lia |].
    destruct (Z.ltb_spec 0 len); [| lia].
    assert ((buf0 <- load_buffer b ;; pks_sd_from_esl fuel buf0 len (NULL, 0)) mb
            = Ok (GRUB_ERR_OUT_OF_MEMORY, (sd', Z.of_nat K + 1)) m') as Hparse.
    { assert (m_heap mb !! b = Some (Bytes buf)) as Hmb
        by (subst mb; msimpl; apply lookup_insert_eq).
      assert (load_buffer b mb = Ok buf mb) as Hload
        by (unfold load_buffer, bind, get; rewrite Hmb; reflexivity).
      rewrite (bind_ok _ _ _ _ _ Hload).
      unfold pks_sd_from_esl.
      destruct fuel as [|f]; [lia |]. cbn [sd_do_while].
      replace (S f - 1)%nat with f in Hrun by lia.
      unfold sd_body at 1. cbn [s_esl_data s_esl_size s_out].
      unfold bind at 1 2.
      pose proof (esl_to_esd_header l post f len (NULL, 0) mb Hl Hlen) as Hhd.
      fold buf sigs ssz in Hhd. rewrite Hhd. clear Hhd.
      replace (esd_region sigs ++ post)
        with (esd_region done ++ esd_region (drop K sigs) ++ post)
        by (subst done; rewrite app_assoc, <- esd_region_app, take_drop;
            reflexivity).
      replace (Z.of_nat (length sigs) * ssz)
        with ((Z.of_nat K + (Z.of_nat (length sigs) - Z.of_nat K)) * ssz)
        by (f_equal; lia).
      unfold bind at 1. rewrite Hrun. unfold ret at 1.
      cbn [fst snd grub_err_eqb andb s_out]. unfold ret.
      subst sd'. do 3 f_equal; lia. }
    rewrite (bind_ok _ _ _ _ _ Hparse).
    erewrite bind_ok
      by (apply (grub_free_live b m' _ Hbuf_live); unfold NULL; lia).
    reflexivity.
  - subst m2 sd'. msimpl.
    rewrite lookup_delete_ne by lia.
    replace (b + 1 + 2 * Z.of_nat K) with (b + 1 + 2 * Z.of_nat K) by lia.
    exact Harr'.
  - intros p Hp. subst m2. msimpl.
    pose proof (new_ptrs_bounds _ _ _ Hp) as Hpb.
    rewrite lookup_delete_ne by lia.
    rewrite <- HdK in Hp.
    exact (new_ptrs_live (esl_type l) (ssz - sizeof_grub_esd_t) (m_heap m') done
             (b + 1) Hent p Hp).
  - subst m2. msimpl. apply lookup_delete_eq.
  - intros q Hq. subst m2. msimpl. rewrite lookup_delete_ne by lia.
    destruct (Z.eq_dec q NULL) as [-> | Hqn].
    + destruct Hwf as [_ Hwf], Hwf' as [_ Hwf'].
      destruct (m_heap m' !! NULL) eqn:E1.
      { assert (is_Some (m_heap m' !! NULL)) as Hs' by (rewrite E1; eauto).
        apply Hwf' in Hs'. unfold NULL in Hs'. lia. }
      destruct (m_heap m !! NULL) eqn:E2; [| reflexivity].
      assert (is_Some (m_heap m !! NULL)) as Hs' by (rewrite E2; eauto).
      apply Hwf in Hs'. unfold NULL in Hs'. lia.
    + rewrite Hframe by (try lia; exact Hqn). subst mb. msimpl.
      apply lookup_insert_ne. lia.
  - subst m2. rewrite Hm' at 1 2 3. subst mb sd'. destruct m; msimpl.
    apply mk_machine_eq; [reflexivity | lia | reflexivity].
Qed.

(** The whole of [grub_pks_keystore_init] on a machine whose keystore is
    still the static initialiser, the firmware answering the probe with
    version 1 and the allow-list variable with a well-formed list, when the
    payload allocation of signature [K + 1] fails: the version buffer, the
    variable buffer, the [K] payloads, the missing payload, the array and
    the absent deny-list are released in that order, the keystore record is
    zero again, [grub_errno] holds the out-of-memory code, and
    [pks_use_keystore] is [true]. *)
Lemma keystore_init_payload_failure fuel fw m l post K rc0 bs rc len pl :
  let b := m_brk m in
  let sd' := b + 2 + 2 * Z.of_nat K in
  heap_wf m ->
  pks_keystore m = pks_zero ->
  0 <= fw_test fw -> 0 <= fst (fw_max_object_size fw) ->
  fw_read_object fw = (rc0, 1 :: bs, 1) -> 0 <= rc0 ->
  fw_read_sbvar fw PKS_SBVAR_DB = (rc, esl_bytes l ++ post, len) ->
  0 <= rc -> esl_length l <= len ->
  esl_wf l -> (K < length (esl_signatures l))%nat ->
  m_plan m = true :: true :: replicate (2 * K + 1) true ++ false :: pl ->
  (Z.of_nat K + 1) * sizeof_grub_pks_sd_t < 2 ^ 32 ->
  (K + 1 < fuel)%nat ->
  exists m',
    grub_pks_keystore_init fuel fw m = Ok tt m' /\
    pks_keystore m' = pks_zero /\
    pks_use_keystore m' = true /\
    grub_errno m' = GRUB_ERR_OUT_OF_MEMORY /\
    m_plan m' = pl /\
    m_freed m' =
      m_freed m ++ [b; b + 1] ++ new_ptrs (b + 2) K ++ [NULL; sd'; NULL] /\
    (forall p, p ∈ [b; b + 1; sd'] ++ new_ptrs (b + 2) K ->
               m_heap m' !! p = None).
Proof.
  intros b sd' Hwf Hks Htest Hmax Hro Hrc0 Hfw Hrc Hlen Hl HK Hplan Hcap Hfuel.
  assert (0 < b) as Hb by (destruct Hwf; assumption).
  set (m0 := set_max_object_size (snd (fw_max_object_size fw)) m).
  set (m1 := probe_done (1 :: bs) (true :: replicate (2 * K + 1) true ++ false :: pl) m0).
  assert (is_pks_present fw m = Ok true m1) as Hprobe.
  { rewrite (is_pks_present_eval fw m Hwf). unfold is_pks_present_result.
    rewrite Hro, Hplan.
    destruct (Z.ltb_spec (fw_test fw) 0); [lia |].
    destruct (Z.ltb_spec (fst (fw_max_object_size fw)) 0); [lia |].
    destruct (Z.ltb_spec rc0 0); [lia |]. reflexivity. }
  assert (m_brk m1 = b + 1) as Hb1 by reflexivity.
  assert (heap_wf m1) as Hwf1.
  { destruct Hwf as [_ Hwf]. split; [rewrite Hb1; lia |]. intros p.
    rewrite Hb1. subst m1 m0. unfold probe_done, probe_buffer. msimpl.
    fold b. rewrite delete_insert_eq. intros Hp.
    apply lookup_delete_is_Some in Hp as [_ Hp]. apply Hwf in Hp. fold b in Hp. lia. }
  assert (pks_keystore m1 = pks_zero) as Hks1 by exact Hks.
  destruct (read_sbvar_partial fuel fw 0 PKS_SBVAR_DB m1 l post K rc len pl
              Hwf1 Hfw Hrc Hlen Hl HK eq_refl Hcap Hfuel)
    as (m2 & Hload & Harr & Hlive & Hbuf & Hbelow & Hm2).
  rewrite Hb1 in Hload, Harr, Hlive, Hbuf, Hbelow, Hm2.
  replace (b + 1 + 1 + 2 * Z.of_nat K) with sd' in * by (unfold sd'; lia).
  replace (b + 1 + 1) with (b + 2) in * by lia.
  assert (sd' <> NULL) as Hsd' by (unfold NULL, sd'; lia).
  set (ptrs := new_ptrs (b + 2) K ++ [NULL]).
  set (m2' := with_db (sd', Z.of_nat K + 1) m2).
  assert (pks_keystore m2' = set_db (sd', Z.of_nat K + 1) pks_zero) as Hks2.
  { subst m2'. unfold with_db. cbn [pks_keystore set_keystore].
    rewrite Hm2. msimpl. now rewrite Hks1. }
  assert (length (take K (esl_signatures l)) = K) as HdK
    by (rewrite length_take; lia).
  assert (grub_pks_tmp_free m2' =
          Ok tt (set_keystore pks_zero
                   (set_heap (free_all (ptrs ++ [] ++ [sd'; NULL]) (m_heap m2'))
                      (set_freed (m_freed m2' ++ ptrs ++ [] ++ [sd'; NULL]) m2'))))
    as Hfree.
  { pose proof (grub_pks_tmp_free_ok m2' ptrs []) as H. cbv zeta in H.
    rewrite Hks2 in H.
    cbn [db dbx db_entries dbx_entries set_db pks_zero fst snd] in H.
    apply H; clear H.
    - eexists. split; [right; split; [exact Hsd' | exact Harr] |].
      split; [rewrite length_app, new_slots_length, HdK; cbn [length]; lia |].
      subst ptrs. apply Forall2_app.
      + rewrite <- HdK at 2. apply new_slots_ptrs.
      + constructor; [reflexivity | constructor].
    - apply sd_owns_null.
    - rewrite app_nil_r. subst ptrs. unfold non_null.
      rewrite filter_app. fold (non_null [NULL]).
      rewrite non_null_cons_null. unfold non_null.
      rewrite filter_nil, app_nil_r.
      apply NoDup_filter, new_ptrs_NoDup.
    - intros p Hp Hpn. rewrite app_nil_r in Hp. subst ptrs.
      apply elem_of_app in Hp as [Hp | Hp].
      + destruct (Hlive p Hp) as [bs' Hbs].
        apply new_ptrs_bounds in Hp.
        split; [change (m_heap m2') with (m_heap m2); rewrite Hbs; eauto |].
        split; [unfold sd'; lia | exact Hpn].
      + apply list_elem_of_singleton in Hp. contradiction.
    - right. exact Hsd'. }
  pose proof (init_failure_path fuel fw m m1 GRUB_ERR_OUT_OF_MEMORY
                (sd', Z.of_nat K + 1) m2 _ Hprobe
                ltac:(rewrite Hks1; exact Hload) ltac:(discriminate) eq_refl Hfree)
    as Hinit.
  eexists. split; [exact Hinit |].
  cbn [pks_keystore pks_use_keystore grub_errno m_plan m_freed m_heap
       set_use_keystore set_keystore set_heap set_freed].
  split; [reflexivity |]. split; [reflexivity |].
  change (grub_errno m2') with (grub_errno m2).
  change (m_plan m2') with (m_plan m2).
  change (m_freed m2') with (m_freed m2).
  change (m_heap m2') with (m_heap m2).
  split; [rewrite Hm2; reflexivity |].
  split; [rewrite Hm2; reflexivity |]. split.
  - rewrite Hm2. subst ptrs m1 m0. unfold probe_done, probe_buffer. msimpl.
    fold b. rewrite <- !app_assoc. reflexivity.
  - intros p Hp. subst ptrs.
    change ([b; b + 1; sd'] ++ new_ptrs (b + 2) K)
      with ([b; b + 1] ++ [sd'] ++ new_ptrs (b + 2) K) in Hp.
    apply elem_of_app in Hp as [Hp | Hp].
    + apply free_all_none.
      apply elem_of_cons in Hp as [-> | Hp].
      * rewrite Hbelow by lia. subst m1 m0. unfold probe_done, probe_buffer.
        msimpl. apply lookup_delete_eq.
      * apply list_elem_of_singleton in Hp. subst p. exact Hbuf.
    + apply lookup_free_all_in.
      * rewrite !elem_of_app. apply elem_of_app in Hp as [Hp | Hp].
        -- right. right. apply list_elem_of_singleton in Hp. subst p. left.
        -- left. now left.
      * apply elem_of_app in Hp as [Hp | Hp].
        -- apply list_elem_of_singleton in Hp. now subst p.
        -- apply new_ptrs_bounds in Hp. unfold NULL. lia.
Qed.

(** The same on the sample list, at boot, the second payload allocation
    failing: six pointers are released, the last [NULL] being the absent
    deny-list. *)
Example keystore_init_payload_failure_sample :
  exists m',
    grub_pks_keystore_init 10
      (sample_fw 1 (0, esl_bytes sample_esl, 64) not_found)
      (boot_machine [true; true; true; true; true; false]) = Ok tt m' /\
    pks_keystore m' = pks_zero /\
    pks_use_keystore m' = true /\
    grub_errno m' = GRUB_ERR_OUT_OF_MEMORY /\
    m_freed m' = [1; 2; 4; NULL; 5; NULL].
Proof.
  destruct (keystore_init_payload_failure 10
              (sample_fw 1 (0, esl_bytes sample_esl, 64) not_found)
              (boot_machine [true; true; true; true; true; false])
              sample_esl [] 1 0 [] 0 64 [])
    as (m' & Hrun & Hks & Huse & Herr & _ & Hfreed & _).
  - apply boot_machine_wf.
  - reflexivity.
  - cbn; lia.
  - cbn; lia.
  - reflexivity.
  - lia.
  - vm_compute. reflexivity.
  - lia.
  - vm_compute. discriminate.
  - apply sample_esl_wf.
  - cbn; lia.
  - reflexivity.
  - vm_compute. reflexivity.
  - lia.
  - exists m'. repeat split; assumption.
Qed.

(** * Further properties *)

(** ** Databases and the buffers of their payloads *)

Lemma sd_holds_at_holds m sd n ents ptrs :
  sd_holds_at m sd n ents ptrs -> sd_holds m sd n ents.
Proof. intros (sl & Ha & Hl & He & _). now exists sl. Qed.

Lemma sd_holds_at_owns m sd n ents ptrs :
  sd_holds_at m sd n ents ptrs -> sd_owns m sd n ptrs.
Proof. intros (sl & Ha & Hl & _ & Hp). now exists sl. Qed.

Lemma sd_holds_at_null m : sd_holds_at m NULL 0 [] [].
Proof.
  exists []. split; [left; now split |].
  split; [reflexivity |]. split; constructor.
Qed.

Lemma sd_holds_at_counts m sd n ents ptrs :
  sd_holds_at m sd n ents ptrs ->
  Z.of_nat (length ents) = n /\ Z.of_nat (length ptrs) = n.
Proof.
  intros (sl & _ & Hl & He & Hp).
  apply Forall2_length in He, Hp. split; lia.
Qed.

(** Every payload pointer of a database names a live byte buffer. *)
Lemma sd_holds_at_live m sd n ents ptrs :
  sd_holds_at m sd n ents ptrs ->
  forall p, p ∈ ptrs -> exists bs, m_heap m !! p = Some (Bytes bs).
Proof.
  intros (sl & _ & _ & He & Hp) p Hin.
  apply list_elem_of_lookup in Hin as [i Hi].
  destruct (Forall2_lookup_r _ _ _ _ _ Hp Hi) as (s & Hs & Hd).
  destruct (Forall2_lookup_l _ _ _ _ _ He Hs) as (e & _ & Hse).
  unfold slot_entry in Hse. rewrite Hd in Hse.
  destruct (guid s), (data_size s); try discriminate.
  destruct (m_heap m !! p) as [[bs|]|]; try discriminate. eauto.
Qed.

(** On a well-formed heap the payload pointers are below the frontier,
    not null, and none of them is the array. *)
Lemma sd_holds_at_bounds m sd n ents ptrs :
  heap_wf m -> sd_holds_at m sd n ents ptrs ->
  forall p, p ∈ ptrs -> 0 < p < m_brk m /\ p <> sd.
Proof.
  intros [Hb Hwf] Hh p Hin.
  destruct (sd_holds_at_live _ _ _ _ _ Hh p Hin) as [bs Hbs].
  assert (0 < p < m_brk m) as Hr by (apply Hwf; eauto).
  split; [exact Hr |].
  destruct Hh as (sl & [[-> _] | [_ Hl]] & _); [unfold NULL; lia |].
  intros ->. congruence.
Qed.

Lemma sd_array_bounds m sd sl :
  heap_wf m -> sd_array m sd sl -> 0 <= sd < m_brk m.
Proof.
  intros [Hb Hwf] [[-> _] | [_ Hl]]; [unfold NULL; lia |].
  assert (0 < sd < m_brk m) by (apply Hwf; eauto). lia.
Qed.

(** A database is still there when its array and the buffers of its
    payloads are, unchanged. *)
Lemma sd_holds_at_same m m' sd n ents ptrs :
  sd_holds_at m sd n ents ptrs ->
  (sd <> NULL -> m_heap m' !! sd = m_heap m !! sd) ->
  (forall p, p ∈ ptrs -> m_heap m' !! p = m_heap m !! p) ->
  sd_holds_at m' sd n ents ptrs.
Proof.
  intros (sl & Ha & Hl & He & Hp) Hsd Hf. exists sl.
  split; [| split; [exact Hl | split; [| exact Hp]]].
  - destruct Ha as [Ha | [Hn Ha]]; [now left | right].
    split; [exact Hn |]. now rewrite Hsd.
  - apply Forall2_same_length_lookup. split; [eapply Forall2_length; eassumption |].
    intros i s e Hs Hi.
    destruct (Forall2_lookup_l _ _ _ _ _ Hp Hs) as (p & Hpi & Hd).
    pose proof (Forall2_lookup_lr _ _ _ _ _ _ He Hs Hi) as Hse.
    unfold slot_entry in *. rewrite Hd in *.
    rewrite Hf; [exact Hse |]. eapply list_elem_of_lookup_2; exact Hpi.
Qed.

Lemma sd_holds_at_frame m m' sd n ents ptrs :
  sd_holds_at m sd n ents ptrs ->
  (forall q, is_Some (m_heap m !! q) -> m_heap m' !! q = m_heap m !! q) ->
  sd_holds_at m' sd n ents ptrs.
Proof.
  intros Hh Hf. eapply sd_holds_at_same; [exact Hh | |].
  - intros Hn. destruct Hh as (sl & [[? _] | [_ Ha]] & _); [contradiction |].
    apply Hf. rewrite Ha. eauto.
  - intros p Hp. destruct (sd_holds_at_live _ _ _ _ _ Hh p Hp) as [bs Hbs].
    apply Hf. rewrite Hbs. eauto.
Qed.

Lemma new_ptrs_app j : forall b k,
  new_ptrs b (j + k) = new_ptrs b j ++ new_ptrs (b + 2 * Z.of_nat j) k.
Proof.
  induction j as [|j IH]; intros b k; cbn [new_ptrs Nat.add app].
  - f_equal. lia.
  - rewrite IH. do 3 f_equal. lia.
Qed.

Lemma new_slots_data g n sigs : forall b s,
  s ∈ new_slots g n b sigs ->
  exists p, data s = Init p /\ p ∈ new_ptrs b (length sigs).
Proof.
  intros b s Hs. apply list_elem_of_lookup in Hs as [i Hi].
  destruct (Forall2_lookup_l _ _ _ _ _ (new_slots_ptrs g n sigs b) Hi)
    as (p & Hp & Hd).
  exists p. split; [exact Hd |]. eapply list_elem_of_lookup_2; exact Hp.
Qed.

(** One list's worth of runs of the entry loop, seen from the heap. *)
Lemma esd_post_sd_post g n sigs sl sd sd' m m' :
  heap_wf m -> sd_array m sd sl ->
  esd_post g n sigs sl sd sd' m m' ->
  sd_post (m_brk m) (length sigs) sd sd' (m_heap m) (m_heap m').
Proof.
  intros Hwf Harr [Pwf Pm Parr Pent Pframe Pfresh Psig Psf Pss].
  split.
  - exact Pframe.
  - intros q Hq Hlive. destruct (Pfresh q Hq Hlive) as [-> | (s & Hs & Hd)];
      [now left | right].
    destruct (new_slots_data _ _ _ _ _ Hs) as (p & Hp & Hin). congruence.
  - intros Hc. assert (sigs <> []) as Hne by (intros ->; now apply Hc).
    destruct (Psig Hne) as [H1 H2]. split; [exact H1 |].
    split; [exact H2 | now apply Psf].
  - intros Hc. apply length_zero_iff_nil in Hc. subst sigs.
    rewrite (Pss eq_refl) in *. split; [reflexivity |].
    cbn [new_slots] in Parr. rewrite app_nil_r in Parr.
    destruct Harr as [[-> _] | [Hn Hl]].
    + destruct Hwf as [_ Hwf], Pwf as [_ Pwf].
      destruct (m_heap m' !! NULL) eqn:E1.
      { assert (is_Some (m_heap m' !! NULL)) as Hs by (rewrite E1; eauto).
        apply Pwf in Hs. unfold NULL in Hs. lia. }
      destruct (m_heap m !! NULL) eqn:E2; [| reflexivity].
      assert (is_Some (m_heap m !! NULL)) as Hs by (rewrite E2; eauto).
      apply Hwf in Hs. unfold NULL in Hs. lia.
    + destruct Parr as [[? _] | [_ Hl']]; [contradiction | congruence].
Qed.

(** Two runs one after the other. *)
Lemma sd_post_trans b c1 c2 sd sd1 sd2 h h1 h2 :
  sd < b ->
  (forall q, b + 2 * Z.of_nat c1 <= q -> h1 !! q = None) ->
  sd_post b c1 sd sd1 h h1 ->
  sd_post (b + 2 * Z.of_nat c1) c2 sd1 sd2 h1 h2 ->
  sd_post b (c1 + c2) sd sd2 h h2.
Proof.
  intros Hsd Htop [F1 R1 M1 S1] [F2 R2 M2 S2].
  assert (sd1 = sd \/ b <= sd1) as Hsd1.
  { destruct c1 as [|c1]; [left; now apply S1 | right; now apply M1]. }
  split.
  - intros q Hq Hne. rewrite F2; [now apply F1 | lia |].
    destruct Hsd1 as [-> | ?]; [exact Hne | lia].
  - intros q Hq Hlive. rewrite new_ptrs_app, elem_of_app.
    destruct (Z.lt_ge_cases q (b + 2 * Z.of_nat c1)) as [Hlt | Hge].
    + destruct (decide (q = sd1)) as [-> | Hne].
      * destruct c2 as [|c2].
        -- left. symmetry. now apply S2.
        -- destruct (M2 ltac:(discriminate)) as [Hnone _].
           rewrite Hnone in Hlive. now destruct Hlive.
      * rewrite F2 in Hlive by assumption.
        destruct (R1 q Hq Hlive) as [? | ?]; [contradiction | right; now left].
    + destruct (R2 q Hge Hlive) as [? | ?]; [now left | right; now right].
  - intros Hc. destruct c2 as [|c2].
    + destruct (S2 eq_refl) as [-> _]. rewrite Nat.add_0_r in Hc.
      destruct (M1 Hc) as (H1 & H2 & H3).
      split; [| split; assumption].
      destruct (S2 eq_refl) as [_ E]. 
      destruct (decide (sd = sd1)) as [-> | Hne]; [congruence |].
      rewrite F2; [exact H1 | lia | exact Hne].
    + destruct (M2 ltac:(discriminate)) as (H1 & H2 & H3).
      split; [| split; [exact H2 | lia]].
      destruct Hsd1 as [-> | Hb1]; [exact H1 |].
      destruct c1 as [|c1].
      * destruct (S1 eq_refl) as [-> _]. exact H1.
      * destruct (M1 ltac:(discriminate)) as (H1' & _ & _).
        rewrite F2; [exact H1' | lia | lia].
  - intros Hc. assert (c1 = O /\ c2 = O) as [-> ->] by lia.
    destruct (S1 eq_refl) as [-> E1], (S2 eq_refl) as [-> E2].
    split; [reflexivity | congruence].
Qed.

(** ** The unpacker, with the addresses it uses *)

(** One run of the body of the [do ... while] loop on a well-formed list. *)
Lemma sd_body_at l rest size_rest fuel sd e old ptrs m :
  esl_wf l ->
  0 <= size_rest ->
  esl_length l + size_rest < 2 ^ 32 ->
  heap_wf m ->
  sd_holds_at m sd e old ptrs ->
  (e + Z.of_nat (length (esl_signatures l))) * sizeof_grub_pks_sd_t < 2 ^ 32 ->
  plan_ok (2 * length (esl_signatures l)) (m_plan m) ->
  (length (esl_signatures l) < fuel)%nat ->
  exists sd' m',
    sd_body fuel {| s_esl_data := esl_bytes l ++ rest;
                    s_esl_size := esl_length l + size_rest;
                    s_out := (sd, e) |} m =
      Ok (GRUB_ERR_NONE,
          {| s_esl_data := rest; s_esl_size := size_rest;
             s_out := (sd', e + Z.of_nat (length (esl_signatures l))) |}) m' /\
    sd_holds_at m' sd' (e + Z.of_nat (length (esl_signatures l)))
      (old ++ esl_entries l)
      (ptrs ++ new_ptrs (m_brk m) (length (esl_signatures l))) /\
    heap_wf m' /\
    m' = set_brk (m_brk m + 2 * Z.of_nat (length (esl_signatures l)))
           (set_heap (m_heap m')
              (set_plan (drop (2 * length (esl_signatures l)) (m_plan m)) m)) /\
    sd_post (m_brk m) (length (esl_signatures l)) sd sd' (m_heap m) (m_heap m').
Proof.
  intros Hl Hrest Hfit Hwf (sl & Harr & Hlen & Hold & Hptrs) Hcap Hpl Hfuel.
  destruct (esl_to_esd_ok l rest fuel (esl_length l + size_rest) sd e m sl
              Hl ltac:(lia) Hwf Harr Hlen Hcap Hpl Hfuel)
    as (sd' & m' & Hrun & Hpost).
  exists sd', m'. split; [| split; [| split; [| split]]].
  - unfold sd_body. cbn [s_esl_data s_esl_size s_out].
    rewrite (bind_ok _ _ _ _ _ Hrun). cbn [grub_err_eqb].
    pose proof (esl_length_min l Hl) as Hmin. unfold sizeof_grub_esl_t in Hmin.
    rewrite (drop_app_length' (esl_bytes l) rest)
      by (pose proof (esl_bytes_length l Hl); lia).
    replace (esl_length l + size_rest - esl_length l) with size_rest by lia.
    rewrite wrap32_small by lia. reflexivity.
  - exists (sl ++ new_slots (esl_type l)
                    (esl_signature_size l - sizeof_grub_esd_t) (m_brk m)
                    (esl_signatures l)).
    split; [apply (post_array _ _ _ _ _ _ _ _ Hpost) |].
    split; [rewrite length_app, new_slots_length; lia |].
    split; apply Forall2_app.
    + eapply Forall2_impl; [exact Hold |].
      intros s en. apply slot_entry_frame.
      eapply esd_post_bytes; eassumption.
    + unfold esl_entries, esd_entries. apply Forall2_fmap_r.
      apply (post_entries _ _ _ _ _ _ _ _ Hpost).
    + exact Hptrs.
    + apply new_slots_ptrs.
  - apply (post_wf _ _ _ _ _ _ _ _ Hpost).
  - apply (post_machine _ _ _ _ _ _ _ _ Hpost).
  - eapply esd_post_sd_post; eassumption.
Qed.

(** The loop over the well-formed lists [l :: ls], the buffer going on with
    [rest], of declared size [size_rest]: if that is zero the loop ends
    there without error, and otherwise it goes on from [rest]. *)
Lemma sd_do_while_run ls : forall l rest size_rest fuel sd e old ptrs m,
  Forall esl_wf (l :: ls) ->
  0 <= size_rest ->
  esls_length (l :: ls) + size_rest < 2 ^ 32 ->
  heap_wf m ->
  sd_holds_at m sd e old ptrs ->
  (e + Z.of_nat (esls_count (l :: ls))) * sizeof_grub_pks_sd_t < 2 ^ 32 ->
  plan_ok (2 * esls_count (l :: ls)) (m_plan m) ->
  (length (l :: ls) + esls_count (l :: ls) < fuel)%nat ->
  exists sd' m',
    sd_do_while fuel
      {| s_esl_data := esls_bytes (l :: ls) ++ rest;
         s_esl_size := esls_length (l :: ls) + size_rest; s_out := (sd, e) |} m =
      (if 0 <? size_rest then
         sd_do_while (fuel - length (l :: ls))
           {| s_esl_data := rest; s_esl_size := size_rest;
              s_out := (sd', e + Z.of_nat (esls_count (l :: ls))) |} m'
       else Ok (GRUB_ERR_NONE, (sd', e + Z.of_nat (esls_count (l :: ls)))) m') /\
    sd_holds_at m' sd' (e + Z.of_nat (esls_count (l :: ls)))
      (old ++ esls_entries (l :: ls))
      (ptrs ++ new_ptrs (m_brk m) (esls_count (l :: ls))) /\
    heap_wf m' /\
    m' = set_brk (m_brk m + 2 * Z.of_nat (esls_count (l :: ls)))
           (set_heap (m_heap m')
              (set_plan (drop (2 * esls_count (l :: ls)) (m_plan m)) m)) /\
    sd_post (m_brk m) (esls_count (l :: ls)) sd sd' (m_heap m) (m_heap m').
Proof.
  induction ls as [|l2 ls IH]; intros l rest size_rest fuel sd e old ptrs m
    Hls Hrest Hfit Hwf Hold Hcap Hpl Hfuel.
  - apply Forall_cons in Hls as [Hl _].
    cbn [esls_length esls_count length] in *.
    rewrite Nat.add_0_r in *. rewrite Z.add_0_r in Hfit.
    destruct fuel as [|fuel]; [lia |].
    destruct (sd_body_at l rest size_rest fuel sd e old ptrs m Hl Hrest
                ltac:(lia) Hwf Hold Hcap Hpl ltac:(lia))
      as (sd' & m' & Hb & Hh & Hw & Hm & Hp).
    exists sd', m'. split; [| split; [| split; [| split]]]; try assumption.
    + cbn [sd_do_while]. rewrite esls_bytes_cons. unfold esls_bytes at 1.
      cbn [map concat app]. rewrite Z.add_0_r.
      rewrite (bind_ok _ _ _ _ _ Hb). cbn [grub_err_eqb s_esl_size andb s_out].
      replace (S fuel - 1)%nat with fuel by lia.
      destruct (0 <? size_rest); reflexivity.
    + unfold esls_entries. cbn [map concat]. now rewrite app_nil_r.
  - pose proof Hls as Hls'. apply Forall_cons in Hls' as [Hl Htl].
    pose proof (esls_length_pos _ _ Htl) as Hpos.
    pose proof (esl_length_min l Hl) as Hmin. unfold sizeof_grub_esl_t in Hmin.
    remember (l2 :: ls) as ls2 eqn:Els2.
    cbn [esls_length esls_count length] in Hfit, Hcap, Hpl, Hfuel |- *.
    destruct fuel as [|fuel]; [lia |].
    destruct (sd_body_at l (esls_bytes ls2 ++ rest) (esls_length ls2 + size_rest)
                fuel sd e old ptrs m Hl ltac:(lia) ltac:(lia) Hwf Hold
                ltac:(unfold sizeof_grub_pks_sd_t in *; lia)
                ltac:(eapply plan_ok_le; [| exact Hpl]; lia) ltac:(lia))
      as (sd1 & m1 & Hb & Hh & Hw & Hm & Hp).
    subst ls2.
    assert (m_brk m1 = m_brk m + 2 * Z.of_nat (length (esl_signatures l)))
      as Hb1 by (rewrite Hm; reflexivity).
    assert (m_plan m1 = drop (2 * length (esl_signatures l)) (m_plan m))
      as Hp1 by (rewrite Hm; reflexivity).
    destruct (IH l2 rest size_rest fuel sd1
                (e + Z.of_nat (length (esl_signatures l)))
                (old ++ esl_entries l)
                (ptrs ++ new_ptrs (m_brk m) (length (esl_signatures l))) m1
                Htl Hrest ltac:(lia) Hw Hh
                ltac:(unfold sizeof_grub_pks_sd_t in *; lia)
                ltac:(rewrite Hp1;
                      apply (plan_ok_drop _ (2 * length (esl_signatures l)));
                      eapply plan_ok_le; [| exact Hpl]; lia)
                ltac:(lia))
      as (sd' & m' & Hrun & Hh' & Hw' & Hm' & Hp').
    exists sd', m'. split; [| split; [| split; [| split]]].
    + cbn [sd_do_while]. rewrite esls_bytes_cons, <- Z.add_assoc.
      rewrite (bind_ok _ _ _ _ _ Hb). cbn [grub_err_eqb s_esl_size andb].
      destruct (Z.ltb_spec 0 (esls_length (l2 :: ls) + size_rest)); [| lia].
      rewrite Hrun.
      replace (S fuel - S (length (l2 :: ls)))%nat
        with (fuel - length (l2 :: ls))%nat by lia.
      replace (e + Z.of_nat (length (esl_signatures l))
               + Z.of_nat (esls_count (l2 :: ls)))
        with (e + Z.of_nat (length (esl_signatures l) + esls_count (l2 :: ls)))
        by lia.
      reflexivity.
    + unfold esls_entries in *. cbn [map concat] in *.
      replace (e + Z.of_nat (length (esl_signatures l) + esls_count (l2 :: ls)))
        with (e + Z.of_nat (length (esl_signatures l))
              + Z.of_nat (esls_count (l2 :: ls))) by lia.
      rewrite new_ptrs_app, <- Hb1. rewrite <- !app_assoc in Hh'. exact Hh'.
    + exact Hw'.
    + rewrite (machine_step_trans _ _ _ _ _ _ _ _ _ Hm Hm') at 1.
      rewrite Hb1, Hp1, drop_drop.
      replace (m_brk m + 2 * Z.of_nat (length (esl_signatures l))
               + 2 * Z.of_nat (esls_count (l2 :: ls)))
        with (m_brk m + 2 * Z.of_nat (length (esl_signatures l)
                                      + esls_count (l2 :: ls))) by lia.
      replace (2 * length (esl_signatures l) + 2 * esls_count (l2 :: ls))%nat
        with (2 * (length (esl_signatures l) + esls_count (l2 :: ls)))%nat by lia.
      reflexivity.
    + rewrite Hb1 in Hp'.
      destruct Hold as (sl & Harr & _).
      pose proof (sd_array_bounds _ _ _ Hwf Harr) as Hsd.
      eapply sd_post_trans; [lia | | exact Hp | exact Hp'].
      intros q Hq. destruct Hw as [_ Hw].
      destruct (m_heap m1 !! q) eqn:E; [| reflexivity].
      assert (is_Some (m_heap m1 !! q)) as Hs by (rewrite E; eauto).
      apply Hw in Hs. lia.
Qed.

(** ** The loader on a well-formed variable *)

Lemma heap_wf_none m q : heap_wf m -> q <= 0 \/ m_brk m <= q -> m_heap m !! q = None.
Proof.
  intros [_ Hwf] Hq. destruct (m_heap m !! q) eqn:E; [| reflexivity].
  assert (is_Some (m_heap m !! q)) as Hs by (rewrite E; eauto).
  apply Hwf in Hs. lia.
Qed.

(** [read_sbvar_from_pks] when the firmware hands back the well-formed
    lists [l :: ls] and every allocation is granted: the request buffer
    takes the address [b], the arrays and payloads the addresses from
    [b + 1] on, and the request buffer is released at the end. *)
Lemma read_sbvar_loads fuel fw flags type m l ls post rc sd e old ptrs :
  let b := m_brk m in
  let n := esls_count (l :: ls) in
  heap_wf m ->
  sd_holds_at m sd e old ptrs ->
  fw_read_sbvar fw type =
    (rc, esls_bytes (l :: ls) ++ post, esls_length (l :: ls)) ->
  0 <= rc ->
  Forall esl_wf (l :: ls) ->
  esls_length (l :: ls) < 2 ^ 32 ->
  (e + Z.of_nat n) * sizeof_grub_pks_sd_t < 2 ^ 32 ->
  plan_ok (1 + 2 * n) (m_plan m) ->
  (length (l :: ls) + n < fuel)%nat ->
  exists sd' m',
    read_sbvar_from_pks fuel fw flags type (sd, e) m =
      Ok (GRUB_ERR_NONE, (sd', e + Z.of_nat n)) m' /\
    sd_holds_at m' sd' (e + Z.of_nat n) (old ++ esls_entries (l :: ls))
      (ptrs ++ new_ptrs (b + 1) n) /\
    heap_wf m' /\
    m' = set_brk (b + 1 + 2 * Z.of_nat n)
           (set_heap (m_heap m')
              (set_freed (m_freed m ++ [b])
                 (set_plan (drop (1 + 2 * n) (m_plan m)) m))) /\
    sd_post (b + 1) n sd sd' (m_heap m) (m_heap m').
Proof.
  intros b n Hwf Hold Hfw Hrc Hls Hfit Hcap Hpl Hfuel.
  assert (0 < b) as Hb by (destruct Hwf; assumption).
  apply plan_ok_S in Hpl as [Hhd Hpl].
  pose proof (esls_length_pos _ _ Hls) as Hpos.
  set (buf := esls_bytes (l :: ls) ++ post) in *.
  set (mb := set_brk (b + 1)
               (set_heap (<[b := Bytes buf]> (m_heap m))
                  (set_plan (tail (m_plan m)) m))).
  assert (heap_wf mb) as Hwfb.
  { destruct Hwf as [_ Hwf]. split; [subst mb; msimpl; lia |].
    intros p. subst mb. msimpl. rewrite lookup_insert. case_decide; [lia |].
    intros Hp. apply Hwf in Hp. fold b in Hp. lia. }
  assert (sd_holds_at mb sd e old ptrs) as Holdb.
  { eapply sd_holds_at_frame; [exact Hold |]. intros q Hq.
    subst mb. msimpl. apply lookup_insert_ne.
    destruct Hwf as [_ Hwf]. apply Hwf in Hq. fold b in Hq. lia. }
  destruct (sd_do_while_run ls l post 0 fuel sd e old ptrs mb Hls ltac:(lia)
              ltac:(lia) Hwfb Holdb Hcap Hpl Hfuel)
    as (sd' & m1 & Hrun & Hh1 & Hwf1 & Hm1 & Hp1).
  change (0 <? 0) with false in Hrun. cbv iota in Hrun.
  rewrite Z.add_0_r in Hrun. fold n in Hrun, Hh1, Hm1, Hp1.
  replace (m_brk mb) with (b + 1) in * by reflexivity.
  destruct Hold as (sl & Harr & Hold').
  pose proof (sd_array_bounds _ _ _ Hwf Harr) as Hsd. fold b in Hsd.
  assert (m_heap m1 !! b = Some (Bytes buf)) as Hbuf.
  { rewrite (sdp_frame _ _ _ _ _ _ Hp1) by lia.
    subst mb. msimpl. apply lookup_insert_eq. }
  set (m' := set_heap (delete b (m_heap m1)) (set_freed (m_freed m1 ++ [b]) m1)).
  exists sd', m'. split; [| split; [| split; [| split]]].
  - unfold read_sbvar_from_pks. unfold bind at 1, get.
    rewrite (bind_ok _ _ _ _ _ (grub_malloc_ok _ m Hhd)).
    fold b. destruct (Z.eqb_spec b NULL) as [E|_]; [unfold NULL in E; lia |].
    rewrite Hfw.
    erewrite bind_ok by (eapply write_bytes_ok; msimpl; apply lookup_insert_eq).
    msimpl. rewrite insert_insert_eq. fold mb.
    destruct (Z.eqb_spec rc IEEE1275_CELL_NOT_FOUND) as [E|_];
      [unfold IEEE1275_CELL_NOT_FOUND in E; lia |].
    destruct (Z.ltb_spec rc 0); [lia |].
    destruct (Z.ltb_spec 0 (esls_length (l :: ls))); [| lia].
    assert ((buf0 <- load_buffer b ;;
             pks_sd_from_esl fuel buf0 (esls_length (l :: ls)) (sd, e)) mb
            = Ok (GRUB_ERR_NONE, (sd', e + Z.of_nat n)) m1) as Hparse.
    { assert (m_heap mb !! b = Some (Bytes buf)) as Hmb
        by (subst mb; msimpl; apply lookup_insert_eq).
      assert (load_buffer b mb = Ok buf mb) as Hload
        by (unfold load_buffer, bind, get; rewrite Hmb; reflexivity).
      rewrite (bind_ok _ _ _ _ _ Hload). exact Hrun. }
    rewrite (bind_ok _ _ _ _ _ Hparse).
    erewrite bind_ok by (apply (grub_free_live b m1 _ Hbuf); unfold NULL; lia).
    reflexivity.
  - eapply sd_holds_at_same; [exact Hh1 | |].
    + intros Hn. subst m'. msimpl. apply lookup_delete_ne.
      intros <-. destruct Hh1 as (sl1 & [[? _] | [_ Ha]] & _);
        [contradiction | congruence].
    + intros p Hp. subst m'. msimpl. apply lookup_delete_ne. intros <-.
      apply elem_of_app in Hp as [Hp | Hp].
      * destruct (sd_holds_at_bounds _ _ _ _ _ Hwf
                    (ex_intro _ sl (conj Harr Hold')) b Hp) as [Hr _].
        fold b in Hr. lia.
      * apply new_ptrs_bounds in Hp. lia.
  - destruct Hwf1 as [Hb1 Hw1]. split; [exact Hb1 |].
    intros p Hp. subst m'. msimpl_in Hp.
    apply lookup_delete_is_Some in Hp as [_ Hp]. now apply Hw1.
  - subst m'. rewrite Hm1 at 1 2 3. subst mb. destruct m as [h0 b0 pl0 ? ? ? ? ?].
    msimpl. apply mk_machine_eq; [reflexivity | reflexivity |].
    destruct pl0; cbn [tail]; [rewrite !drop_nil |]; reflexivity.
  - destruct Hp1 as [F1 R1 M1 S1]. split.
    + intros q Hq Hne. subst m'. msimpl.
      destruct (decide (q = b)) as [-> | Hqb].
      * rewrite lookup_delete_eq. symmetry. apply heap_wf_none; [exact Hwf |].
        right. fold b. lia.
      * rewrite lookup_delete_ne by congruence. rewrite F1 by assumption.
        subst mb. msimpl. apply lookup_insert_ne. congruence.
    + intros q Hq Hlive. subst m'. msimpl_in Hlive.
      apply lookup_delete_is_Some in Hlive as [_ Hlive]. now apply R1.
    + intros Hc. destruct (M1 Hc) as (H1 & H2 & H3).
      split; [| split; assumption].
      subst m'. msimpl. rewrite lookup_delete_ne by lia. exact H1.
    + intros Hc. destruct (S1 Hc) as [-> E]. split; [reflexivity |].
      subst m'. msimpl. rewrite lookup_delete_ne by lia. rewrite E.
      subst mb. msimpl. apply lookup_insert_ne. lia.
Qed.

Lemma sd_holds_holds_at m sd n ents :
  sd_holds m sd n ents -> exists ptrs, sd_holds_at m sd n ents ptrs.
Proof.
  intros (sl & Ha & Hl & He).
  assert (exists ptrs, Forall2 (fun s p => data s = Init p) sl ptrs) as [ptrs Hp].
  { clear Ha Hl. induction He as [|s e sl ents Hs _ [ptrs IH]].
    - exists []. constructor.
    - unfold slot_entry in Hs.
      destruct (guid s), (data s) as [|p] eqn:Hd; try discriminate.
      exists (p :: ptrs). constructor; [exact Hd | exact IH]. }
  exists ptrs, sl. auto.
Qed.

Lemma sample_esls_wf : Forall esl_wf [sample_esl; sample_esl2].
Proof.
  constructor; [apply sample_esl_wf |].
  constructor; [apply sample_esl2_wf | constructor].
Qed.

(** X1. [read_sbvar_from_pks] on a variable the firmware hands back as
    [K >= 1] well-formed signature lists, the declared length being exactly
    theirs and the allocator granting the request buffer and the two
    requests of every signature: the call returns [GRUB_ERR_NONE], the
    database holds its former entries followed by the entries of the
    lists in order, the only [grub_free] is that of the request buffer,
    which is gone at the end, and [grub_errno] is as before. *)
Theorem read_sbvar_from_pks_loads fuel fw flags type m l ls post rc sd e old :
  heap_wf m ->
  sd_holds m sd e old ->
  fw_read_sbvar fw type =
    (rc, esls_bytes (l :: ls) ++ post, esls_length (l :: ls)) ->
  0 <= rc ->
  Forall esl_wf (l :: ls) ->
  esls_length (l :: ls) < 2 ^ 32 ->
  (e + Z.of_nat (esls_count (l :: ls))) * sizeof_grub_pks_sd_t < 2 ^ 32 ->
  plan_ok (1 + 2 * esls_count (l :: ls)) (m_plan m) ->
  (length (l :: ls) + esls_count (l :: ls) < fuel)%nat ->
  exists sd' m',
    read_sbvar_from_pks fuel fw flags type (sd, e) m =
      Ok (GRUB_ERR_NONE, (sd', e + Z.of_nat (esls_count (l :: ls)))) m' /\
    sd_holds m' sd' (e + Z.of_nat (esls_count (l :: ls)))
      (old ++ esls_entries (l :: ls)) /\
    m_freed m' = m_freed m ++ [m_brk m] /\
    m_heap m' !! m_brk m = None /\
    grub_errno m' = grub_errno m.
Proof.
  intros Hwf Hold Hfw Hrc Hls Hfit Hcap Hpl Hfuel.
  destruct (sd_holds_holds_at _ _ _ _ Hold) as [ptrs Hat].
  destruct (read_sbvar_loads fuel fw flags type m l ls post rc sd e old ptrs
              Hwf Hat Hfw Hrc Hls Hfit Hcap Hpl Hfuel)
    as (sd' & m' & Hrun & Hh & Hwf' & Hm' & Hp).
  exists sd', m'. split; [exact Hrun |].
  split; [eapply sd_holds_at_holds; exact Hh |].
  split; [rewrite Hm'; reflexivity |].
  split; [| rewrite Hm'; reflexivity].
  destruct Hat as (sl & Harr & _).
  pose proof (sd_array_bounds _ _ _ Hwf Harr) as Hsd.
  rewrite (sdp_frame _ _ _ _ _ _ Hp) by lia.
  apply heap_wf_none; [exact Hwf | right; lia].
Qed.

Lemma read_sbvar_from_pks_loads_witness :
  exists sd' m',
    read_sbvar_from_pks 6
      (sample_fw 1 (0, esls_bytes [sample_esl; sample_esl2] ++ [], 113) not_found)
      0 PKS_SBVAR_DB (NULL, 0) (boot_machine []) =
      Ok (GRUB_ERR_NONE, (sd', 3)) m' /\
    sd_holds m' sd' 3
      [mk_entry (replicate 16 170) [5; 6] 2; mk_entry (replicate 16 170) [7; 8] 2;
       mk_entry (replicate 16 187) [9; 10] 2] /\
    m_freed m' = [1].
Proof.
  destruct (read_sbvar_from_pks_loads 6
              (sample_fw 1 (0, esls_bytes [sample_esl; sample_esl2] ++ [], 113)
                 not_found)
              0 PKS_SBVAR_DB (boot_machine []) sample_esl [sample_esl2] [] 0
              NULL 0 []
              (boot_machine_wf []) (sd_holds_null _)
              ltac:(vm_compute; reflexivity) ltac:(lia) sample_esls_wf
              ltac:(vm_compute; reflexivity) ltac:(vm_compute; reflexivity)
              ltac:(exact I) ltac:(cbn; lia))
    as (sd' & m' & H1 & H2 & H3 & _).
  exists sd', m'. split; [exact H1 |]. split; [exact H2 | exact H3].
Defined.

(** ** Stray bytes after the last list *)

(** X2. When the well-formed lists of a variable are followed by stray
    bytes, fewer than a list header but counted in the declared length,
    [pks_sd_from_esl] unpacks every list and then fails on the remainder:
    it returns [GRUB_ERR_BUG], recorded in [grub_errno], and the database
    it hands back holds its former entries followed by those of all the
    lists. *)
Theorem pks_sd_from_esl_trailing_bytes l ls rest t fuel sd e old m :
  Forall esl_wf (l :: ls) ->
  0 < t < sizeof_grub_esl_t ->
  esls_length (l :: ls) + t < 2 ^ 32 ->
  heap_wf m ->
  sd_holds m sd e old ->
  (e + Z.of_nat (esls_count (l :: ls))) * sizeof_grub_pks_sd_t < 2 ^ 32 ->
  plan_ok (2 * esls_count (l :: ls)) (m_plan m) ->
  (length (l :: ls) + esls_count (l :: ls) < fuel)%nat ->
  exists sd' m',
    pks_sd_from_esl fuel (esls_bytes (l :: ls) ++ rest)
      (esls_length (l :: ls) + t) (sd, e) m =
      Ok (GRUB_ERR_BUG, (sd', e + Z.of_nat (esls_count (l :: ls)))) m' /\
    sd_holds m' sd' (e + Z.of_nat (esls_count (l :: ls)))
      (old ++ esls_entries (l :: ls)) /\
    grub_errno m' = GRUB_ERR_BUG.
Proof.
  intros Hls Ht Hfit Hwf Hold Hcap Hpl Hfuel.
  destruct (sd_holds_holds_at _ _ _ _ Hold) as [ptrs Hat].
  destruct (sd_do_while_run ls l rest t fuel sd e old ptrs m Hls ltac:(lia)
              Hfit Hwf Hat Hcap Hpl Hfuel)
    as (sd' & m1 & Hrun & Hh & _).
  destruct (Z.ltb_spec 0 t); [| lia].
  exists sd', (set_errno GRUB_ERR_BUG m1). split; [| split].
  - unfold pks_sd_from_esl. rewrite Hrun.
    destruct (fuel - length (l :: ls))%nat as [|f] eqn:Ef; [lia |].
    cbn [sd_do_while]. unfold sd_body, esl_to_esd.
    cbn [s_esl_data s_esl_size s_out].
    destruct (Z.ltb_spec t sizeof_grub_esl_t); [| lia].
    reflexivity.
  - apply sd_holds_at_holds in Hh.
    destruct Hh as (sl & Ha & Hl & He). exists sl. auto.
  - reflexivity.
Qed.

Lemma pks_sd_from_esl_trailing_bytes_witness :
  exists sd' m',
    pks_sd_from_esl 6 (esls_bytes [sample_esl; sample_esl2] ++ [0; 0; 0])
      (113 + 3) (NULL, 0) (boot_machine []) =
      Ok (GRUB_ERR_BUG, (sd', 3)) m' /\
    sd_holds m' sd' 3
      [mk_entry (replicate 16 170) [5; 6] 2; mk_entry (replicate 16 170) [7; 8] 2;
       mk_entry (replicate 16 187) [9; 10] 2].
Proof.
  destruct (pks_sd_from_esl_trailing_bytes sample_esl [sample_esl2] [0; 0; 0] 3
              6 NULL 0 [] (boot_machine [])
              sample_esls_wf ltac:(unfold sizeof_grub_esl_t; lia)
              ltac:(vm_compute; reflexivity)
              (boot_machine_wf []) (sd_holds_null _)
              ltac:(vm_compute; reflexivity) ltac:(exact I) ltac:(cbn; lia))
    as (sd' & m' & H1 & H2 & _).
  exists sd', m'. split; [exact H1 | exact H2].
Defined.

(** ** The loader when the firmware has nothing to give *)

Lemma probe_done_heap bs pl m :
  heap_wf m -> m_heap (probe_done bs pl m) = m_heap m.
Proof.
  intros Hwf. unfold probe_done, probe_buffer. msimpl.
  apply delete_insert_id. apply heap_wf_none; [exact Hwf | right; lia].
Qed.

Lemma probe_done_wf bs pl m : heap_wf m -> heap_wf (probe_done bs pl m).
Proof.
  intros Hwf. pose proof (probe_done_heap bs pl m Hwf) as Hh.
  destruct Hwf as [Hb Hwf]. split.
  - unfold probe_done, probe_buffer. msimpl. lia.
  - intros p Hp. rewrite Hh in Hp. apply Hwf in Hp.
    unfold probe_done, probe_buffer. msimpl. lia.
Qed.

(** [read_sbvar_from_pks] when the firmware call fails, or succeeds with
    no data: the request buffer has come and gone. *)
Lemma read_sbvar_nothing fuel fw flags type out m rc bs len :
  0 < m_brk m ->
  head (m_plan m) <> Some false ->
  fw_read_sbvar fw type = (rc, bs, len) ->
  rc < 0 \/ len = 0 ->
  read_sbvar_from_pks fuel fw flags type out m =
    Ok (if rc =? IEEE1275_CELL_NOT_FOUND then GRUB_ERR_FILE_NOT_FOUND
        else if rc <? 0 then GRUB_ERR_READ_ERROR else GRUB_ERR_BAD_NUMBER, out)
       (set_errno (if rc =? IEEE1275_CELL_NOT_FOUND then GRUB_ERR_FILE_NOT_FOUND
                   else if rc <? 0 then GRUB_ERR_READ_ERROR else grub_errno m)
          (probe_done bs (tail (m_plan m)) m)).
Proof.
  intros Hb Hpl Hfw Habs.
  unfold read_sbvar_from_pks. unfold bind at 1, get.
  rewrite (bind_ok _ _ _ _ _ (grub_malloc_ok _ m Hpl)).
  destruct (Z.eqb_spec (m_brk m) NULL) as [E|_]; [unfold NULL in E; lia |].
  rewrite Hfw.
  erewrite bind_ok by (eapply write_bytes_ok; msimpl; apply lookup_insert_eq).
  msimpl. rewrite insert_insert_eq.
  assert (forall e e' : grub_err_t,
            (grub_free (m_brk m) ;;; ret (e, out))
              (set_errno e'
                 (set_brk (m_brk m + 1)
                    (set_heap (<[m_brk m := Bytes bs]> (m_heap m))
                       (set_plan (tail (m_plan m)) m)))) =
            Ok (e, out) (set_errno e' (probe_done bs (tail (m_plan m)) m)))
    as Hfree.
  { intros e e'. erewrite bind_ok.
    2:{ eapply grub_free_live; [msimpl; apply lookup_insert_eq | unfold NULL; lia]. }
    unfold ret, probe_done, probe_buffer. apply Ok_eq. destruct m; reflexivity. }
  destruct (Z.eqb_spec rc IEEE1275_CELL_NOT_FOUND) as [Hnf | Hnf].
  - erewrite bind_ok by reflexivity. apply Hfree.
  - destruct (Z.ltb_spec rc 0) as [Hneg | Hpos].
    + erewrite bind_ok by reflexivity. apply Hfree.
    + destruct Habs as [? | ->]; [lia |].
      change (0 <? 0) with false. cbv iota.
      erewrite bind_ok by reflexivity.
      specialize (Hfree GRUB_ERR_BAD_NUMBER (grub_errno m)).
      destruct m; exact Hfree.
Qed.

(** X3. When the firmware reports the variable as not found, fails to read
    it, or reads it as empty, [read_sbvar_from_pks] returns
    [GRUB_ERR_FILE_NOT_FOUND], [GRUB_ERR_READ_ERROR] or
    [GRUB_ERR_BAD_NUMBER] respectively, the first two recorded in
    [grub_errno] and the third not; the outputs keep their values, the
    request buffer is released and the heap is as it was. *)
Theorem read_sbvar_from_pks_nothing fuel fw flags type out m rc bs len :
  heap_wf m ->
  head (m_plan m) <> Some false ->
  fw_read_sbvar fw type = (rc, bs, len) ->
  rc < 0 \/ len = 0 ->
  exists e m',
    read_sbvar_from_pks fuel fw flags type out m = Ok (e, out) m' /\
    m_heap m' = m_heap m /\
    m_freed m' = m_freed m ++ [m_brk m] /\
    (rc = IEEE1275_CELL_NOT_FOUND ->
     e = GRUB_ERR_FILE_NOT_FOUND /\ grub_errno m' = GRUB_ERR_FILE_NOT_FOUND) /\
    (rc < 0 -> rc <> IEEE1275_CELL_NOT_FOUND ->
     e = GRUB_ERR_READ_ERROR /\ grub_errno m' = GRUB_ERR_READ_ERROR) /\
    (0 <= rc ->
     e = GRUB_ERR_BAD_NUMBER /\ grub_errno m' = grub_errno m).
Proof.
  intros Hwf Hpl Hfw Habs.
  assert (0 < m_brk m) as Hb by (destruct Hwf; assumption).
  eexists _, _. split;
    [exact (read_sbvar_nothing fuel fw flags type out m rc bs len Hb Hpl Hfw Habs) |].
  split; [exact (probe_done_heap bs _ m Hwf) |].
  split; [reflexivity |].
  cbn [grub_errno set_errno].
  destruct (Z.eqb_spec rc IEEE1275_CELL_NOT_FOUND) as [Hnf | Hnf].
  - split; [auto |]. split; [intros; contradiction |].
    unfold IEEE1275_CELL_NOT_FOUND in Hnf. intros; lia.
  - split; [intros; contradiction |].
    destruct (Z.ltb_spec rc 0); split; intros; try lia; auto.
Qed.

Lemma read_sbvar_from_pks_nothing_witness :
  exists e m',
    read_sbvar_from_pks 1 (sample_fw 1 (0, [], 0) not_found) 0 PKS_SBVAR_DB
      (NULL, 0) (boot_machine []) = Ok (e, (NULL, 0)) m' /\
    m_heap m' = ∅ /\ m_freed m' = [1] /\
    e = GRUB_ERR_BAD_NUMBER /\ grub_errno m' = GRUB_ERR_NONE.
Proof.
  destruct (read_sbvar_from_pks_nothing 1 (sample_fw 1 (0, [], 0) not_found)
              0 PKS_SBVAR_DB (NULL, 0) (boot_machine []) 0 [] 0
              (boot_machine_wf []) ltac:(discriminate) eq_refl
              ltac:(right; reflexivity))
    as (e & m' & H1 & H2 & H3 & _ & _ & H4).
  exists e, m'. split; [exact H1 |]. split; [exact H2 |]. split; [exact H3 |].
  apply H4. lia.
Defined.

(** ** The calls of [grub_free] *)

Lemma freed_ret {A} (a : A) : keeps_freed (ret a).
Proof. intros m a' m' H. now inversion H. Qed.

Lemma freed_throw {A} f : keeps_freed (@throw A f).
Proof. intros m a m' H. discriminate. Qed.

Lemma freed_get : keeps_freed get.
Proof. intros m a m' H. now inversion H. Qed.

Lemma freed_bind {A B} (c : M A) (k : A -> M B) :
  keeps_freed c -> (forall a, keeps_freed (k a)) -> keeps_freed (bind c k).
Proof.
  intros Hc Hk m b m'' H. apply bind_inv_ok in H as (a & m' & H1 & H2).
  rewrite (Hk _ _ _ _ H2). eapply Hc; eassumption.
Qed.

Lemma freed_modify f :
  (forall m, m_freed (f m) = m_freed m) -> keeps_freed (modify f).
Proof. intros Hf m a m' H. inversion H; subst. apply Hf. Qed.

Lemma freed_next_outcome : keeps_freed next_outcome.
Proof.
  intros m a m' H. unfold next_outcome in H.
  destruct (m_plan m); now inversion H.
Qed.

Lemma freed_place b : keeps_freed (place b).
Proof. intros m a m' H. now inversion H. Qed.

Create HintDb freed.
#[local] Hint Resolve freed_ret freed_throw freed_get freed_next_outcome
  freed_place : freed.

Ltac freed_tac :=
  repeat first
    [ progress auto with freed
    | apply freed_bind; [| intros ?]
    | apply freed_modify; intros ?; reflexivity
    | match goal with
      | |- keeps_freed (if ?b then _ else _) => destruct b
      | |- keeps_freed (match ?x with _ => _ end) => destruct x
      | |- keeps_freed (let '(_, _) := ?x in _) => destruct x
      end ].

Lemma freed_grub_error e : keeps_freed (grub_error e).
Proof. unfold grub_error. freed_tac. Qed.

Lemma freed_grub_malloc size : keeps_freed (grub_malloc size).
Proof. unfold grub_malloc. freed_tac. Qed.

Lemma freed_grub_realloc ptr size : keeps_freed (grub_realloc ptr size).
Proof. unfold grub_realloc. freed_tac. Qed.

Lemma freed_load_slot ptr i : keeps_freed (load_slot ptr i).
Proof. unfold load_slot. freed_tac. Qed.

Lemma freed_store_slot ptr i f : keeps_freed (store_slot ptr i f).
Proof.
  unfold store_slot. apply freed_bind; [apply freed_load_slot |].
  intros s. apply freed_modify. intros m.
  now destruct (m_heap m !! ptr) as [[|]|].
Qed.

Lemma freed_read_bytes buf off n : keeps_freed (read_bytes buf off n).
Proof. unfold read_bytes. freed_tac. Qed.

Lemma freed_write_bytes dst bs : keeps_freed (write_bytes dst bs).
Proof. unfold write_bytes. freed_tac. Qed.

Lemma freed_load_buffer ptr : keeps_freed (load_buffer ptr).
Proof. unfold load_buffer. freed_tac. Qed.

#[local] Hint Resolve freed_grub_error freed_grub_malloc freed_grub_realloc
  freed_load_slot freed_store_slot freed_read_bytes freed_write_bytes
  freed_load_buffer : freed.

Lemma freed_esd_body esl_data ssz g out st :
  keeps_freed (esd_body esl_data ssz g out st).
Proof. unfold esd_body. freed_tac. Qed.

Lemma freed_esd_while fuel : forall esl_data ssz g out st,
  keeps_freed (esd_while fuel esl_data ssz g out st).
Proof.
  induction fuel as [|fuel IH]; intros esl_data ssz g out st.
  - intros m a m' H. discriminate.
  - cbn [esd_while]. destruct (0 <? l_esl_size st); [| apply freed_ret].
    apply freed_bind; [apply freed_esd_body |].
    intros [st' | v]; [apply IH | apply freed_ret].
Qed.

Lemma freed_esl_to_esd fuel esl_data next_esl out :
  keeps_freed (esl_to_esd fuel esl_data next_esl out).
Proof.
  unfold esl_to_esd, _esl_to_esd.
  pose proof (freed_esd_while fuel). freed_tac.
Qed.

Lemma freed_sd_body fuel st : keeps_freed (sd_body fuel st).
Proof.
  unfold sd_body. apply freed_bind; [apply freed_esl_to_esd |].
  intros [[rc n] o]. destruct (grub_err_eqb rc GRUB_ERR_NONE); apply freed_ret.
Qed.

Lemma freed_sd_do_while fuel : forall st, keeps_freed (sd_do_while fuel st).
Proof.
  induction fuel as [|fuel IH]; intros st.
  - intros m a m' H. discriminate.
  - cbn [sd_do_while]. apply freed_bind; [apply freed_sd_body |].
    intros [rc st'].
    destruct (grub_err_eqb rc GRUB_ERR_NONE && (0 <? s_esl_size st'));
      [apply IH | apply freed_ret].
Qed.

(** What a returning [grub_free] of a pointer that is not null has done. *)
Lemma grub_free_inv p m m' :
  p <> NULL -> grub_free p m = Ok tt m' ->
  m_freed m' = m_freed m ++ [p] /\ m_heap m' !! p = None.
Proof.
  intros Hp H. unfold grub_free, bind, modify, get in H.
  destruct (Z.eqb_spec p NULL); [contradiction |].
  cbn [m_heap set_freed] in H.
  destruct (m_heap m !! p); [| discriminate].
  inversion H; subst. msimpl. split; [reflexivity | apply lookup_delete_eq].
Qed.

(** X4. [read_sbvar_from_pks] calls [grub_free] exactly once on every path
    on which it has obtained its request buffer, with that buffer, which is
    gone when the function returns, whatever the firmware answered and
    whatever the parser did; and if the buffer was refused it returns
    [GRUB_ERR_OUT_OF_MEMORY] with its outputs, the heap and the log of
    [grub_free] untouched. *)
Theorem read_sbvar_from_pks_frees_buffer fuel fw flags type out m r m' :
  heap_wf m ->
  read_sbvar_from_pks fuel fw flags type out m = Ok r m' ->
  (head (m_plan m) = Some false /\ r = (GRUB_ERR_OUT_OF_MEMORY, out) /\
   m_freed m' = m_freed m /\ m_heap m' = m_heap m /\
   grub_errno m' = GRUB_ERR_OUT_OF_MEMORY) \/
  (head (m_plan m) <> Some false /\
   m_freed m' = m_freed m ++ [m_brk m] /\ m_heap m' !! m_brk m = None).
Proof.
  intros [Hb _] H. unfold read_sbvar_from_pks in H.
  unfold bind at 1, get in H.
  destruct (m_plan m) as [|[|] pl] eqn:Hplan.
  3:{ left. rewrite (bind_ok _ _ _ _ _ (grub_malloc_fail _ m pl Hplan)) in H.
      change (NULL =? NULL) with true in H. cbv iota in H.
      unfold grub_error, bind, modify, ret in H. inversion H; subst.
      repeat split; reflexivity. }
  all: right; split; [discriminate |];
    rewrite (bind_ok _ _ _ _ _
               (grub_malloc_ok _ m ltac:(rewrite Hplan; discriminate))) in H;
    destruct (Z.eqb_spec (m_brk m) NULL) as [E|Hne]; [unfold NULL in E; lia |];
    destruct (fw_read_sbvar fw type) as [[rc bs] len];
    apply bind_inv_ok in H as (? & mw & Hw & H);
    apply bind_inv_ok in H as (r' & mx & Hmid & H);
    apply bind_inv_ok in H as ([] & my & Hfree & H);
    inversion H; subst;
    apply freed_write_bytes in Hw;
    assert (m_freed mx = m_freed mw) as Hx
      by (revert Hmid; pose proof (freed_sd_do_while fuel);
          unfold pks_sd_from_esl;
          match goal with
          | |- ?c mw = _ -> _ => assert (keeps_freed c) as Hk by freed_tac
          end; apply Hk);
    apply (grub_free_inv _ _ _ Hne) in Hfree as [Hf Hh];
    (split; [| exact Hh]); rewrite Hf, Hx, Hw; reflexivity.
Qed.

Lemma read_sbvar_from_pks_frees_buffer_witness :
  exists r m',
    read_sbvar_from_pks 6
      (sample_fw 1 (0, esl_bytes sample_esl, 64) not_found)
      0 PKS_SBVAR_DB (NULL, 0) (boot_machine [true; true; true; false]) =
      Ok r m' /\
    m_freed m' = [1] /\ m_heap m' !! 1 = None.
Proof.
  eexists _, _. split; [vm_compute; reflexivity |].
  destruct (read_sbvar_from_pks_frees_buffer 6
              (sample_fw 1 (0, esl_bytes sample_esl, 64) not_found)
              0 PKS_SBVAR_DB (NULL, 0) (boot_machine [true; true; true; false])
              _ _ (boot_machine_wf _) ltac:(vm_compute; reflexivity))
    as [(H & _) | (_ & H1 & H2)]; [discriminate H |].
  split; [exact H1 | exact H2].
Defined.

(** ** What the probe leaves behind *)

(** X5. Whatever the firmware answers and whether or not its buffer is
    granted, [is_pks_present] leaves the heap as it found it (the version
    buffer, if obtained, is released on every path), calls [grub_free] at
    most once, and writes neither the keystore record nor
    [pks_use_keystore]. *)
Theorem is_pks_present_leaves_no_trace fw m r m' :
  heap_wf m ->
  is_pks_present fw m = Ok r m' ->
  m_heap m' = m_heap m /\
  pks_keystore m' = pks_keystore m /\
  pks_use_keystore m' = pks_use_keystore m /\
  (m_freed m' = m_freed m \/
   m_freed m' = m_freed m ++ [NULL] \/
   m_freed m' = m_freed m ++ [m_brk m]).
Proof.
  intros Hwf H. rewrite (is_pks_present_eval fw m Hwf) in H.
  unfold is_pks_present_result in H.
  destruct (fw_read_object fw) as [[rc bs] outlen].
  set (m0 := set_max_object_size (snd (fw_max_object_size fw)) m) in *.
  assert (heap_wf m0) as Hwf0 by exact Hwf.
  assert (forall pl e, m_heap (set_errno e (probe_done bs pl m0)) = m_heap m) as Hh
    by (intros pl e; exact (probe_done_heap bs pl m0 Hwf0)).
  destruct (fw_test fw <? 0).
  { inversion H; subst. repeat split; auto. }
  destruct (fst (fw_max_object_size fw) <? 0).
  { inversion H; subst. repeat split; auto. }
  destruct (m_plan m) as [|[|] pl].
  3:{ inversion H; subst. repeat split; auto. }
  all: cbn [tail] in H;
    destruct (rc <? 0);
      [inversion H; subst; split; [apply Hh |]; repeat split; auto |];
    destruct (negb (outlen =? 1));
      [inversion H; subst; split; [apply Hh |]; repeat split; auto |];
    destruct bs as [|b0 bs']; [discriminate |];
    destruct (2 <=? b0);
      inversion H; subst;
      (split; [first [apply Hh | exact (probe_done_heap _ _ m0 Hwf0)] |]);
      repeat split; auto.
Qed.

Lemma is_pks_present_leaves_no_trace_witness :
  exists r m',
    is_pks_present (sample_fw 2 not_found not_found) (boot_machine []) = Ok r m' /\
    m_heap m' = ∅ /\ pks_keystore m' = pks_zero /\ pks_use_keystore m' = false.
Proof.
  eexists _, _. split; [vm_compute; reflexivity |].
  destruct (is_pks_present_leaves_no_trace (sample_fw 2 not_found not_found)
              (boot_machine []) _ _ (boot_machine_wf [])
              ltac:(vm_compute; reflexivity))
    as (H1 & H2 & H3 & _).
  split; [exact H1 |]. split; [exact H2 | exact H3].
Defined.

(** ** The key management mode after the initialization *)

(** X6. When [grub_pks_keystore_init] returns, [pks_use_keystore] is set
    exactly if the probe answered true or the flag was set before: whether
    the loads that follow succeed plays no part.  If the probe answered
    false nothing else is done, and the keystore record is as it was. *)
Theorem keystore_init_mode_follows_probe fuel fw m m' :
  heap_wf m ->
  grub_pks_keystore_init fuel fw m = Ok tt m' ->
  exists r m1,
    is_pks_present fw m = Ok r m1 /\
    pks_use_keystore m' = r || pks_use_keystore m /\
    (r = false -> m' = m1 /\ pks_keystore m' = pks_keystore m) /\
    grub_pks_get_keystore m' =
      (if r || pks_use_keystore m then Some (pks_keystore m') else None).
Proof.
  intros Hwf H. unfold grub_pks_keystore_init in H.
  apply bind_inv_ok in H as (r & m1 & Hprobe & H).
  exists r, m1. split; [exact Hprobe |].
  assert (pks_keystore m1 = pks_keystore m /\
          pks_use_keystore m1 = pks_use_keystore m) as [Hk Hu].
  { rewrite (is_pks_present_eval fw m Hwf) in Hprobe.
    unfold is_pks_present_result in Hprobe.
    destruct (fw_read_object fw) as [[rc bs] outlen].
    destruct (fw_test fw <? 0); [now inversion Hprobe |].
    destruct (fst (fw_max_object_size fw) <? 0); [now inversion Hprobe |].
    destruct (m_plan m) as [|[|] pl]; [| | now inversion Hprobe].
    all: destruct (rc <? 0); [now inversion Hprobe |];
      destruct (negb (outlen =? 1)); [now inversion Hprobe |];
      destruct bs as [|b0 bs']; [discriminate |];
      destruct (2 <=? b0); now inversion Hprobe. }
  assert (pks_use_keystore m' = r || pks_use_keystore m /\
          (r = false -> m' = m1)) as [Hflag Hsame].
  { destruct r; cbn [negb orb] in *.
    - split; [| discriminate].
      apply bind_inv_ok in H as (? & ? & _ & H).
      apply bind_inv_ok in H as (? & ? & _ & H).
      apply bind_inv_ok in H as (? & ? & _ & H).
      apply bind_inv_ok in H as (? & ? & _ & H).
      apply bind_inv_ok in H as (? & ? & _ & H).
      apply bind_inv_ok in H as (? & ? & _ & H).
      now inversion H.
    - inversion H; subst. split; [exact Hu | reflexivity]. }
  split; [exact Hflag |]. split.
  - intros Hr. specialize (Hsame Hr). subst m'. split; [reflexivity | exact Hk].
  - unfold grub_pks_get_keystore. now rewrite Hflag.
Qed.

Lemma keystore_init_mode_follows_probe_witness :
  exists m',
    grub_pks_keystore_init 6 (sample_fw 0 not_found not_found) (boot_machine [])
      = Ok tt m' /\
    pks_use_keystore m' = false /\ grub_pks_get_keystore m' = None /\
    pks_keystore m' = pks_zero.
Proof.
  eexists. split; [vm_compute; reflexivity |].
  destruct (keystore_init_mode_follows_probe 6
              (sample_fw 0 not_found not_found) (boot_machine []) _
              (boot_machine_wf []) ltac:(vm_compute; reflexivity))
    as (r & m1 & Hp & Hf & Hs & Hg).
  assert (r = false) as -> by (vm_compute in Hp; congruence).
  split; [exact Hf |]. split; [exact Hg |]. now apply Hs.
Defined.

(** ** The teardown of a loaded keystore *)

Lemma bytes_not_array m p bs sd sl :
  heap_wf m -> m_heap m !! p = Some (Bytes bs) -> sd_array m sd sl -> p <> sd.
Proof.
  intros [_ Hwf] Hp [[-> _] | [_ Hs]].
  - assert (0 < p < m_brk m) by (apply Hwf; eauto). unfold NULL. lia.
  - intros ->. congruence.
Qed.

(** [grub_pks_tmp_free] on a keystore whose two databases hold complete
    entries with payload buffers of their own. *)
Lemma tmp_free_all m ents1 ptrs1 ents2 ptrs2 :
  let ks := pks_keystore m in
  heap_wf m ->
  sd_holds_at m (db ks) (db_entries ks) ents1 ptrs1 ->
  sd_holds_at m (dbx ks) (dbx_entries ks) ents2 ptrs2 ->
  NoDup (ptrs1 ++ ptrs2) ->
  db ks = NULL \/ db ks <> dbx ks ->
  grub_pks_tmp_free m =
    Ok tt (set_keystore pks_zero
             (set_heap (free_all (ptrs1 ++ ptrs2 ++ [db ks; dbx ks]) (m_heap m))
                (set_freed (m_freed m ++ ptrs1 ++ ptrs2 ++ [db ks; dbx ks]) m))).
Proof.
  intros ks Hwf H1 H2 Hnd Hdist.
  apply (grub_pks_tmp_free_ok m ptrs1 ptrs2).
  - eapply sd_holds_at_owns; exact H1.
  - eapply sd_holds_at_owns; exact H2.
  - unfold non_null. now apply NoDup_filter.
  - intros p Hp _.
    assert (exists bs, m_heap m !! p = Some (Bytes bs)) as [bs Hbs].
    { apply elem_of_app in Hp as [Hp | Hp];
        [eapply sd_holds_at_live; [exact H1 | exact Hp]
        | eapply sd_holds_at_live; [exact H2 | exact Hp]]. }
    split; [rewrite Hbs; eauto |].
    destruct H1 as (sl1 & Ha1 & _), H2 as (sl2 & Ha2 & _).
    split; eapply bytes_not_array; eassumption.
  - exact Hdist.
Qed.

(** X7. On a keystore whose allow-list and deny-list hold complete entries
    with distinct payload buffers, [grub_pks_tmp_free] hands to [grub_free]
    the payloads of the allow-list in order, then those of the deny-list,
    then the two arrays, each once; afterwards none of these blocks is
    live, every other block is untouched, the record is zero and
    [pks_use_keystore] is as it was. *)
Theorem grub_pks_tmp_free_releases m ents1 ptrs1 ents2 ptrs2 :
  heap_wf m ->
  sd_holds_at m (db (pks_keystore m)) (db_entries (pks_keystore m)) ents1 ptrs1 ->
  sd_holds_at m (dbx (pks_keystore m)) (dbx_entries (pks_keystore m)) ents2 ptrs2 ->
  NoDup (ptrs1 ++ ptrs2) ->
  db (pks_keystore m) = NULL \/ db (pks_keystore m) <> dbx (pks_keystore m) ->
  let released :=
    ptrs1 ++ ptrs2 ++ [db (pks_keystore m); dbx (pks_keystore m)] in
  exists m',
    grub_pks_tmp_free m = Ok tt m' /\
    pks_keystore m' = pks_zero /\
    pks_use_keystore m' = pks_use_keystore m /\
    m_freed m' = m_freed m ++ released /\
    (forall p, p ∈ released -> m_heap m' !! p = None) /\
    (forall q, q ∉ released -> m_heap m' !! q = m_heap m !! q).
Proof.
  intros Hwf H1 H2 Hnd Hdist released.
  eexists. split;
    [exact (tmp_free_all m ents1 ptrs1 ents2 ptrs2 Hwf H1 H2 Hnd Hdist) |].
  msimpl. split; [reflexivity |]. split; [reflexivity |].
  split; [reflexivity |]. split.
  - intros p Hp. destruct (decide (p = NULL)) as [-> | Hne].
    + apply free_all_none. apply heap_wf_none; [exact Hwf |].
      left. unfold NULL. lia.
    + now apply lookup_free_all_in.
  - intros q Hq. now apply lookup_free_all.
Qed.

Lemma sample_loaded_wf : heap_wf sample_loaded.
Proof.
  split; [cbn; lia |]. intros p [x Hx]. cbn in Hx |- *.
  destruct (decide (p = 1)) as [-> | H1]; [lia |].
  destruct (decide (p = 2)) as [-> | H2]; [lia |].
  rewrite lookup_insert_ne, lookup_insert_ne, lookup_empty in Hx by congruence.
  discriminate.
Qed.

Lemma sample_loaded_db :
  sd_holds_at sample_loaded 1 1 [mk_entry (replicate 16 170) [5; 6] 2] [2].
Proof.
  exists [full_slot (replicate 16 170) 2 2].
  split; [right; split; [discriminate | reflexivity] |].
  split; [reflexivity |].
  split; (constructor; [reflexivity | constructor]).
Qed.

Lemma grub_pks_tmp_free_releases_witness :
  exists m',
    grub_pks_tmp_free sample_loaded = Ok tt m' /\
    pks_keystore m' = pks_zero /\
    pks_use_keystore m' = true /\
    m_freed m' = [2; 1; NULL] /\
    m_heap m' !! 1 = None /\ m_heap m' !! 2 = None.
Proof.
  destruct (grub_pks_tmp_free_releases sample_loaded
              [mk_entry (replicate 16 170) [5; 6] 2] [2] [] []
              sample_loaded_wf sample_loaded_db (sd_holds_at_null _)
              ltac:(apply NoDup_singleton) ltac:(right; discriminate))
    as (m' & H1 & H2 & H3 & H4 & H5 & _).
  exists m'. split; [exact H1 |]. split; [exact H2 |]. split; [exact H3 |].
  split; [exact H4 |].
  split; apply H5; cbn; [right; left | left].
Defined.

(** ** The initialization when the allow-list is loaded *)

Lemma is_pks_present_true fw m rc0 rest :
  heap_wf m ->
  0 <= fw_test fw -> 0 <= fst (fw_max_object_size fw) ->
  fw_read_object fw = (rc0, 1 :: rest, 1) -> 0 <= rc0 ->
  head (m_plan m) <> Some false ->
  is_pks_present fw m =
    Ok true (probe_done (1 :: rest) (tail (m_plan m))
               (set_max_object_size (snd (fw_max_object_size fw)) m)).
Proof.
  intros Hwf Htest Hmax Hro Hrc0 Hhd.
  rewrite (is_pks_present_eval fw m Hwf). unfold is_pks_present_result.
  rewrite Hro.
  destruct (Z.ltb_spec (fw_test fw) 0); [lia |].
  destruct (Z.ltb_spec (fst (fw_max_object_size fw)) 0); [lia |].
  destruct (Z.ltb_spec rc0 0); [lia |].
  destruct (m_plan m) as [|[|] pl]; [reflexivity | reflexivity |].
  now elim Hhd.
Qed.

(** The steps of [grub_pks_keystore_init] once the allow-list load has
    returned [GRUB_ERR_NONE]. *)
Lemma init_loaded_path fuel fw m m1 out1 m2 rc2 out2 m3 :
  is_pks_present fw m = Ok true m1 ->
  read_sbvar_from_pks fuel fw 0 PKS_SBVAR_DB
    (db (pks_keystore m1), db_entries (pks_keystore m1)) m1 =
    Ok (GRUB_ERR_NONE, out1) m2 ->
  read_sbvar_from_pks fuel fw 0 PKS_SBVAR_DBX
    (dbx (pks_keystore (with_db out1 m2)),
     dbx_entries (pks_keystore (with_db out1 m2))) (with_db out1 m2) =
    Ok (rc2, out2) m3 ->
  grub_pks_keystore_init fuel fw m =
    (if grub_err_eqb rc2 GRUB_ERR_NONE || recoverable rc2
     then Ok tt (set_use_keystore true (with_dbx out2 m3))
     else (grub_pks_tmp_free ;;; modify (set_use_keystore true))
            (with_dbx out2 m3)).
Proof.
  intros Hprobe Hdb Hdbx.
  unfold grub_pks_keystore_init.
  rewrite (bind_ok _ _ _ _ _ Hprobe). cbn [negb].
  unfold bind at 1, get.
  rewrite (bind_ok _ _ _ _ _ Hdb). cbn [fst snd].
  unfold bind at 1, modify at 1. fold (with_db out1 m2).
  cbn [recoverable grub_err_eqb orb].
  unfold bind at 1, ret at 1. cbn [grub_err_eqb].
  unfold bind at 1. unfold bind at 1, get.
  rewrite (bind_ok _ _ _ _ _ Hdbx). cbn [fst snd].
  unfold bind at 1, modify at 1. fold (with_dbx out2 m3).
  destruct rc2; reflexivity.
Qed.

(** The probe and the allow-list load at the start of
    [grub_pks_keystore_init], the firmware answering the probe with version
    1 and the allow-list request with the well-formed lists [l :: ls]: the
    version buffer takes the address [b], the request buffer [b + 1], the
    arrays and payloads the addresses from [b + 2] on. *)
Lemma init_db_loaded fuel fw m rc0 rest l ls post rc :
  let b := m_brk m in
  let n := esls_count (l :: ls) in
  heap_wf m ->
  pks_keystore m = pks_zero ->
  0 <= fw_test fw -> 0 <= fst (fw_max_object_size fw) ->
  fw_read_object fw = (rc0, 1 :: rest, 1) -> 0 <= rc0 ->
  fw_read_sbvar fw PKS_SBVAR_DB =
    (rc, esls_bytes (l :: ls) ++ post, esls_length (l :: ls)) ->
  0 <= rc ->
  Forall esl_wf (l :: ls) ->
  esls_length (l :: ls) < 2 ^ 32 ->
  Z.of_nat n * sizeof_grub_pks_sd_t < 2 ^ 32 ->
  plan_ok (2 + 2 * n) (m_plan m) ->
  (length (l :: ls) + n < fuel)%nat ->
  exists m1 dbp m2,
    is_pks_present fw m = Ok true m1 /\
    read_sbvar_from_pks fuel fw 0 PKS_SBVAR_DB
      (db (pks_keystore m1), db_entries (pks_keystore m1)) m1 =
      Ok (GRUB_ERR_NONE, (dbp, Z.of_nat n)) m2 /\
    sd_holds_at m2 dbp (Z.of_nat n) (esls_entries (l :: ls))
      (new_ptrs (b + 2) n) /\
    heap_wf m2 /\
    m2 = set_max_object_size (snd (fw_max_object_size fw))
           (set_brk (b + 2 + 2 * Z.of_nat n)
              (set_heap (m_heap m2)
                 (set_freed (m_freed m ++ [b; b + 1])
                    (set_plan (drop (2 + 2 * n) (m_plan m)) m)))) /\
    sd_post (b + 2) n NULL dbp (m_heap m) (m_heap m2).
Proof.
  intros b n Hwf Hks Htest Hmax Hro Hrc0 Hfw Hrc Hls Hfit Hcap Hpl Hfuel.
  apply plan_ok_S in Hpl as [Hhd Hpl].
  set (m0 := set_max_object_size (snd (fw_max_object_size fw)) m).
  set (m1 := probe_done (1 :: rest) (tail (m_plan m)) m0).
  pose proof (is_pks_present_true fw m rc0 rest Hwf Htest Hmax Hro Hrc0 Hhd)
    as Hprobe. fold m0 m1 in Hprobe.
  assert (heap_wf m1) as Hwf1 by (apply probe_done_wf; exact Hwf).
  assert (m_heap m1 = m_heap m) as Hh1
    by (exact (probe_done_heap _ _ m0 Hwf)).
  assert (m_brk m1 = b + 1) as Hb1 by reflexivity.
  assert (pks_keystore m1 = pks_zero) as Hks1 by exact Hks.
  destruct (read_sbvar_loads fuel fw 0 PKS_SBVAR_DB m1 l ls post rc NULL 0 [] []
              Hwf1 (sd_holds_at_null m1) Hfw Hrc Hls Hfit
              ltac:(rewrite Z.add_0_l; exact Hcap) Hpl Hfuel)
    as (dbp & m2 & Hload & Hh2 & Hwf2 & Hm2 & Hp2).
  fold n in Hload, Hh2, Hm2, Hp2.
  rewrite Hb1, ?Z.add_0_l in *. cbn [app] in Hh2.
  replace (b + 1 + 1) with (b + 2) in * by lia.
  exists m1, dbp, m2. split; [exact Hprobe |].
  split; [rewrite Hks1; exact Hload |].
  split; [exact Hh2 |]. split; [exact Hwf2 |]. split.
  - rewrite Hm2 at 1. subst m1 m0. unfold probe_done, probe_buffer.
    destruct m as [h0 b0 pl0 fr en mx ks us]. subst b. msimpl.
    rewrite <- app_assoc. cbn [app].
    apply mk_machine_eq; [reflexivity | reflexivity |].
    destruct pl0; cbn [tail]; [now rewrite !drop_nil | reflexivity].
  - rewrite Hh1 in Hp2. exact Hp2.
Qed.

(** The whole of [grub_pks_keystore_init] when both variables are
    well-formed lists and every allocation is granted. *)
Lemma init_both_loaded fuel fw m rc0 rest l1 ls1 post1 rc1 l2 ls2 post2 rc2 :
  let b := m_brk m in
  let n1 := esls_count (l1 :: ls1) in
  let n2 := esls_count (l2 :: ls2) in
  heap_wf m ->
  pks_keystore m = pks_zero ->
  0 <= fw_test fw -> 0 <= fst (fw_max_object_size fw) ->
  fw_read_object fw = (rc0, 1 :: rest, 1) -> 0 <= rc0 ->
  fw_read_sbvar fw PKS_SBVAR_DB =
    (rc1, esls_bytes (l1 :: ls1) ++ post1, esls_length (l1 :: ls1)) ->
  0 <= rc1 ->
  Forall esl_wf (l1 :: ls1) ->
  esls_length (l1 :: ls1) < 2 ^ 32 ->
  Z.of_nat n1 * sizeof_grub_pks_sd_t < 2 ^ 32 ->
  fw_read_sbvar fw PKS_SBVAR_DBX =
    (rc2, esls_bytes (l2 :: ls2) ++ post2, esls_length (l2 :: ls2)) ->
  0 <= rc2 ->
  Forall esl_wf (l2 :: ls2) ->
  esls_length (l2 :: ls2) < 2 ^ 32 ->
  Z.of_nat n2 * sizeof_grub_pks_sd_t < 2 ^ 32 ->
  plan_ok (3 + 2 * n1 + 2 * n2) (m_plan m) ->
  (length (l1 :: ls1) + n1 < fuel)%nat ->
  (length (l2 :: ls2) + n2 < fuel)%nat ->
  exists dbp dbxp m',
    grub_pks_keystore_init fuel fw m = Ok tt m' /\
    pks_keystore m' =
      {| db := dbp; dbx := dbxp; db_entries := Z.of_nat n1;
         dbx_entries := Z.of_nat n2; use_static_keys := false |} /\
    sd_holds_at m' dbp (Z.of_nat n1) (esls_entries (l1 :: ls1))
      (new_ptrs (b + 2) n1) /\
    sd_holds_at m' dbxp (Z.of_nat n2) (esls_entries (l2 :: ls2))
      (new_ptrs (b + 3 + 2 * Z.of_nat n1) n2) /\
    heap_wf m' /\
    pks_use_keystore m' = true /\
    grub_errno m' = grub_errno m /\
    m_freed m' = m_freed m ++ [b; b + 1; b + 2 + 2 * Z.of_nat n1] /\
    (forall q, q < b -> m_heap m' !! q = m_heap m !! q) /\
    (forall q, b <= q -> is_Some (m_heap m' !! q) ->
       q ∈ [dbp; dbxp] ++ new_ptrs (b + 2) n1
           ++ new_ptrs (b + 3 + 2 * Z.of_nat n1) n2) /\
    (dbp = NULL \/ dbp <> dbxp) /\
    (dbp = NULL \/ b <= dbp) /\ (dbxp = NULL \/ b <= dbxp).
Proof.
  intros b n1 n2 Hwf Hks Htest Hmax Hro Hrc0 Hfw1 Hrc1 Hls1 Hfit1 Hcap1
    Hfw2 Hrc2 Hls2 Hfit2 Hcap2 Hpl Hfuel1 Hfuel2.
  assert (0 < b) as Hb by (destruct Hwf; assumption).
  destruct (init_db_loaded fuel fw m rc0 rest l1 ls1 post1 rc1
              Hwf Hks Htest Hmax Hro Hrc0 Hfw1 Hrc1 Hls1 Hfit1 Hcap1
              ltac:(eapply plan_ok_le; [| exact Hpl]; lia) Hfuel1)
    as (m1 & dbp & m2 & Hprobe & Hload1 & Hh2 & Hwf2 & Hm2 & Hp2).
  fold b n1 in Hload1, Hh2, Hm2, Hp2.
  set (m2a := with_db (dbp, Z.of_nat n1) m2).
  assert (pks_keystore m2a = set_db (dbp, Z.of_nat n1) pks_zero) as Hks2.
  { subst m2a. unfold with_db. cbn [pks_keystore set_keystore].
    rewrite Hm2. msimpl. now rewrite Hks. }
  assert (m_brk m2a = b + 2 + 2 * Z.of_nat n1) as Hb2
    by (subst m2a; unfold with_db; cbn [m_brk set_keystore]; rewrite Hm2;
        reflexivity).
  assert (m_plan m2a = drop (2 + 2 * n1) (m_plan m)) as Hpl2
    by (subst m2a; unfold with_db; cbn [m_plan set_keystore]; rewrite Hm2;
        reflexivity).
  assert (m_freed m2a = m_freed m ++ [b; b + 1]) as Hfr2
    by (subst m2a; unfold with_db; cbn [m_freed set_keystore]; rewrite Hm2;
        reflexivity).
  assert (grub_errno m2a = grub_errno m) as Hen2
    by (subst m2a; unfold with_db; cbn [grub_errno set_keystore]; rewrite Hm2;
        reflexivity).
  assert (heap_wf m2a) as Hwf2a by exact Hwf2.
  destruct (read_sbvar_loads fuel fw 0 PKS_SBVAR_DBX m2a l2 ls2 post2 rc2
              NULL 0 [] [] Hwf2a (sd_holds_at_null m2a) Hfw2 Hrc2 Hls2 Hfit2
              ltac:(rewrite Z.add_0_l; exact Hcap2)
              ltac:(rewrite Hpl2; apply plan_ok_drop;
                    eapply plan_ok_le; [| exact Hpl]; lia)
              Hfuel2)
    as (dbxp & m3 & Hload2 & Hh3 & Hwf3 & Hm3 & Hp3).
  fold n2 in Hload2, Hh3, Hm3, Hp3.
  rewrite Hb2, ?Z.add_0_l in *. cbn [app] in Hh3.
  replace (b + 2 + 2 * Z.of_nat n1 + 1) with (b + 3 + 2 * Z.of_nat n1) in *
    by lia.
  change (m_heap m2a) with (m_heap m2) in Hp3.
  assert (forall q, is_Some (m_heap m2 !! q) -> m_heap m3 !! q = m_heap m2 !! q)
    as Hkeep.
  { intros q Hq. destruct Hwf2 as [_ Hw2]. apply Hw2 in Hq.
    rewrite Hm2 in Hq. cbn [m_brk set_max_object_size set_brk] in Hq.
    apply (sdp_frame _ _ _ _ _ _ Hp3); unfold NULL; lia. }
  assert (pks_keystore m3 = set_db (dbp, Z.of_nat n1) pks_zero) as Hks3
    by (rewrite Hm3; exact Hks2).
  pose proof (init_loaded_path fuel fw m m1 (dbp, Z.of_nat n1) m2
                GRUB_ERR_NONE (dbxp, Z.of_nat n2) m3 Hprobe Hload1
                ltac:(fold m2a; rewrite Hks2; exact Hload2)) as Hinit.
  cbn [grub_err_eqb orb] in Hinit.
  exists dbp, dbxp, (set_use_keystore true (with_dbx (dbxp, Z.of_nat n2) m3)).
  split; [exact Hinit |].
  unfold with_dbx. msimpl.
  split; [rewrite Hks3; reflexivity |].
  split; [eapply sd_holds_at_frame; [exact Hh2 | exact Hkeep] |].
  split; [exact Hh3 |]. split; [exact Hwf3 |]. split; [reflexivity |].
  split; [rewrite Hm3; cbn [grub_errno set_brk set_heap set_freed set_plan];
          exact Hen2 |].
  split; [rewrite Hm3; cbn [m_freed set_brk set_heap set_freed set_plan];
          rewrite Hfr2, <- app_assoc; reflexivity |].
  split; [| split; [| split; [| split]]].
  - intros q Hq. destruct (Z.le_gt_cases q 0) as [Hq0 | Hq0].
    + rewrite (heap_wf_none m3 q Hwf3) by (left; exact Hq0).
      symmetry. apply heap_wf_none; [exact Hwf | left; exact Hq0].
    + rewrite (sdp_frame _ _ _ _ _ _ Hp3) by (unfold NULL; lia).
      apply (sdp_frame _ _ _ _ _ _ Hp2); unfold NULL; lia.
  - intros q Hq Hlive. rewrite !elem_of_app, !elem_of_cons.
    destruct (Z.lt_ge_cases q (b + 3 + 2 * Z.of_nat n1)) as [Hlt | Hge].
    + rewrite (sdp_frame _ _ _ _ _ _ Hp3) in Hlive by (unfold NULL; lia).
      destruct (Z.lt_ge_cases q (b + 2)) as [Hlt2 | Hge2].
      * rewrite (sdp_frame _ _ _ _ _ _ Hp2) in Hlive by (unfold NULL; lia).
        rewrite (heap_wf_none m q Hwf) in Hlive by (right; exact Hq).
        now destruct Hlive.
      * destruct (sdp_fresh _ _ _ _ _ _ Hp2 q Hge2 Hlive) as [-> | Hin];
          [left; now left | right; now left].
    + destruct (sdp_fresh _ _ _ _ _ _ Hp3 q Hge Hlive) as [-> | Hin];
        [left; right; now left | right; now right].
  - destruct (Nat.eq_dec n1 0) as [Hz | Hnz].
    + left. now apply (sdp_same _ _ _ _ _ _ Hp2).
    + right. destruct (sdp_moved _ _ _ _ _ _ Hp2 Hnz) as (_ & Hn & Hlo).
      destruct Hh2 as (sl & [[? _] | [_ Hl]] & _); [contradiction |].
      assert (0 < dbp < m_brk m2) as Hr
        by (destruct Hwf2 as [_ Hw2]; apply Hw2; rewrite Hl; eauto).
      rewrite Hm2 in Hr. cbn [m_brk set_max_object_size set_brk] in Hr.
      destruct (Nat.eq_dec n2 0) as [Hz2 | Hnz2].
      * destruct (sdp_same _ _ _ _ _ _ Hp3 Hz2) as [-> _]. exact Hn.
      * destruct (sdp_moved _ _ _ _ _ _ Hp3 Hnz2) as (_ & _ & Hlo2). lia.
  - destruct (Nat.eq_dec n1 0) as [Hz | Hnz].
    + left. now apply (sdp_same _ _ _ _ _ _ Hp2).
    + right. destruct (sdp_moved _ _ _ _ _ _ Hp2 Hnz) as (_ & _ & Hlo). lia.
  - destruct (Nat.eq_dec n2 0) as [Hz | Hnz].
    + left. now apply (sdp_same _ _ _ _ _ _ Hp3).
    + right. destruct (sdp_moved _ _ _ _ _ _ Hp3 Hnz) as (_ & _ & Hlo). lia.
Qed.

(** Releasing every block that was allocated from the frontier [b] on
    gives the heap back as it was. *)
Lemma free_all_restores (h h' : gmap Z block) b L :
  0 < b ->
  (forall q, q <= 0 \/ b <= q -> h !! q = None) ->
  (forall q, q <= 0 -> h' !! q = None) ->
  (forall q, q < b -> h' !! q = h !! q) ->
  (forall q, b <= q -> is_Some (h' !! q) -> q ∈ L) ->
  (forall p, p ∈ L -> p = NULL \/ b <= p) ->
  free_all L h' = h.
Proof.
  intros Hb Hnone Hnone' Hframe Hfresh HL. apply map_eq. intros q.
  destruct (Z.lt_ge_cases q b) as [Hlt | Hge].
  - destruct (Z.le_gt_cases q 0) as [Hq0 | Hq0].
    + rewrite (Hnone q) by (left; exact Hq0).
      apply free_all_none. now apply Hnone'.
    + rewrite lookup_free_all; [now apply Hframe |].
      intros Hin. destruct (HL q Hin) as [E | ?]; [unfold NULL in E |]; lia.
  - rewrite (Hnone q) by (right; exact Hge).
    destruct (h' !! q) eqn:E.
    + apply lookup_free_all_in; [| unfold NULL; lia].
      apply Hfresh; [exact Hge | rewrite E; eauto].
    + now apply free_all_none.
Qed.

(** X8. With the firmware answering the probe with version 1 and both
    variable requests with well-formed signature lists, and every
    allocation granted, [grub_pks_keystore_init] returns with the dynamic
    keystore enabled: [grub_pks_get_keystore] gives a keystore whose
    allow-list holds the entries of the allow-list variable and whose
    deny-list those of the deny-list variable, in order, with
    [use_static_keys] clear; [grub_errno] is as before, and the only
    blocks released are the version buffer and the two request buffers. *)
Theorem keystore_init_loads_both fuel fw m rc0 rest l1 ls1 post1 rc1
    l2 ls2 post2 rc2 :
  heap_wf m ->
  pks_keystore m = pks_zero ->
  0 <= fw_test fw -> 0 <= fst (fw_max_object_size fw) ->
  fw_read_object fw = (rc0, 1 :: rest, 1) -> 0 <= rc0 ->
  fw_read_sbvar fw PKS_SBVAR_DB =
    (rc1, esls_bytes (l1 :: ls1) ++ post1, esls_length (l1 :: ls1)) ->
  0 <= rc1 ->
  Forall esl_wf (l1 :: ls1) ->
  esls_length (l1 :: ls1) < 2 ^ 32 ->
  Z.of_nat (esls_count (l1 :: ls1)) * sizeof_grub_pks_sd_t < 2 ^ 32 ->
  fw_read_sbvar fw PKS_SBVAR_DBX =
    (rc2, esls_bytes (l2 :: ls2) ++ post2, esls_length (l2 :: ls2)) ->
  0 <= rc2 ->
  Forall esl_wf (l2 :: ls2) ->
  esls_length (l2 :: ls2) < 2 ^ 32 ->
  Z.of_nat (esls_count (l2 :: ls2)) * sizeof_grub_pks_sd_t < 2 ^ 32 ->
  plan_ok (3 + 2 * esls_count (l1 :: ls1) + 2 * esls_count (l2 :: ls2))
    (m_plan m) ->
  (length (l1 :: ls1) + esls_count (l1 :: ls1) < fuel)%nat ->
  (length (l2 :: ls2) + esls_count (l2 :: ls2) < fuel)%nat ->
  exists ks m',
    grub_pks_keystore_init fuel fw m = Ok tt m' /\
    grub_pks_get_keystore m' = Some ks /\
    use_static_keys ks = false /\
    db_entries ks = Z.of_nat (esls_count (l1 :: ls1)) /\
    dbx_entries ks = Z.of_nat (esls_count (l2 :: ls2)) /\
    sd_holds m' (db ks) (db_entries ks) (esls_entries (l1 :: ls1)) /\
    sd_holds m' (dbx ks) (dbx_entries ks) (esls_entries (l2 :: ls2)) /\
    grub_errno m' = grub_errno m /\
    m_freed m' =
      m_freed m ++ [m_brk m; m_brk m + 1;
                    m_brk m + 2 + 2 * Z.of_nat (esls_count (l1 :: ls1))].
Proof.
  intros Hwf Hks Htest Hmax Hro Hrc0 Hfw1 Hrc1 Hls1 Hfit1 Hcap1
    Hfw2 Hrc2 Hls2 Hfit2 Hcap2 Hpl Hfuel1 Hfuel2.
  destruct (init_both_loaded fuel fw m rc0 rest l1 ls1 post1 rc1 l2 ls2 post2 rc2
              Hwf Hks Htest Hmax Hro Hrc0 Hfw1 Hrc1 Hls1 Hfit1 Hcap1
              Hfw2 Hrc2 Hls2 Hfit2 Hcap2 Hpl Hfuel1 Hfuel2)
    as (dbp & dbxp & m' & Hinit & Hk & Hdb & Hdbx & _ & Hu & He & Hf & _).
  exists (pks_keystore m'), m'. split; [exact Hinit |].
  split; [unfold grub_pks_get_keystore; now rewrite Hu |].
  rewrite Hk. cbn [use_static_keys db dbx db_entries dbx_entries].
  split; [reflexivity |]. split; [reflexivity |]. split; [reflexivity |].
  split; [eapply sd_holds_at_holds; exact Hdb |].
  split; [eapply sd_holds_at_holds; exact Hdbx |].
  split; [exact He | exact Hf].
Qed.

Lemma keystore_init_loads_both_witness :
  exists ks m',
    grub_pks_keystore_init 6
      (sample_fw 1 (0, esls_bytes [sample_esl] ++ [], 64)
                   (0, esls_bytes [sample_esl2] ++ [], 49))
      (boot_machine []) = Ok tt m' /\
    grub_pks_get_keystore m' = Some ks /\
    use_static_keys ks = false /\
    sd_holds m' (db ks) (db_entries ks)
      [mk_entry (replicate 16 170) [5; 6] 2; mk_entry (replicate 16 170) [7; 8] 2] /\
    sd_holds m' (dbx ks) (dbx_entries ks) [mk_entry (replicate 16 187) [9; 10] 2] /\
    m_freed m' = [1; 2; 7].
Proof.
  destruct (keystore_init_loads_both 6
              (sample_fw 1 (0, esls_bytes [sample_esl] ++ [], 64)
                           (0, esls_bytes [sample_esl2] ++ [], 49))
              (boot_machine []) 0 [] sample_esl [] [] 0 sample_esl2 [] [] 0
              (boot_machine_wf []) eq_refl ltac:(cbn; lia) ltac:(cbn; lia)
              eq_refl ltac:(lia)
              ltac:(vm_compute; reflexivity) ltac:(lia)
              ltac:(constructor; [apply sample_esl_wf | constructor])
              ltac:(vm_compute; reflexivity) ltac:(vm_compute; reflexivity)
              ltac:(vm_compute; reflexivity) ltac:(lia)
              ltac:(constructor; [apply sample_esl2_wf | constructor])
              ltac:(vm_compute; reflexivity) ltac:(vm_compute; reflexivity)
              ltac:(exact I) ltac:(cbn; lia) ltac:(cbn; lia))
    as (ks & m' & H1 & H2 & H3 & _ & _ & H4 & H5 & _ & H6).
  exists ks, m'. repeat (split; [assumption |]). exact H6.
Defined.

Lemma new_ptrs_NoDup_app b n1 c n2 :
  b + 2 * Z.of_nat n1 <= c -> NoDup (new_ptrs b n1 ++ new_ptrs c n2).
Proof.
  intros Hc. apply NoDup_app. split; [apply new_ptrs_NoDup |].
  split; [| apply new_ptrs_NoDup].
  intros p H1 H2. apply new_ptrs_bounds in H1, H2. lia.
Qed.

(** X9. Load, then release: after the initialization of X8 the teardown
    [grub_pks_tmp_free] runs to its end and gives back every block the
    initialization allocated, so that the heap is again what it was before
    the initialization; the record is zero, and [pks_use_keystore] stays
    set. *)
Theorem keystore_init_release_round_trip fuel fw m rc0 rest l1 ls1 post1 rc1
    l2 ls2 post2 rc2 :
  heap_wf m ->
  pks_keystore m = pks_zero ->
  0 <= fw_test fw -> 0 <= fst (fw_max_object_size fw) ->
  fw_read_object fw = (rc0, 1 :: rest, 1) -> 0 <= rc0 ->
  fw_read_sbvar fw PKS_SBVAR_DB =
    (rc1, esls_bytes (l1 :: ls1) ++ post1, esls_length (l1 :: ls1)) ->
  0 <= rc1 ->
  Forall esl_wf (l1 :: ls1) ->
  esls_length (l1 :: ls1) < 2 ^ 32 ->
  Z.of_nat (esls_count (l1 :: ls1)) * sizeof_grub_pks_sd_t < 2 ^ 32 ->
  fw_read_sbvar fw PKS_SBVAR_DBX =
    (rc2, esls_bytes (l2 :: ls2) ++ post2, esls_length (l2 :: ls2)) ->
  0 <= rc2 ->
  Forall esl_wf (l2 :: ls2) ->
  esls_length (l2 :: ls2) < 2 ^ 32 ->
  Z.of_nat (esls_count (l2 :: ls2)) * sizeof_grub_pks_sd_t < 2 ^ 32 ->
  plan_ok (3 + 2 * esls_count (l1 :: ls1) + 2 * esls_count (l2 :: ls2))
    (m_plan m) ->
  (length (l1 :: ls1) + esls_count (l1 :: ls1) < fuel)%nat ->
  (length (l2 :: ls2) + esls_count (l2 :: ls2) < fuel)%nat ->
  exists m' m'',
    grub_pks_keystore_init fuel fw m = Ok tt m' /\
    grub_pks_tmp_free m' = Ok tt m'' /\
    m_heap m'' = m_heap m /\
    pks_keystore m'' = pks_zero /\
    pks_use_keystore m'' = true /\
    length (m_freed m'') =
      (length (m_freed m) + 5 + esls_count (l1 :: ls1)
       + esls_count (l2 :: ls2))%nat.
Proof.
  intros Hwf Hks Htest Hmax Hro Hrc0 Hfw1 Hrc1 Hls1 Hfit1 Hcap1
    Hfw2 Hrc2 Hls2 Hfit2 Hcap2 Hpl Hfuel1 Hfuel2.
  assert (0 < m_brk m) as Hb by (destruct Hwf; assumption).
  destruct (init_both_loaded fuel fw m rc0 rest l1 ls1 post1 rc1 l2 ls2 post2 rc2
              Hwf Hks Htest Hmax Hro Hrc0 Hfw1 Hrc1 Hls1 Hfit1 Hcap1
              Hfw2 Hrc2 Hls2 Hfit2 Hcap2 Hpl Hfuel1 Hfuel2)
    as (dbp & dbxp & m' & Hinit & Hk & Hdb & Hdbx & Hwf' & Hu & He & Hf
        & Hframe & Hfresh & Hdist & Hlo1 & Hlo2).
  set (n1 := esls_count (l1 :: ls1)) in *.
  set (n2 := esls_count (l2 :: ls2)) in *.
  set (b := m_brk m) in *.
  pose proof (tmp_free_all m' (esls_entries (l1 :: ls1)) (new_ptrs (b + 2) n1)
                (esls_entries (l2 :: ls2))
                (new_ptrs (b + 3 + 2 * Z.of_nat n1) n2) Hwf') as Hfree.
  cbv zeta in Hfree.
  rewrite Hk in Hfree. cbn [db dbx db_entries dbx_entries] in Hfree.
  specialize (Hfree Hdb Hdbx ltac:(apply new_ptrs_NoDup_app; lia) Hdist).
  eexists m', _. split; [exact Hinit |]. split; [exact Hfree |].
  msimpl. split; [| split; [reflexivity | split; [exact Hu |]]].
  - apply (free_all_restores _ _ b); try assumption.
    + intros q Hq. now apply heap_wf_none.
    + intros q Hq. apply heap_wf_none; [exact Hwf' | now left].
    + intros q Hq Hlive. specialize (Hfresh q Hq Hlive).
      rewrite !elem_of_app in Hfresh |- *. tauto.
    + intros p Hp. rewrite !elem_of_app, !elem_of_cons, elem_of_nil in Hp.
      destruct Hp as [Hp | [Hp | [-> | [-> | []]]]]; try assumption.
      * apply new_ptrs_bounds in Hp. right. lia.
      * apply new_ptrs_bounds in Hp. right. lia.
  - rewrite Hf, !length_app, !new_ptrs_length. cbn [length]. lia.
Qed.

Lemma keystore_init_release_round_trip_witness :
  exists m' m'',
    grub_pks_keystore_init 6
      (sample_fw 1 (0, esls_bytes [sample_esl] ++ [], 64)
                   (0, esls_bytes [sample_esl2] ++ [], 49))
      (boot_machine []) = Ok tt m' /\
    grub_pks_tmp_free m' = Ok tt m'' /\
    m_heap m'' = ∅ /\ pks_keystore m'' = pks_zero /\
    pks_use_keystore m'' = true.
Proof.
  destruct (keystore_init_release_round_trip 6
              (sample_fw 1 (0, esls_bytes [sample_esl] ++ [], 64)
                           (0, esls_bytes [sample_esl2] ++ [], 49))
              (boot_machine []) 0 [] sample_esl [] [] 0 sample_esl2 [] [] 0
              (boot_machine_wf []) eq_refl ltac:(cbn; lia) ltac:(cbn; lia)
              eq_refl ltac:(lia)
              ltac:(vm_compute; reflexivity) ltac:(lia)
              ltac:(constructor; [apply sample_esl_wf | constructor])
              ltac:(vm_compute; reflexivity) ltac:(vm_compute; reflexivity)
              ltac:(vm_compute; reflexivity) ltac:(lia)
              ltac:(constructor; [apply sample_esl2_wf | constructor])
              ltac:(vm_compute; reflexivity) ltac:(vm_compute; reflexivity)
              ltac:(exact I) ltac:(cbn; lia) ltac:(cbn; lia))
    as (m' & m'' & H1 & H2 & H3 & H4 & H5 & _).
  exists m', m''. repeat (split; [assumption |]). exact H5.
Defined.

(** ** The initialization when the deny-list cannot be read *)

Lemma read_sbvar_read_error fuel fw flags type out m rc bs len :
  0 < m_brk m ->
  head (m_plan m) <> Some false ->
  fw_read_sbvar fw type = (rc, bs, len) ->
  rc < 0 -> rc <> IEEE1275_CELL_NOT_FOUND ->
  read_sbvar_from_pks fuel fw flags type out m =
    Ok (GRUB_ERR_READ_ERROR, out)
       (set_errno GRUB_ERR_READ_ERROR (probe_done bs (tail (m_plan m)) m)).
Proof.
  intros Hb Hpl Hfw Hneg Hnf.
  rewrite (read_sbvar_nothing fuel fw flags type out m rc bs len Hb Hpl Hfw
             ltac:(left; exact Hneg)).
  destruct (Z.eqb_spec rc IEEE1275_CELL_NOT_FOUND); [contradiction |].
  destruct (Z.ltb_spec rc 0); [reflexivity | lia].
Qed.

(** X10. The allow-list variable being well-formed lists that load as in
    X8, if the firmware then fails to read the deny-list variable (a
    negative return code other than not-found), [grub_pks_keystore_init]
    discards the allow-list it has just loaded: every payload and the array
    are released, the heap is what it was before the call, the record is
    zero, [grub_errno] holds [GRUB_ERR_READ_ERROR], and the dynamic keystore
    is enabled all the same, with no entries. *)
Theorem keystore_init_dbx_failure_discards_db fuel fw m rc0 rest l1 ls1 post1
    rc1 rc2 bs2 len2 :
  heap_wf m ->
  pks_keystore m = pks_zero ->
  0 <= fw_test fw -> 0 <= fst (fw_max_object_size fw) ->
  fw_read_object fw = (rc0, 1 :: rest, 1) -> 0 <= rc0 ->
  fw_read_sbvar fw PKS_SBVAR_DB =
    (rc1, esls_bytes (l1 :: ls1) ++ post1, esls_length (l1 :: ls1)) ->
  0 <= rc1 ->
  Forall esl_wf (l1 :: ls1) ->
  esls_length (l1 :: ls1) < 2 ^ 32 ->
  Z.of_nat (esls_count (l1 :: ls1)) * sizeof_grub_pks_sd_t < 2 ^ 32 ->
  fw_read_sbvar fw PKS_SBVAR_DBX = (rc2, bs2, len2) ->
  rc2 < 0 -> rc2 <> IEEE1275_CELL_NOT_FOUND ->
  plan_ok (3 + 2 * esls_count (l1 :: ls1)) (m_plan m) ->
  (length (l1 :: ls1) + esls_count (l1 :: ls1) < fuel)%nat ->
  exists m',
    grub_pks_keystore_init fuel fw m = Ok tt m' /\
    grub_pks_get_keystore m' = Some pks_zero /\
    grub_errno m' = GRUB_ERR_READ_ERROR /\
    m_heap m' = m_heap m /\
    length (m_freed m') =
      (length (m_freed m) + 5 + esls_count (l1 :: ls1))%nat.
Proof.
  intros Hwf Hks Htest Hmax Hro Hrc0 Hfw1 Hrc1 Hls1 Hfit1 Hcap1
    Hfw2 Hneg Hnf Hpl Hfuel1.
  assert (0 < m_brk m) as Hb by (destruct Hwf; assumption).
  destruct (init_db_loaded fuel fw m rc0 rest l1 ls1 post1 rc1
              Hwf Hks Htest Hmax Hro Hrc0 Hfw1 Hrc1 Hls1 Hfit1 Hcap1
              ltac:(eapply plan_ok_le; [| exact Hpl]; lia) Hfuel1)
    as (m1 & dbp & m2 & Hprobe & Hload1 & Hh2 & Hwf2 & Hm2 & Hp2).
  set (n1 := esls_count (l1 :: ls1)) in *.
  set (b := m_brk m) in *.
  set (m2a := with_db (dbp, Z.of_nat n1) m2).
  assert (pks_keystore m2a = set_db (dbp, Z.of_nat n1) pks_zero) as Hks2.
  { subst m2a. unfold with_db. cbn [pks_keystore set_keystore].
    rewrite Hm2. msimpl. now rewrite Hks. }
  assert (m_plan m2a = drop (2 + 2 * n1) (m_plan m)) as Hpl2
    by (subst m2a; unfold with_db; cbn [m_plan set_keystore]; rewrite Hm2;
        reflexivity).
  assert (m_freed m2a = m_freed m ++ [b; b + 1]) as Hfr2
    by (subst m2a; unfold with_db; cbn [m_freed set_keystore]; rewrite Hm2;
        reflexivity).
  assert (heap_wf m2a) as Hwf2a by exact Hwf2.
  assert (head (m_plan m2a) <> Some false) as Hhd2.
  { rewrite Hpl2. eapply (plan_ok_S 0). apply plan_ok_drop.
    eapply plan_ok_le; [| exact Hpl]. lia. }
  pose proof (read_sbvar_read_error fuel fw 0 PKS_SBVAR_DBX (NULL, 0) m2a rc2 bs2
                len2 ltac:(destruct Hwf2a; assumption) Hhd2 Hfw2 Hneg Hnf)
    as Hload2.
  match type of Hload2 with _ = Ok _ ?mm => set (m3 := mm) in * end.
  assert (m_heap m3 = m_heap m2) as Hh3
    by (exact (probe_done_heap bs2 _ m2a Hwf2a)).
  assert (heap_wf m3) as Hwf3 by (exact (probe_done_wf bs2 _ m2a Hwf2a)).
  assert (pks_keystore m3 = set_db (dbp, Z.of_nat n1) pks_zero) as Hks3
    by exact Hks2.
  pose proof (init_loaded_path fuel fw m m1 (dbp, Z.of_nat n1) m2
                GRUB_ERR_READ_ERROR (NULL, 0) m3 Hprobe Hload1
                ltac:(fold m2a; rewrite Hks2; exact Hload2)) as Hinit.
  cbn [grub_err_eqb recoverable orb] in Hinit.
  set (m3a := with_dbx (NULL, 0) m3) in *.
  assert (pks_keystore m3a =
          {| db := dbp; dbx := NULL; db_entries := Z.of_nat n1;
             dbx_entries := 0; use_static_keys := false |}) as Hks3a
    by (subst m3a; unfold with_dbx; cbn [pks_keystore set_keystore];
        rewrite Hks3; reflexivity).
  assert (sd_holds_at m3a dbp (Z.of_nat n1) (esls_entries (l1 :: ls1))
            (new_ptrs (b + 2) n1)) as Hdb.
  { eapply sd_holds_at_frame; [exact Hh2 |]. intros q _.
    change (m_heap m3a) with (m_heap m3). now rewrite Hh3. }
  pose proof (tmp_free_all m3a (esls_entries (l1 :: ls1)) (new_ptrs (b + 2) n1)
                [] [] Hwf3) as Hfree.
  cbv zeta in Hfree. rewrite Hks3a in Hfree.
  cbn [db dbx db_entries dbx_entries] in Hfree.
  specialize (Hfree Hdb (sd_holds_at_null m3a)
                ltac:(rewrite app_nil_r; apply new_ptrs_NoDup)).
  assert (dbp = NULL \/ b + 2 <= dbp) as Hlo.
  { destruct (Nat.eq_dec n1 0) as [Hz | Hnz].
    - left. now apply (sdp_same _ _ _ _ _ _ Hp2).
    - right. now apply (sdp_moved _ _ _ _ _ _ Hp2). }
  specialize (Hfree ltac:(destruct Hlo as [? | ?];
                          [now left | right; unfold NULL; lia])).
  rewrite (bind_ok _ _ _ _ _ Hfree) in Hinit.
  eexists. split; [exact Hinit |].
  unfold modify. msimpl.
  split; [reflexivity |]. split; [reflexivity |]. split.
  - change (m_heap m3a) with (m_heap m3). rewrite Hh3.
    apply (free_all_restores _ _ b); try assumption.
    + intros q Hq. now apply heap_wf_none.
    + intros q Hq. apply heap_wf_none; [exact Hwf2 | now left].
    + intros q Hq. destruct (Z.le_gt_cases q 0) as [Hq0 | Hq0].
      * rewrite (heap_wf_none m2 q Hwf2) by (left; exact Hq0).
        symmetry. apply heap_wf_none; [exact Hwf | left; exact Hq0].
      * apply (sdp_frame _ _ _ _ _ _ Hp2); unfold NULL; lia.
    + intros q Hq Hlive. rewrite !elem_of_app, !elem_of_cons.
      destruct (Z.lt_ge_cases q (b + 2)) as [Hlt2 | Hge2].
      * rewrite (sdp_frame _ _ _ _ _ _ Hp2) in Hlive by (unfold NULL; lia).
        rewrite (heap_wf_none m q Hwf) in Hlive by (right; exact Hq).
        now destruct Hlive.
      * destruct (sdp_fresh _ _ _ _ _ _ Hp2 q Hge2 Hlive) as [-> | Hin];
          [right; right; now left | now left].
    + intros p Hp. rewrite !elem_of_app, !elem_of_cons, !elem_of_nil in Hp.
      destruct Hp as [Hp | [[] | [-> | [-> | []]]]].
      * apply new_ptrs_bounds in Hp. right. lia.
      * destruct Hlo; [now left | right; lia].
      * now left.
  - change (m_freed m3a) with (m_freed m2a ++ [m_brk m2a]).
    rewrite Hfr2, !length_app, new_ptrs_length. cbn [length]. lia.
Qed.

Lemma keystore_init_dbx_failure_discards_db_witness :
  exists m',
    grub_pks_keystore_init 6
      (sample_fw 1 (0, esls_bytes [sample_esl] ++ [], 64) (-1, [], 0))
      (boot_machine []) = Ok tt m' /\
    grub_pks_get_keystore m' = Some pks_zero /\
    grub_errno m' = GRUB_ERR_READ_ERROR /\
    m_heap m' = ∅.
Proof.
  destruct (keystore_init_dbx_failure_discards_db 6
              (sample_fw 1 (0, esls_bytes [sample_esl] ++ [], 64) (-1, [], 0))
              (boot_machine []) 0 [] sample_esl [] [] 0 (-1) [] 0
              (boot_machine_wf []) eq_refl ltac:(cbn; lia) ltac:(cbn; lia)
              eq_refl ltac:(lia)
              ltac:(vm_compute; reflexivity) ltac:(lia)
              ltac:(constructor; [apply sample_esl_wf | constructor])
              ltac:(vm_compute; reflexivity) ltac:(vm_compute; reflexivity)
              eq_refl ltac:(lia) ltac:(vm_compute; discriminate)
              ltac:(exact I) ltac:(cbn; lia))
    as (m' & H1 & H2 & H3 & H4 & _).
  exists m'. repeat (split; [assumption |]). exact H4.
Defined.

(** The steps of [grub_pks_keystore_init] once the allow-list load has
    returned one of the two recoverable codes. *)
Lemma init_absent_path fuel fw m m1 rc1 out1 m2 rc2 out2 m3 :
  is_pks_present fw m = Ok true m1 ->
  read_sbvar_from_pks fuel fw 0 PKS_SBVAR_DB
    (db (pks_keystore m1), db_entries (pks_keystore m1)) m1 =
    Ok (rc1, out1) m2 ->
  recoverable rc1 = true ->
  let m2b := set_keystore
               (set_use_static_keys true (pks_keystore (with_db out1 m2)))
               (with_db out1 m2) in
  read_sbvar_from_pks fuel fw 0 PKS_SBVAR_DBX
    (dbx (pks_keystore m2b), dbx_entries (pks_keystore m2b)) m2b =
    Ok (rc2, out2) m3 ->
  grub_pks_keystore_init fuel fw m =
    (if grub_err_eqb rc2 GRUB_ERR_NONE || recoverable rc2
     then Ok tt (set_use_keystore true (with_dbx out2 m3))
     else (grub_pks_tmp_free ;;; modify (set_use_keystore true))
            (with_dbx out2 m3)).
Proof.
  intros Hprobe Hdb Hrec m2b Hdbx.
  unfold grub_pks_keystore_init.
  rewrite (bind_ok _ _ _ _ _ Hprobe). cbn [negb].
  unfold bind at 1, get.
  rewrite (bind_ok _ _ _ _ _ Hdb). cbn [fst snd].
  unfold bind at 1, modify at 1. fold (with_db out1 m2).
  rewrite Hrec.
  unfold bind at 1. unfold bind at 1, modify at 1. fold m2b.
  unfold ret at 1. cbn [grub_err_eqb].
  unfold bind at 1. unfold bind at 1, get.
  rewrite (bind_ok _ _ _ _ _ Hdbx). cbn [fst snd].
  unfold bind at 1, modify at 1. fold (with_dbx out2 m3).
  destruct rc2; reflexivity.
Qed.

(** ** The initialization when the firmware has no allow-list *)






(** X11. With no allow-list in the firmware (not found, or found empty)
    the initialization sets [use_static_keys]; if the firmware then fails
    to read the deny-list, the teardown clears the flag again with the rest
    of the record: [grub_pks_keystore_init] returns with the dynamic
    keystore enabled, no entry in either list and [use_static_keys] false,
    [GRUB_ERR_READ_ERROR] in [grub_errno], and the heap as it was. *)
Theorem keystore_init_dbx_failure_clears_static_keys fuel fw m rc0 rest
    rc1 bs1 len1 rc2 bs2 len2 :
  heap_wf m ->
  pks_keystore m = pks_zero ->
  0 <= fw_test fw -> 0 <= fst (fw_max_object_size fw) ->
  fw_read_object fw = (rc0, 1 :: rest, 1) -> 0 <= rc0 ->
  fw_read_sbvar fw PKS_SBVAR_DB = (rc1, bs1, len1) ->
  rc1 = IEEE1275_CELL_NOT_FOUND \/ (0 <= rc1 /\ len1 = 0) ->
  fw_read_sbvar fw PKS_SBVAR_DBX = (rc2, bs2, len2) ->
  rc2 < 0 -> rc2 <> IEEE1275_CELL_NOT_FOUND ->
  plan_ok 3 (m_plan m) ->
  exists m',
    grub_pks_keystore_init fuel fw m = Ok tt m' /\
    grub_pks_get_keystore m' = Some pks_zero /\
    use_static_keys (pks_keystore m') = false /\
    grub_errno m' = GRUB_ERR_READ_ERROR /\
    m_heap m' = m_heap m /\
    m_freed m' =
      m_freed m ++ [m_brk m; m_brk m + 1; m_brk m + 2; NULL; NULL].
Proof.
  intros Hwf Hks Htest Hmax Hro Hrc0 Hfw1 Habs Hfw2 Hneg Hnf Hpl.
  assert (0 < m_brk m) as Hb by (destruct Hwf; assumption).
  apply plan_ok_S in Hpl as [Hhd0 Hpl].
  apply plan_ok_S in Hpl as [Hhd1 Hpl].
  apply plan_ok_S in Hpl as [Hhd2 _].
  set (m0 := set_max_object_size (snd (fw_max_object_size fw)) m).
  set (m1 := probe_done (1 :: rest) (tail (m_plan m)) m0).
  pose proof (is_pks_present_true fw m rc0 rest Hwf Htest Hmax Hro Hrc0 Hhd0)
    as Hprobe. fold m0 m1 in Hprobe.
  assert (heap_wf m1) as Hwf1 by (apply probe_done_wf; exact Hwf).
  assert (m_heap m1 = m_heap m) as Hh1 by (exact (probe_done_heap _ _ m0 Hwf)).
  assert (pks_keystore m1 = pks_zero) as Hks1 by exact Hks.
  pose proof (read_sbvar_nothing fuel fw 0 PKS_SBVAR_DB (NULL, 0) m1 rc1 bs1 len1
                ltac:(destruct Hwf1; assumption) Hhd1 Hfw1
                ltac:(destruct Habs as [-> | [_ ->]];
                      [left; unfold IEEE1275_CELL_NOT_FOUND; lia | now right]))
    as Hload1.
  match type of Hload1 with _ = Ok (?e, _) ?mm =>
    set (e1 := e) in *; set (m2 := mm) in * end.
  assert (recoverable e1 = true) as Hrec.
  { subst e1. destruct Habs as [-> | [Hge _]]; [reflexivity |].
    destruct (rc1 =? IEEE1275_CELL_NOT_FOUND); [reflexivity |].
    destruct (Z.ltb_spec rc1 0); [lia | reflexivity]. }
  assert (heap_wf m2) as Hwf2 by (exact (probe_done_wf bs1 _ m1 Hwf1)).
  assert (m_heap m2 = m_heap m1) as Hh2 by (exact (probe_done_heap bs1 _ m1 Hwf1)).
  set (m2b := set_keystore
                (set_use_static_keys true (pks_keystore (with_db (NULL, 0) m2)))
                (with_db (NULL, 0) m2)).
  assert (heap_wf m2b) as Hwf2b by exact Hwf2.
  assert (pks_keystore m2b =
          set_use_static_keys true (set_db (NULL, 0) pks_zero)) as Hks2b
    by (subst m2b; unfold with_db; cbn [pks_keystore set_keystore];
        change (pks_keystore m2) with (pks_keystore m1); now rewrite Hks1).
  pose proof (read_sbvar_read_error fuel fw 0 PKS_SBVAR_DBX (NULL, 0) m2b rc2 bs2
                len2 ltac:(destruct Hwf2b; assumption) Hhd2 Hfw2 Hneg Hnf)
    as Hload2.
  match type of Hload2 with _ = Ok _ ?mm => set (m3 := mm) in * end.
  assert (m_heap m3 = m_heap m2) as Hh3
    by (exact (probe_done_heap bs2 _ m2b Hwf2b)).
  pose proof (init_absent_path fuel fw m m1 e1 (NULL, 0) m2
                GRUB_ERR_READ_ERROR (NULL, 0) m3 Hprobe
                ltac:(rewrite Hks1; exact Hload1) Hrec
                ltac:(fold m2b; rewrite Hks2b; exact Hload2)) as Hinit.
  cbn [grub_err_eqb recoverable orb] in Hinit.
  set (m3a := with_dbx (NULL, 0) m3) in *.
  assert (pks_keystore m3a =
          {| db := NULL; dbx := NULL; db_entries := 0; dbx_entries := 0;
             use_static_keys := true |}) as Hks3a
    by (subst m3a; unfold with_dbx; cbn [pks_keystore set_keystore];
        change (pks_keystore m3) with (pks_keystore m2b); rewrite Hks2b;
        reflexivity).
  pose proof (grub_pks_tmp_free_ok m3a [] []) as Hfree.
  cbv zeta in Hfree. rewrite Hks3a in Hfree.
  cbn [db dbx db_entries dbx_entries app] in Hfree.
  specialize (Hfree (sd_owns_null m3a) (sd_owns_null m3a) NoDup_non_null_nil
                ltac:(intros p Hp; inversion Hp) ltac:(now left)).
  rewrite (bind_ok _ _ _ _ _ Hfree) in Hinit.
  eexists. split; [exact Hinit |].
  unfold modify. msimpl.
  split; [reflexivity |]. split; [reflexivity |]. split; [reflexivity |].
  split.
  - change (m_heap m3a) with (m_heap m3). rewrite Hh3, Hh2, Hh1. reflexivity.
  - subst m3a m3 m2b m2 m1 m0. unfold with_dbx, with_db, probe_done, probe_buffer.
    msimpl. rewrite <- !app_assoc. cbn [app].
    replace (m_brk m + 1 + 1) with (m_brk m + 2) by lia. reflexivity.
Qed.

Lemma keystore_init_dbx_failure_clears_static_keys_witness :
  exists m',
    grub_pks_keystore_init 1 (sample_fw 1 not_found (-1, [], 0))
      (boot_machine []) = Ok tt m' /\
    grub_pks_get_keystore m' = Some pks_zero /\
    use_static_keys (pks_keystore m') = false /\
    grub_errno m' = GRUB_ERR_READ_ERROR.
Proof.
  destruct (keystore_init_dbx_failure_clears_static_keys 1
              (sample_fw 1 not_found (-1, [], 0)) (boot_machine [])
              0 [] IEEE1275_CELL_NOT_FOUND [] 0 (-1) [] 0
              (boot_machine_wf []) eq_refl ltac:(cbn; lia) ltac:(cbn; lia)
              eq_refl ltac:(lia) eq_refl ltac:(now left)
              eq_refl ltac:(lia) ltac:(vm_compute; discriminate)
              ltac:(exact I))
    as (m' & H1 & H2 & H3 & H4 & _).
  exists m'. repeat (split; [assumption |]). exact H4.
Defined.

(** ** An array that cannot grow *)

(** [_esl_to_esd] when [grub_realloc] fails in run [K + 1]. *)
Lemma esd_realloc_failure done post r fuel ssz g sd e m sl pl :
  heap_wf m ->
  sd_array m sd sl ->
  Z.of_nat (length sl) = e ->
  (e + Z.of_nat (length done)) * sizeof_grub_pks_sd_t < 2 ^ 32 ->
  m_plan m = replicate (2 * length done) true ++ false :: pl ->
  Forall (esd_wf ssz) done ->
  0 < ssz -> 1 <= r -> (Z.of_nat (length done) + r) * ssz < 2 ^ 32 ->
  (length done < fuel)%nat ->
  exists m',
    _esl_to_esd fuel (esd_region done ++ post)
      ((Z.of_nat (length done) + r) * ssz) ssz g (sd, e) m =
      Ok (GRUB_ERR_OUT_OF_MEMORY, (sd, e)) m' /\
    grub_errno m' = GRUB_ERR_OUT_OF_MEMORY /\
    (done = [] -> m_heap m' = m_heap m) /\
    (done <> [] ->
     m_heap m' !! sd = None /\
     exists sd', sd' <> sd /\
       m_heap m' !! sd' =
         Some (Slots (sl ++ new_slots g (ssz - sizeof_grub_esd_t) (m_brk m) done))) /\
    (forall p, p ∈ new_ptrs (m_brk m) (length done) ->
               exists bs, m_heap m' !! p = Some (Bytes bs)) /\
    pks_keystore m' = pks_keystore m.
Proof.
  intros Hwf Harr Hlen Hcap Hplan Hdone Hss Hr Hfit Hfuel.
  set (K := length done) in *.
  destruct (esd_iter_ok done (esd_region done ++ post) ssz g (sd, e)
              {| l_esl_size := (Z.of_nat K + r) * ssz; l_offset := 0;
                 l_signature := sd; l_entries := e |}
              m sl [] post r Hwf Harr Hlen
              ltac:(cbn [l_entries]; fold K; exact Hcap)
              ltac:(rewrite Hplan; apply plan_ok_replicate; lia)
              Hdone eq_refl eq_refl ltac:(lia) eq_refl
              ltac:(cbn [l_esl_size l_offset]; lia) Hss)
    as (sigK & mK & Hiter & Hpost).
  fold K in Hiter. cbn [l_offset l_entries] in Hiter.
  pose proof Hpost as [Pwf Pm Parr Pent Pframe Pfresh Psig Psf Pss]. fold K in Pm.
  assert (m_plan mK = false :: pl) as HplanK.
  { rewrite Pm. cbn [m_plan set_brk set_heap set_plan]. rewrite Hplan.
    rewrite drop_replicate_app by lia.
    replace (2 * K - 2 * K)%nat with O by lia. reflexivity. }
  set (stK := {| l_esl_size := r * ssz; l_offset := 0 + Z.of_nat K * ssz;
                 l_signature := sigK; l_entries := e + Z.of_nat K |}) in *.
  pose proof (esd_body_realloc_fail (esd_region done ++ post) ssz g (sd, e) stK mK
                _ pl Parr HplanK) as Hbody.
  exists (set_errno GRUB_ERR_OUT_OF_MEMORY (set_plan pl mK)).
  split; [| split; [reflexivity | split; [| split; [| split]]]].
  - unfold _esl_to_esd. cbn [fst snd].
    replace fuel with (S K + (fuel - S K))%nat by lia.
    apply esd_while_iter_inr.
    replace (S K) with (K + 1)%nat by lia.
    rewrite (esd_iter_app _ 1 _ _ _ _ _ _ _ _ Hiter).
    cbn [esd_iter l_esl_size]. fold stK.
    destruct (Z.ltb_spec 0 (r * ssz)) as [_ | Hle]; [| nia].
    change (l_esl_size stK) with (r * ssz).
    destruct (Z.ltb_spec 0 (r * ssz)) as [_ | Hle]; [| nia].
    rewrite (bind_ok _ _ _ _ _ Hbody). reflexivity.
  - intros ->. cbn [esd_iter length] in Hiter. unfold ret in Hiter.
    inversion Hiter; subst. reflexivity.
  - intros Hne. destruct (Psig Hne) as [Hgone Hsig]. msimpl.
    split; [exact Hgone |]. exists sigK. split.
    + specialize (Psf Hne).
      pose proof (sd_array_bounds _ _ _ Hwf Harr). lia.
    + destruct Parr as [[? _] | [_ Hl]]; [contradiction | exact Hl].
  - intros p Hp. msimpl.
    exact (new_ptrs_live g (ssz - sizeof_grub_esd_t) (m_heap mK) done (m_brk m)
             Pent p Hp).
  - msimpl. rewrite Pm. reflexivity.
Qed.


(** X12. When [grub_realloc] refuses to grow the array in run [K + 1] of
    the entry loop, [_esl_to_esd] returns [GRUB_ERR_OUT_OF_MEMORY] and
    leaves [*pks_sd] and [*pks_sd_entries] as they were at entry.  If no run
    was complete ([K = 0]) the heap is untouched; otherwise ([grub_realloc]
    being taken to move the array whenever it grows it) the array those
    outputs still name, if there was one, has been released by the earlier
    runs, and the entries, old and new, sit in a block at another address,
    the [K] new payloads being live. *)
Theorem esl_to_esd_realloc_failure done post r fuel ssz g sd e m sl pl :
  heap_wf m ->
  sd_array m sd sl ->
  Z.of_nat (length sl) = e ->
  (e + Z.of_nat (length done)) * sizeof_grub_pks_sd_t < 2 ^ 32 ->
  m_plan m = replicate (2 * length done) true ++ false :: pl ->
  Forall (esd_wf ssz) done ->
  0 < ssz -> 1 <= r -> (Z.of_nat (length done) + r) * ssz < 2 ^ 32 ->
  (length done < fuel)%nat ->
  exists m',
    _esl_to_esd fuel (esd_region done ++ post)
      ((Z.of_nat (length done) + r) * ssz) ssz g (sd, e) m =
      Ok (GRUB_ERR_OUT_OF_MEMORY, (sd, e)) m' /\
    grub_errno m' = GRUB_ERR_OUT_OF_MEMORY /\
    (done = [] -> m_heap m' = m_heap m) /\
    (done <> [] ->
     m_heap m' !! sd = None /\
     exists sd', sd' <> sd /\
       m_heap m' !! sd' =
         Some (Slots (sl ++ new_slots g (ssz - sizeof_grub_esd_t) (m_brk m) done))) /\
    (forall p, p ∈ new_ptrs (m_brk m) (length done) ->
               exists bs, m_heap m' !! p = Some (Bytes bs)).
Proof.
  intros Hwf Harr Hlen Hcap Hplan Hdone Hss Hr Hfit Hfuel.
  destruct (esd_realloc_failure done post r fuel ssz g sd e m sl pl
              Hwf Harr Hlen Hcap Hplan Hdone Hss Hr Hfit Hfuel)
    as (m' & Hrun & Herr & Hnil & Hmoved & Hlive & _).
  exists m'. repeat (split; [assumption |]). exact Hlive.
Qed.

Lemma esl_to_esd_realloc_failure_witness :
  exists m',
    _esl_to_esd 3 (esd_region (esl_signatures sample_esl) ++ []) ((1 + 1) * 18) 18
      (esl_type sample_esl) (1, 1) (set_plan [true; true; false] sample_loaded) =
      Ok (GRUB_ERR_OUT_OF_MEMORY, (1, 1)) m' /\
    m_heap m' !! 1 = None.
Proof.
  destruct (esl_to_esd_realloc_failure [(replicate 16 1, [5; 6])]
              (esd_region [(replicate 16 2, [7; 8])] ++ []) 1 3 18
              (esl_type sample_esl) 1 1
              (set_plan [true; true; false] sample_loaded)
              [full_slot (replicate 16 170) 2 2] []
              sample_loaded_wf
              ltac:(right; split; [discriminate | reflexivity])
              eq_refl ltac:(vm_compute; reflexivity) eq_refl
              ltac:(repeat constructor) ltac:(lia) ltac:(lia)
              ltac:(cbn; lia) ltac:(cbn; lia))
    as (m' & H1 & _ & _ & H2 & _).
  exists m'. split; [exact H1 |]. apply H2. discriminate.
Defined.

(** ** A signature size below the entry header *)

Lemma wrap32_neg x : - 2 ^ 32 <= x < 0 -> wrap32 x = x + 2 ^ 32.
Proof.
  intros Hx. unfold wrap32.
  rewrite <- (Z.mod_add x 1 (2 ^ 32)) by lia.
  apply Z.mod_small. lia.
Qed.

Lemma read_bytes_past buf off n m :
  Z.of_nat (length buf) < off + n -> read_bytes buf off n m = Fault OutOfBounds.
Proof.
  intros H. unfold read_bytes.
  destruct (off <? 0); [reflexivity |].
  destruct (n <? 0); [reflexivity |].
  destruct (Z.ltb_spec (Z.of_nat (length buf)) (off + n)); [reflexivity | lia].
Qed.

(** With a signature size below the entry header the body of the entry
    loop never reaches its end: the payload size has wrapped around and the
    copy starts past the buffer. *)
Lemma esd_body_short esl_data ssz g out st m st' m' :
  0 <= ssz < sizeof_grub_esd_t ->
  0 <= l_offset st ->
  Z.of_nat (length esl_data) < 2 ^ 32 ->
  esd_body esl_data ssz g out st m <> Ok (inl st') m'.
Proof.
  intros Hs Hoff Hlen H. unfold esd_body in H.
  apply bind_inv_ok in H as (sg & m1 & _ & H).
  destruct (sg =? NULL).
  { apply bind_inv_ok in H as (? & ? & _ & H). discriminate. }
  apply bind_inv_ok in H as (p & m2 & _ & H).
  apply bind_inv_ok in H as (? & m3 & _ & H).
  destruct (p =? NULL).
  { apply bind_inv_ok in H as (? & ? & _ & H). discriminate. }
  apply bind_inv_ok in H as (bs & m4 & Hread & _).
  rewrite read_bytes_past in Hread; [discriminate |].
  unfold sizeof_grub_esd_t in *. rewrite wrap32_neg by lia. lia.
Qed.

(** X13. [_esl_to_esd] does not check the signature size against the size
    of the entry header.  With a signature size below it and a region that
    is not empty, the payload size [signature_size - sizeof (grub_esd_t)]
    wraps around to at least [2 ^ 32 - 16]: no run returns
    [GRUB_ERR_NONE] or a structural error, a run that returns has been
    refused one of its two allocations, and if both are granted the copy of
    the payload reads beyond the buffer. *)
Theorem esl_to_esd_short_signature fuel esl_data esl_size ssz g out m :
  0 <= ssz < sizeof_grub_esd_t ->
  0 < esl_size ->
  Z.of_nat (length esl_data) < 2 ^ 32 ->
  (forall rc o m',
     _esl_to_esd fuel esl_data esl_size ssz g out m = Ok (rc, o) m' ->
     rc = GRUB_ERR_OUT_OF_MEMORY) /\
  (forall sl,
     heap_wf m -> sd_array m (fst out) sl -> Z.of_nat (length sl) = snd out ->
     (snd out + 1) * sizeof_grub_pks_sd_t < 2 ^ 32 ->
     plan_ok 2 (m_plan m) -> (0 < fuel)%nat ->
     _esl_to_esd fuel esl_data esl_size ssz g out m = Fault OutOfBounds).
Proof.
  intros Hs Hsize Hlen. split.
  - intros rc o m' H. unfold _esl_to_esd in H.
    destruct fuel as [|fuel]; [discriminate |].
    cbn [esd_while l_esl_size] in H.
    destruct (Z.ltb_spec 0 esl_size); [| lia].
    apply bind_inv_ok in H as ([st' | [e o']] & m1 & Hb & H).
    + exfalso. revert Hb. apply esd_body_short; cbn [l_offset]; auto; lia.
    + apply esd_body_inr in Hb. unfold ret in H. congruence.
  - intros sl Hwf Harr Hl Hcap Hpl Hfuel. unfold _esl_to_esd.
    destruct fuel as [|fuel]; [lia |].
    cbn [esd_while l_esl_size].
    destruct (Z.ltb_spec 0 esl_size); [| lia].
    destruct out as [sd e]. cbn [fst snd] in *.
    assert (0 <= e) as He by lia.
    destruct (realloc_size _ He Hcap) as [Hw Hrs].
    destruct (sd_array_fresh _ _ _ Hwf Harr) as [Hne0 Hne1].
    apply plan_ok_S in Hpl as [Hp1 Hpl]. apply plan_ok_S in Hpl as [Hp2 _].
    assert (Z.to_nat e = length sl) as Hn by lia.
    unfold bind at 1. unfold esd_body. cbn [l_signature l_entries l_offset].
    rewrite (bind_ok _ _ _ _ _ (grub_realloc_ok _ _ _ _ Harr Hp1)).
    destruct Hwf as [Hb Hwf].
    destruct m as [h b pl fr en mx ks us].
    msimpl. msimpl_in Hb. msimpl_in Hp1. msimpl_in Hp2.
    destruct (Z.eqb_spec b NULL) as [E|_]; [unfold NULL in E; lia |].
    rewrite Hrs, Hw.
    rewrite Hn, resize_ge, Nat.sub_succ_l, Nat.sub_diag by lia.
    cbn [replicate app].
    erewrite bind_ok by (apply grub_malloc_ok; exact Hp2). msimpl.
    erewrite bind_ok.
    2:{ eapply store_slot_ok with (sl := sl ++ [fresh_slot]) (s := fresh_slot).
        - msimpl. rewrite lookup_insert_ne by lia. apply lookup_insert_eq.
        - exact He.
        - rewrite Hn. rewrite lookup_app_r by lia. now rewrite Nat.sub_diag. }
    msimpl.
    destruct (Z.eqb_spec (b + 1) NULL) as [E|_]; [unfold NULL in E; lia |].
    unfold bind at 1. rewrite read_bytes_past; [reflexivity |].
    unfold sizeof_grub_esd_t in *. rewrite wrap32_neg by lia. lia.
Qed.

Lemma esl_to_esd_short_signature_witness :
  _esl_to_esd 1 (replicate 20 0) 20 10 [] (NULL, 0) (boot_machine []) =
  Fault OutOfBounds.
Proof.
  destruct (esl_to_esd_short_signature 1 (replicate 20 0) 20 10 [] (NULL, 0)
              (boot_machine [])
              ltac:(unfold sizeof_grub_esd_t; lia) ltac:(lia)
              ltac:(vm_compute; reflexivity)) as [_ H].
  apply (H [] (boot_machine_wf []) ltac:(left; now split) eq_refl
           ltac:(vm_compute; reflexivity) ltac:(exact I) ltac:(lia)).
Defined.

(** ** Termination on arbitrary input *)

Lemma le32_range bs : 0 <= le32 bs < 2 ^ 32.
Proof.
  unfold le32. destruct bs as [|b0 [|b1 [|b2 [|b3 [|? ?]]]]];
    try lia; apply wrap32_range.
Qed.

(** A run of the body that goes on to the next iteration has copied a
    payload that lies inside the buffer: the signature size is at least the
    entry header, and the offset has moved on by it without wrapping. *)
Lemma esd_body_advance esl_data ssz g out st m st' m' :
  esd_body esl_data ssz g out st m = Ok (inl st') m' ->
  0 <= ssz < 2 ^ 32 -> 0 <= l_offset st ->
  Z.of_nat (length esl_data) < 2 ^ 32 ->
  sizeof_grub_esd_t <= ssz /\
  l_offset st' = l_offset st + ssz /\
  l_offset st + ssz <= Z.of_nat (length esl_data).
Proof.
  unfold esd_body. intros H Hs Hoff Hlen.
  apply bind_inv_ok in H as (sg & m1 & _ & H).
  destruct (sg =? NULL).
  { apply bind_inv_ok in H as (? & ? & _ & H). discriminate. }
  apply bind_inv_ok in H as (p & m2 & _ & H).
  apply bind_inv_ok in H as (? & m3 & _ & H).
  destruct (p =? NULL).
  { apply bind_inv_ok in H as (? & ? & _ & H). discriminate. }
  apply bind_inv_ok in H as (bs & m4 & Hread & H).
  apply bind_inv_ok in H as (? & m5 & _ & H).
  apply bind_inv_ok in H as (? & m6 & _ & H).
  apply bind_inv_ok in H as (? & m7 & _ & H).
  unfold ret in H. inversion H; subst. cbn [l_offset].
  unfold read_bytes in Hread. unfold sizeof_grub_esd_t in *.
  destruct (Z.ltb_spec (l_offset st + 16) 0); [discriminate |].
  destruct (Z.ltb_spec (wrap32 (ssz - 16)) 0); [discriminate |].
  destruct (Z.ltb_spec (Z.of_nat (length esl_data))
              (l_offset st + 16 + wrap32 (ssz - 16))); [discriminate |].
  destruct (Z.lt_ge_cases ssz 16) as [Hlt | Hge].
  - rewrite wrap32_neg in * by lia. lia.
  - rewrite wrap32_small in * by lia.
    split; [lia |]. split; [| lia]. apply wrap32_small. lia.
Qed.

Lemma fuel_free_esd_while fuel : forall esl_data ssz g out st,
  0 <= ssz < 2 ^ 32 -> 0 <= l_offset st ->
  Z.of_nat (length esl_data) < 2 ^ 32 ->
  (0 < fuel)%nat ->
  Z.of_nat (length esl_data) - l_offset st < Z.of_nat fuel ->
  fuel_free (esd_while fuel esl_data ssz g out st).
Proof.
  induction fuel as [|fuel IH]; intros esl_data ssz g out st Hs Hoff Hlen Hf Hm m.
  - lia.
  - cbn [esd_while].
    destruct (Z.ltb_spec 0 (l_esl_size st)) as [Hpos|]; [| discriminate].
    unfold bind.
    pose proof (fuel_free_esd_body esl_data ssz g out st m) as Hff.
    destruct (esd_body esl_data ssz g out st m) as [r m1| |] eqn:Hb;
      [| discriminate | contradiction].
    destruct r as [st1 | v]; [| discriminate].
    destruct (esd_body_advance _ _ _ _ _ _ _ _ Hb Hs Hoff Hlen) as (H16 & Ho & Hin).
    unfold sizeof_grub_esd_t in H16.
    apply IH; try assumption; lia.
Qed.

Lemma fuel_free_esl_to_esd fuel esl_data next_esl out :
  Z.of_nat (length esl_data) < 2 ^ 32 ->
  Z.of_nat (length esl_data) < Z.of_nat fuel ->
  fuel_free (esl_to_esd fuel esl_data next_esl out).
Proof.
  intros Hlen Hf. unfold esl_to_esd, _esl_to_esd.
  destruct (next_esl <? sizeof_grub_esl_t); [fuel_free_tac |].
  apply fuel_free_bind; [fuel_free_tac |]. intros g.
  apply fuel_free_bind; [fuel_free_tac |]. intros b_list.
  apply fuel_free_bind; [fuel_free_tac |]. intros b_header.
  apply fuel_free_bind; [fuel_free_tac |]. intros b_size.
  destruct ((le32 b_list <? sizeof_grub_esl_t) || (next_esl <? le32 b_list));
    [fuel_free_tac |].
  apply fuel_free_bind; [| intros r; apply fuel_free_ret].
  pose proof (length_drop esl_data
                (Z.to_nat (wrap32 (sizeof_grub_esl_t + le32 b_header)))) as Hd.
  apply fuel_free_esd_while; cbn [l_offset]; try lia.
  apply le32_range.
Qed.

(** A run of the body of the driving loop that ends without error has
    moved the cursor on by at least a list header. *)
Lemma sd_body_advance fuel st m st' m' :
  sd_body fuel st m = Ok (GRUB_ERR_NONE, st') m' ->
  (length (s_esl_data st') + 28 <= length (s_esl_data st))%nat.
Proof.
  unfold sd_body. intros H.
  apply bind_inv_ok in H as ([[rc next] o] & m1 & He & H).
  destruct rc; unfold ret in H; cbn [grub_err_eqb] in H; inversion H; subst.
  cbn [s_esl_data]. clear H.
  unfold esl_to_esd in He. unfold sizeof_grub_esl_t in He.
  destruct (s_esl_size st <? 28).
  { apply bind_inv_ok in He as (? & ? & Hg & He). unfold ret in He.
    unfold grub_error, bind, modify, ret in Hg. congruence. }
  apply bind_inv_ok in He as (g & ? & _ & He).
  apply bind_inv_ok in He as (b_list & ? & _ & He).
  apply bind_inv_ok in He as (b_header & ? & _ & He).
  apply bind_inv_ok in He as (b_size & ? & Hread & He).
  destruct (Z.ltb_spec (le32 b_list) 28) as [|Hge]; cbn [orb] in He.
  { apply bind_inv_ok in He as (? & ? & Hg & He). unfold ret in He.
    unfold grub_error, bind, modify, ret in Hg. congruence. }
  destruct (s_esl_size st <? le32 b_list).
  { apply bind_inv_ok in He as (? & ? & Hg & He). unfold ret in He.
    unfold grub_error, bind, modify, ret in Hg. congruence. }
  apply bind_inv_ok in He as (r & ? & _ & He).
  unfold ret in He. inversion He; subst.
  unfold read_bytes in Hread.
  destruct (Z.ltb_spec (Z.of_nat (length (s_esl_data st))) (24 + 4));
    [rewrite !orb_true_r in Hread; discriminate |].
  rewrite length_drop. lia.
Qed.

Lemma fuel_free_sd_do_while fuel : forall st,
  Z.of_nat (length (s_esl_data st)) < 2 ^ 32 ->
  (length (s_esl_data st) + 1 < fuel)%nat ->
  fuel_free (sd_do_while fuel st).
Proof.
  induction fuel as [|fuel IH]; intros st Hlen Hf m; [lia |].
  cbn [sd_do_while]. unfold bind.
  assert (fuel_free (sd_body fuel st)) as Hff.
  { unfold sd_body. apply fuel_free_bind.
    - apply fuel_free_esl_to_esd; lia.
    - intros [[rc n] o]. destruct (grub_err_eqb rc GRUB_ERR_NONE);
        apply fuel_free_ret. }
  specialize (Hff m).
  destruct (sd_body fuel st m) as [[rc st'] m1| |] eqn:Hb;
    [| discriminate | contradiction].
  destruct rc; cbn [grub_err_eqb andb]; try discriminate.
  destruct (0 <? s_esl_size st'); [| discriminate].
  apply sd_body_advance in Hb. apply IH; lia.
Qed.

(** X14. [pks_sd_from_esl] comes to an end on every input: whatever the
    bytes of the buffer (shorter than 4 GiB), the declared size, the
    database it appends to and the allocator, the two nested loops stop, by
    a return or by an access outside the buffer, after fewer iterations
    than the buffer has bytes. *)
Theorem pks_sd_from_esl_terminates fuel esl_data esl_size out m :
  Z.of_nat (length esl_data) < 2 ^ 32 ->
  (length esl_data + 1 < fuel)%nat ->
  pks_sd_from_esl fuel esl_data esl_size out m <> OutOfFuel.
Proof.
  intros Hlen Hf. unfold pks_sd_from_esl.
  apply fuel_free_sd_do_while; cbn [s_esl_data]; assumption.
Qed.

Lemma pks_sd_from_esl_terminates_witness :
  pks_sd_from_esl 30 (replicate 28 255) 28 (NULL, 0) (boot_machine []) <> OutOfFuel.
Proof.
  apply (pks_sd_from_esl_terminates 30 (replicate 28 255) 28 (NULL, 0)
           (boot_machine []) ltac:(vm_compute; reflexivity) ltac:(cbn; lia)).
Defined.

Lemma bind_not_out_of_fuel {A B} (c : M A) (k : A -> M B) m :
  c m <> OutOfFuel ->
  (forall a m', c m = Ok a m' -> k a m' <> OutOfFuel) ->
  bind c k m <> OutOfFuel.
Proof.
  intros Hc Hk. unfold bind.
  destruct (c m) as [a m'| |]; [now apply Hk | discriminate | contradiction].
Qed.

Lemma fuel_free_read_sbvar_from_pks fuel fw flags type out :
  Z.of_nat (length (snd (fst (fw_read_sbvar fw type)))) < 2 ^ 32 ->
  (length (snd (fst (fw_read_sbvar fw type))) + 1 < fuel)%nat ->
  fuel_free (read_sbvar_from_pks fuel fw flags type out).
Proof.
  intros Hlen Hf m. unfold read_sbvar_from_pks.
  unfold bind at 1, get.
  apply bind_not_out_of_fuel; [apply fuel_free_grub_malloc |].
  intros p m1 _.
  destruct (p =? NULL); [apply fuel_free_bind; fuel_free_tac |].
  destruct (fw_read_sbvar fw type) as [[rc bs] len]. cbn [fst snd] in Hlen, Hf.
  apply bind_not_out_of_fuel; [apply fuel_free_write_bytes |].
  intros [] m2 Hw.
  assert (load_buffer p m2 = Ok bs m2) as Hload.
  { unfold write_bytes, bind, get, modify in Hw.
    destruct (m_heap m1 !! p) as [[old|]|]; try discriminate.
    inversion Hw; subst. unfold load_buffer, bind, get. msimpl.
    now rewrite lookup_insert_eq. }
  apply bind_not_out_of_fuel; [| intros; apply fuel_free_bind; fuel_free_tac].
  destruct (rc =? IEEE1275_CELL_NOT_FOUND); [apply fuel_free_bind; fuel_free_tac |].
  destruct (rc <? 0); [apply fuel_free_bind; fuel_free_tac |].
  destruct (0 <? len); [| discriminate].
  rewrite (bind_ok _ _ _ _ _ Hload).
  unfold pks_sd_from_esl. apply fuel_free_sd_do_while; cbn [s_esl_data]; assumption.
Qed.

Lemma fuel_free_is_pks_present fw : fuel_free (is_pks_present fw).
Proof.
  unfold is_pks_present, read_sbversion_from_pks.
  destruct (fw_read_object fw) as [[rc bs] outlen]. fuel_free_tac.
Qed.

Lemma fuel_free_free_entries n : forall sd i, fuel_free (free_entries sd i n).
Proof.
  induction n as [|n IH]; intros sd i; cbn [free_entries]; [apply fuel_free_ret |].
  pose proof (IH sd (i + 1)). fuel_free_tac.
Qed.

Lemma fuel_free_grub_pks_tmp_free : fuel_free grub_pks_tmp_free.
Proof.
  unfold grub_pks_tmp_free.
  apply fuel_free_bind; [apply fuel_free_get |]. intros m0.
  pose proof fuel_free_free_entries. fuel_free_tac.
Qed.

(** X15. [grub_pks_keystore_init] comes to an end whatever the firmware
    answers and whatever the allocator does: no answer to the probe and no
    content of the two variables (each shorter than 4 GiB) makes the
    initialization loop for ever. *)
Theorem keystore_init_terminates fuel fw m :
  Z.of_nat (length (snd (fst (fw_read_sbvar fw PKS_SBVAR_DB)))) < 2 ^ 32 ->
  Z.of_nat (length (snd (fst (fw_read_sbvar fw PKS_SBVAR_DBX)))) < 2 ^ 32 ->
  (length (snd (fst (fw_read_sbvar fw PKS_SBVAR_DB))) + 1 < fuel)%nat ->
  (length (snd (fst (fw_read_sbvar fw PKS_SBVAR_DBX))) + 1 < fuel)%nat ->
  grub_pks_keystore_init fuel fw m <> OutOfFuel.
Proof.
  intros Hl1 Hl2 Hf1 Hf2. revert m.
  change (fuel_free (grub_pks_keystore_init fuel fw)).
  unfold grub_pks_keystore_init.
  pose proof (fuel_free_is_pks_present fw).
  pose proof fuel_free_grub_pks_tmp_free.
  pose proof (fun out => fuel_free_read_sbvar_from_pks fuel fw 0 PKS_SBVAR_DB
                           out Hl1 Hf1).
  pose proof (fun out => fuel_free_read_sbvar_from_pks fuel fw 0 PKS_SBVAR_DBX
                           out Hl2 Hf2).
  fuel_free_tac.
Qed.

Lemma keystore_init_terminates_witness :
  grub_pks_keystore_init 30
    (sample_fw 1 (0, replicate 28 255, 28) (0, [], 5)) (boot_machine [])
  <> OutOfFuel.
Proof.
  apply (keystore_init_terminates 30
           (sample_fw 1 (0, replicate 28 255, 28) (0, [], 5)) (boot_machine [])
           ltac:(vm_compute; reflexivity) ltac:(vm_compute; reflexivity)
           ltac:(cbn; lia) ltac:(cbn; lia)).
Defined.

(** ** What an accepted entry region looks like *)

Lemma wrap32_eq x : exists q, wrap32 x = x + q * 2 ^ 32.
Proof.
  exists (- (x / 2 ^ 32)). unfold wrap32.
  pose proof (Z.div_mod x (2 ^ 32) ltac:(lia)). lia.
Qed.

(** The loop of [_esl_to_esd] started on a region of [size0] bytes: the
    remaining size and the offset add up to [size0] modulo [2 ^ 32], the
    offset is a whole number of signatures and stays inside the buffer. *)
Lemma esd_while_sound size0 fuel : forall esl_data ssz g out st m rc o m',
  0 <= ssz < 2 ^ 32 ->
  0 < size0 < 2 ^ 32 ->
  Z.of_nat (length esl_data) < 2 ^ 32 ->
  0 <= l_esl_size st ->
  0 <= l_offset st <= Z.of_nat (length esl_data) ->
  (ssz | l_offset st) ->
  l_offset st = 0 \/ sizeof_grub_esd_t <= ssz ->
  (exists q, l_esl_size st + l_offset st = size0 + q * 2 ^ 32) ->
  esd_while fuel esl_data ssz g out st m = Ok (rc, o) m' ->
  rc = GRUB_ERR_OUT_OF_MEMORY \/
  (rc = GRUB_ERR_NONE /\ sizeof_grub_esd_t <= ssz /\ (ssz | size0) /\
   size0 <= Z.of_nat (length esl_data)).
Proof.
  induction fuel as [|fuel IH];
    intros esl_data ssz g out st m rc o m' Hs He Hlen Hsz Hoff Hdiv H16 [q Hq] H.
  - discriminate.
  - cbn [esd_while] in H.
    destruct (Z.ltb_spec 0 (l_esl_size st)) as [Hpos | Hle].
    + apply bind_inv_ok in H as ([st1 | [e o1]] & m1 & Hb & H).
      * destruct (esd_body_advance _ _ _ _ _ _ _ _ Hb Hs ltac:(lia) Hlen)
          as (Hge & Ho1 & Hin).
        pose proof (esd_body_inl _ _ _ _ _ _ _ _ Hb) as (Hs1 & _ & _).
        destruct (wrap32_eq (l_esl_size st - ssz)) as [q1 Hq1].
        eapply (IH esl_data ssz g out st1 m1); try eassumption.
        -- rewrite Hs1. apply wrap32_range.
        -- lia.
        -- rewrite Ho1. apply Z.divide_add_r; [exact Hdiv | apply Z.divide_refl].
        -- now right.
        -- exists (q + q1). lia.
      * left. apply esd_body_inr in Hb. unfold ret in H. congruence.
    + right. unfold ret in H. inversion H; subst.
      assert (l_offset st = size0) as Heq by nia.
      rewrite <- Heq. split; [reflexivity |].
      split; [destruct H16; [lia | assumption] |].
      split; [exact Hdiv | lia].
Qed.

Lemma esl_to_esd_sound_region fuel esl_data esl_size ssz g out m rc o m' :
  0 <= ssz < 2 ^ 32 ->
  0 < esl_size < 2 ^ 32 ->
  Z.of_nat (length esl_data) < 2 ^ 32 ->
  _esl_to_esd fuel esl_data esl_size ssz g out m = Ok (rc, o) m' ->
  rc = GRUB_ERR_OUT_OF_MEMORY \/
  (rc = GRUB_ERR_NONE /\ sizeof_grub_esd_t <= ssz /\ (ssz | esl_size) /\
   esl_size <= Z.of_nat (length esl_data)).
Proof.
  intros Hs He Hlen H. unfold _esl_to_esd in H.
  eapply (esd_while_sound esl_size); try eassumption; cbn [l_esl_size l_offset].
  - lia.
  - lia.
  - apply Z.divide_0_r.
  - now left.
  - exists 0. lia.
Qed.

(** X16. [_esl_to_esd] returns no other code than [GRUB_ERR_NONE] and
    [GRUB_ERR_OUT_OF_MEMORY], and on a region that is not empty it returns
    [GRUB_ERR_NONE] only if the region is well formed: the signature size
    is at least the entry header, the region size is a multiple of the
    signature size, and the region lies within the buffer.  A misaligned
    or overlong region is never accepted, nor is it reported as a
    structural error. *)
Theorem esl_to_esd_accepts_only_whole_regions fuel esl_data esl_size ssz g out
    m rc o m' :
  0 <= ssz < 2 ^ 32 ->
  0 < esl_size < 2 ^ 32 ->
  Z.of_nat (length esl_data) < 2 ^ 32 ->
  _esl_to_esd fuel esl_data esl_size ssz g out m = Ok (rc, o) m' ->
  rc = GRUB_ERR_OUT_OF_MEMORY \/
  (rc = GRUB_ERR_NONE /\ sizeof_grub_esd_t <= ssz /\ (ssz | esl_size) /\
   esl_size <= Z.of_nat (length esl_data)).
Proof.
  intros Hs He Hlen H.
  destruct (esl_to_esd_sound_region fuel esl_data esl_size ssz g out m rc o m'
              Hs He Hlen H) as [Hoom | (Hnone & H16 & Hdiv & Hfit)].
  - now left.
  - right. repeat split; assumption.
Qed.

Lemma esl_to_esd_accepts_only_whole_regions_witness :
  exists o m',
    _esl_to_esd 3 (esd_region (esl_signatures sample_esl)) 20 18
      (esl_type sample_esl) (NULL, 0) (boot_machine [true; true; false]) =
      Ok (GRUB_ERR_OUT_OF_MEMORY, o) m'.
Proof.
  assert (exists rc o m',
            _esl_to_esd 3 (esd_region (esl_signatures sample_esl)) 20 18
              (esl_type sample_esl) (NULL, 0) (boot_machine [true; true; false]) =
              Ok (rc, o) m') as (rc & o & m' & H)
    by (eexists _, _, _; vm_compute; reflexivity).
  exists o, m'.
  destruct (esl_to_esd_accepts_only_whole_regions 3
              (esd_region (esl_signatures sample_esl)) 20 18
              (esl_type sample_esl) (NULL, 0) (boot_machine [true; true; false])
              rc o m' ltac:(lia) ltac:(lia) ltac:(vm_compute; reflexivity) H)
    as [-> | (_ & _ & [k Hk] & _)]; [exact H | lia].
Defined.

(** ** What an accepted list looks like *)

Lemma read_bytes_inv buf off n m bs m' :
  read_bytes buf off n m = Ok bs m' ->
  bs = take (Z.to_nat n) (drop (Z.to_nat off) buf) /\ m' = m /\
  0 <= off /\ 0 <= n /\ off + n <= Z.of_nat (length buf).
Proof.
  unfold read_bytes. intros H.
  destruct (Z.ltb_spec off 0); [discriminate |].
  destruct (Z.ltb_spec n 0); [discriminate |].
  destruct (Z.ltb_spec (Z.of_nat (length buf)) (off + n)); [discriminate |].
  unfold ret in H. inversion H; subst. repeat split; lia.
Qed.

(** X18. [esl_to_esd] returns [GRUB_ERR_NONE] only on a list it could
    make sense of: the 28 bytes of the list header are in the buffer, the
    declared list size, which is what it reports as consumed, is at least
    the header and at most the bytes said to be available, the entry region
    starts inside the list, at the offset [sizeof (grub_esl_t) +
    signature_header_size] as computed modulo [2 ^ 32], and the entry
    region is either empty or a whole number of signatures, each at least
    an entry header long, that lies within the buffer. *)
Theorem esl_to_esd_accepts_only_well_formed fuel esl_data next_esl out m n o m' :
  Z.of_nat (length esl_data) < 2 ^ 32 ->
  esl_to_esd fuel esl_data next_esl out m = Ok (GRUB_ERR_NONE, n, o) m' ->
  let list_size := le32 (take 4 (drop 16 esl_data)) in
  let header_size := le32 (take 4 (drop 20 esl_data)) in
  let ssz := le32 (take 4 (drop 24 esl_data)) in
  let offset := wrap32 (sizeof_grub_esl_t + header_size) in
  n = list_size /\
  sizeof_grub_esl_t <= list_size <= next_esl /\
  sizeof_grub_esl_t <= Z.of_nat (length esl_data) /\
  offset <= list_size /\
  (list_size = offset \/
   (sizeof_grub_esd_t <= ssz /\ (ssz | list_size - offset) /\
    list_size <= Z.of_nat (length esl_data))).
Proof.
  intros Hlen H list_size header_size ssz offset.
  unfold esl_to_esd in H. unfold sizeof_grub_esl_t in *.
  destruct (Z.ltb_spec next_esl 28).
  { apply bind_inv_ok in H as (? & ? & Hg & H). unfold ret in H.
    unfold grub_error, bind, modify, ret in Hg. congruence. }
  apply bind_inv_ok in H as (g & m1 & Hr0 & H).
  apply bind_inv_ok in H as (b_list & m2 & Hr1 & H).
  apply bind_inv_ok in H as (b_header & m3 & Hr2 & H).
  apply bind_inv_ok in H as (b_size & m4 & Hr3 & H).
  apply read_bytes_inv in Hr1 as (-> & _).
  apply read_bytes_inv in Hr2 as (-> & _).
  apply read_bytes_inv in Hr3 as (-> & _ & _ & _ & Hin).
  change (Z.to_nat 4) with 4%nat in H. change (Z.to_nat 16) with 16%nat in H.
  change (Z.to_nat 20) with 20%nat in H. change (Z.to_nat 24) with 24%nat in H.
  fold list_size header_size ssz in H. fold offset in H.
  destruct (Z.ltb_spec list_size 28) as [|Hge]; cbn [orb] in H.
  { apply bind_inv_ok in H as (? & ? & Hg & H). unfold ret in H.
    unfold grub_error, bind, modify, ret in Hg. congruence. }
  destruct (Z.ltb_spec next_esl list_size) as [|Hle].
  { apply bind_inv_ok in H as (? & ? & Hg & H). unfold ret in H.
    unfold grub_error, bind, modify, ret in Hg. congruence. }
  apply bind_inv_ok in H as ([rc o1] & m5 & Hrun & H).
  unfold ret in H. cbn [fst snd] in H. inversion H; subst. clear H.
  pose proof (le32_range (take 4 (drop 16 esl_data))) as Hls. fold list_size in Hls.
  pose proof (le32_range (take 4 (drop 20 esl_data))) as Hhs. fold header_size in Hhs.
  pose proof (le32_range (take 4 (drop 24 esl_data))) as Hss. fold ssz in Hss.
  pose proof (wrap32_range (28 + header_size)) as Hoff. fold offset in Hoff.
  split; [reflexivity |]. split; [lia |]. split; [lia |].
  set (E := wrap32 (list_size - offset)) in *.
  pose proof (wrap32_range (list_size - offset)) as HE. fold E in HE.
  destruct (Z.eq_dec E 0) as [Hz | Hnz].
  - assert (list_size = offset) as Heq.
    { destruct (Z.lt_ge_cases list_size offset) as [Hlt | Hge'].
      - subst E. rewrite wrap32_neg in Hz by lia. lia.
      - subst E. rewrite wrap32_small in Hz by lia. lia. }
    split; [lia | now left].
  - pose proof (length_drop esl_data (Z.to_nat offset)) as Hd.
    destruct (esl_to_esd_sound_region fuel (drop (Z.to_nat offset) esl_data) E
                ssz g out m4 GRUB_ERR_NONE o m' Hss ltac:(lia) ltac:(lia) Hrun)
      as [? | (_ & H16 & Hdiv & Hfit)]; [discriminate |].
    assert (offset <= list_size) as Hol.
    { destruct (Z.lt_ge_cases list_size offset) as [Hlt | ?]; [| lia].
      subst E. rewrite wrap32_neg in Hfit by lia. lia. }
    assert (E = list_size - offset) as HEq
      by (subst E; apply wrap32_small; lia).
    split; [exact Hol |]. right. rewrite <- HEq.
    split; [exact H16 |]. split; [exact Hdiv | lia].
Qed.

Lemma esl_to_esd_accepts_only_well_formed_witness :
  exists n o m',
    esl_to_esd 3 (esl_bytes sample_esl) 64 (NULL, 0) (boot_machine []) =
      Ok (GRUB_ERR_NONE, n, o) m' /\
    n = 64.
Proof.
  assert (exists n o m',
            esl_to_esd 3 (esl_bytes sample_esl) 64 (NULL, 0) (boot_machine []) =
              Ok (GRUB_ERR_NONE, n, o) m') as (n & o & m' & H)
    by (eexists _, _, _; vm_compute; reflexivity).
  exists n, o, m'. split; [exact H |].
  destruct (esl_to_esd_accepts_only_well_formed 3 (esl_bytes sample_esl) 64
              (NULL, 0) (boot_machine []) n o m'
              ltac:(vm_compute; reflexivity) H) as (Hn & _).
  rewrite Hn. vm_compute. reflexivity.
Defined.

(** ** The initialization when there is no deny-list *)

(** X17. The allow-list variable being well-formed lists that load as in
    X8, if the firmware reports the deny-list as not found, or as found
    with no data, [grub_pks_keystore_init] keeps the allow-list: the
    dynamic keystore is enabled with the entries of the allow-list, an
    empty deny-list and [use_static_keys] clear.  A deny-list that was not
    found leaves [GRUB_ERR_FILE_NOT_FOUND] in [grub_errno] all the same;
    an empty one leaves [grub_errno] as it was. *)
Theorem keystore_init_without_dbx fuel fw m rc0 rest l1 ls1 post1
    rc1 rc2 bs2 len2 :
  heap_wf m ->
  pks_keystore m = pks_zero ->
  0 <= fw_test fw -> 0 <= fst (fw_max_object_size fw) ->
  fw_read_object fw = (rc0, 1 :: rest, 1) -> 0 <= rc0 ->
  fw_read_sbvar fw PKS_SBVAR_DB =
    (rc1, esls_bytes (l1 :: ls1) ++ post1, esls_length (l1 :: ls1)) ->
  0 <= rc1 ->
  Forall esl_wf (l1 :: ls1) ->
  esls_length (l1 :: ls1) < 2 ^ 32 ->
  Z.of_nat (esls_count (l1 :: ls1)) * sizeof_grub_pks_sd_t < 2 ^ 32 ->
  fw_read_sbvar fw PKS_SBVAR_DBX = (rc2, bs2, len2) ->
  rc2 = IEEE1275_CELL_NOT_FOUND \/ (0 <= rc2 /\ len2 = 0) ->
  plan_ok (3 + 2 * esls_count (l1 :: ls1)) (m_plan m) ->
  (length (l1 :: ls1) + esls_count (l1 :: ls1) < fuel)%nat ->
  exists ks m',
    grub_pks_keystore_init fuel fw m = Ok tt m' /\
    grub_pks_get_keystore m' = Some ks /\
    use_static_keys ks = false /\
    sd_holds m' (db ks) (db_entries ks) (esls_entries (l1 :: ls1)) /\
    dbx ks = NULL /\ dbx_entries ks = 0 /\
    grub_errno m' =
      (if rc2 =? IEEE1275_CELL_NOT_FOUND then GRUB_ERR_FILE_NOT_FOUND
       else grub_errno m).
Proof.
  intros Hwf Hks Htest Hmax Hro Hrc0 Hfw1 Hrc1 Hls1 Hfit1 Hcap1
    Hfw2 Habs Hpl Hfuel1.
  destruct (init_db_loaded fuel fw m rc0 rest l1 ls1 post1 rc1
              Hwf Hks Htest Hmax Hro Hrc0 Hfw1 Hrc1 Hls1 Hfit1 Hcap1
              ltac:(eapply plan_ok_le; [| exact Hpl]; lia) Hfuel1)
    as (m1 & dbp & m2 & Hprobe & Hload1 & Hh2 & Hwf2 & Hm2 & Hp2).
  set (n1 := esls_count (l1 :: ls1)) in *.
  set (m2a := with_db (dbp, Z.of_nat n1) m2).
  assert (pks_keystore m2a = set_db (dbp, Z.of_nat n1) pks_zero) as Hks2.
  { subst m2a. unfold with_db. cbn [pks_keystore set_keystore].
    rewrite Hm2. msimpl. now rewrite Hks. }
  assert (m_plan m2a = drop (2 + 2 * n1) (m_plan m)) as Hpl2
    by (subst m2a; unfold with_db; cbn [m_plan set_keystore]; rewrite Hm2;
        reflexivity).
  assert (grub_errno m2a = grub_errno m) as Hen2
    by (subst m2a; unfold with_db; cbn [grub_errno set_keystore]; rewrite Hm2;
        reflexivity).
  assert (heap_wf m2a) as Hwf2a by exact Hwf2.
  assert (head (m_plan m2a) <> Some false) as Hhd2.
  { rewrite Hpl2. eapply (plan_ok_S 0). apply plan_ok_drop.
    eapply plan_ok_le; [| exact Hpl]. lia. }
  pose proof (read_sbvar_nothing fuel fw 0 PKS_SBVAR_DBX (NULL, 0) m2a rc2 bs2
                len2 ltac:(destruct Hwf2a; assumption) Hhd2 Hfw2
                ltac:(destruct Habs as [-> | [_ ->]];
                      [left; unfold IEEE1275_CELL_NOT_FOUND; lia | now right]))
    as Hload2.
  match type of Hload2 with _ = Ok (?e, _) ?mm =>
    set (e2 := e) in *; set (m3 := mm) in * end.
  assert (recoverable e2 = true) as Hrec.
  { subst e2. destruct Habs as [-> | [Hge _]]; [reflexivity |].
    destruct (rc2 =? IEEE1275_CELL_NOT_FOUND); [reflexivity |].
    destruct (Z.ltb_spec rc2 0); [lia | reflexivity]. }
  assert (m_heap m3 = m_heap m2) as Hh3
    by (exact (probe_done_heap bs2 _ m2a Hwf2a)).
  assert (pks_keystore m3 = set_db (dbp, Z.of_nat n1) pks_zero) as Hks3
    by exact Hks2.
  pose proof (init_loaded_path fuel fw m m1 (dbp, Z.of_nat n1) m2
                e2 (NULL, 0) m3 Hprobe Hload1
                ltac:(fold m2a; rewrite Hks2; exact Hload2)) as Hinit.
  rewrite Hrec, orb_true_r in Hinit.
  eexists _, _. split; [exact Hinit |].
  unfold grub_pks_get_keystore, with_dbx. msimpl.
  split; [reflexivity |]. rewrite Hks3.
  cbn [set_dbx set_db pks_zero db dbx db_entries dbx_entries use_static_keys
       fst snd].
  split; [reflexivity |]. split; [| split; [reflexivity | split; [reflexivity |]]].
  - apply sd_holds_at_holds with (ptrs := new_ptrs (m_brk m + 2) n1).
    eapply sd_holds_at_frame; [exact Hh2 |]. intros q _. now rewrite Hh3.
  - subst m3. cbn [grub_errno set_errno]. rewrite Hen2.
    destruct (Z.eqb_spec rc2 IEEE1275_CELL_NOT_FOUND) as [-> | Hne];
      [reflexivity |].
    destruct Habs as [? | [Hge _]]; [contradiction |].
    destruct (Z.ltb_spec rc2 0); [lia | reflexivity].
Qed.

Lemma keystore_init_without_dbx_witness :
  exists ks m',
    grub_pks_keystore_init 6
      (sample_fw 1 (0, esls_bytes [sample_esl] ++ [], 64) not_found)
      (boot_machine []) = Ok tt m' /\
    grub_pks_get_keystore m' = Some ks /\
    sd_holds m' (db ks) (db_entries ks)
      [mk_entry (replicate 16 170) [5; 6] 2; mk_entry (replicate 16 170) [7; 8] 2] /\
    dbx_entries ks = 0 /\
    grub_errno m' = GRUB_ERR_FILE_NOT_FOUND.
Proof.
  destruct (keystore_init_without_dbx 6
              (sample_fw 1 (0, esls_bytes [sample_esl] ++ [], 64) not_found)
              (boot_machine []) 0 [] sample_esl [] [] 0
              IEEE1275_CELL_NOT_FOUND [] 0
              (boot_machine_wf []) eq_refl ltac:(cbn; lia) ltac:(cbn; lia)
              eq_refl ltac:(lia)
              ltac:(vm_compute; reflexivity) ltac:(lia)
              ltac:(constructor; [apply sample_esl_wf | constructor])
              ltac:(vm_compute; reflexivity) ltac:(vm_compute; reflexivity)
              eq_refl ltac:(now left) ltac:(exact I) ltac:(cbn; lia))
    as (ks & m' & H1 & H2 & _ & H3 & _ & H4 & H5).
  exists ks, m'. repeat (split; [assumption |]). exact H5.
Defined.

(** ** The payloads that were there before *)

Lemma grows_refl m : heap_wf m -> grows m m.
Proof. intros H. split; [exact H |]. split; [lia | auto]. Qed.

Lemma grows_trans m1 m2 m3 : grows m1 m2 -> grows m2 m3 -> grows m1 m3.
Proof.
  intros (_ & Hb1 & Hk1) (Hw & Hb2 & Hk2).
  split; [exact Hw |]. split; [lia | auto].
Qed.

Lemma bytes_ret {A} (a : A) : keeps_bytes (ret a).
Proof. intros m a' m' Hwf H. inversion H; subst. now apply grows_refl. Qed.

Lemma bytes_throw {A} f : keeps_bytes (@throw A f).
Proof. intros m a m' _ H. discriminate. Qed.

Lemma bytes_get : keeps_bytes get.
Proof. intros m a m' Hwf H. inversion H; subst. now apply grows_refl. Qed.

Lemma bytes_bind {A B} (c : M A) (k : A -> M B) :
  keeps_bytes c -> (forall a, keeps_bytes (k a)) -> keeps_bytes (bind c k).
Proof.
  intros Hc Hk m b m'' Hwf H. apply bind_inv_ok in H as (a & m' & H1 & H2).
  pose proof (Hc _ _ _ Hwf H1) as Hg1.
  eapply grows_trans; [exact Hg1 |]. eapply Hk; [apply Hg1 | exact H2].
Qed.

Lemma bytes_modify f :
  (forall m, heap_wf m -> grows m (f m)) -> keeps_bytes (modify f).
Proof. intros Hf m a m' Hwf H. inversion H; subst. now apply Hf. Qed.

Lemma bytes_next_outcome : keeps_bytes next_outcome.
Proof.
  intros m a m' Hwf H. unfold next_outcome in H.
  destruct (m_plan m) as [|b pl]; inversion H; subst.
  - now apply grows_refl.
  - split; [exact Hwf |]. split; [msimpl; lia | auto].
Qed.

Lemma bytes_place b : keeps_bytes (place b).
Proof.
  intros m a m' [Hb Hwf] H. inversion H; subst. msimpl.
  split; [| split; [msimpl; lia |]].
  - split; [msimpl; lia |]. intros p. msimpl. rewrite lookup_insert.
    case_decide; [lia |]. intros Hp. apply Hwf in Hp. lia.
  - intros p bs Hp. msimpl. rewrite lookup_insert_ne; [exact Hp |].
    assert (0 < p < m_brk m) by (apply Hwf; rewrite Hp; eauto). lia.
Qed.

Lemma grows_set_errno e m : heap_wf m -> grows m (set_errno e m).
Proof. intros H. split; [exact H |]. split; [msimpl; lia | auto]. Qed.

Lemma grows_delete_array ptr m :
  heap_wf m ->
  ptr = NULL \/ (exists sl, m_heap m !! ptr = Some (Slots sl)) ->
  grows m (set_heap (delete ptr (m_heap m)) m).
Proof.
  intros [Hb Hwf] Hptr. split; [| split; [msimpl; lia |]].
  - split; [exact Hb |]. intros p Hp. msimpl_in Hp.
    apply lookup_delete_is_Some in Hp as [_ Hp]. now apply Hwf.
  - intros p bs Hp. msimpl. rewrite lookup_delete_ne; [exact Hp |].
    intros <-. destruct Hptr as [-> | [sl Hsl]]; [| congruence].
    assert (0 < NULL < m_brk m) as Hr by (apply Hwf; rewrite Hp; eauto).
    unfold NULL in Hr. lia.
Qed.

Create HintDb bytes.
#[local] Hint Resolve bytes_ret bytes_throw bytes_get bytes_next_outcome
  bytes_place : bytes.

Ltac bytes_tac :=
  repeat first
    [ progress auto with bytes
    | apply bytes_bind; [| intros ?]
    | match goal with
      | |- keeps_bytes (if ?b then _ else _) => destruct b
      | |- keeps_bytes (match ?x with _ => _ end) => destruct x
      | |- keeps_bytes (let '(_, _) := ?x in _) => destruct x
      end ].

Lemma bytes_grub_error e : keeps_bytes (grub_error e).
Proof.
  unfold grub_error. apply bytes_bind; [| intros; apply bytes_ret].
  apply bytes_modify. intros m. apply grows_set_errno.
Qed.

Lemma bytes_grub_malloc size : keeps_bytes (grub_malloc size).
Proof. unfold grub_malloc. bytes_tac. Qed.

Lemma bytes_grub_realloc ptr size : keeps_bytes (grub_realloc ptr size).
Proof.
  intros m a m' Hwf H. unfold grub_realloc in H.
  unfold bind at 1, get in H.
  apply bind_inv_ok in H as (old & m1 & Hold & H).
  assert (m1 = m /\ (ptr = NULL \/ exists sl, m_heap m !! ptr = Some (Slots sl)))
    as [-> Hptr].
  { destruct (Z.eqb_spec ptr NULL) as [-> | Hne].
    - unfold ret in Hold. inversion Hold; subst. split; [reflexivity | now left].
    - destruct (m_heap m !! ptr) as [[bs|sl]|] eqn:E; try discriminate.
      unfold ret in Hold. inversion Hold; subst.
      split; [reflexivity | right; eauto]. }
  apply bind_inv_ok in H as (ok & m2 & Hout & H).
  pose proof (bytes_next_outcome _ _ _ Hwf Hout) as Hg2.
  destruct ok.
  - apply bind_inv_ok in H as ([] & m3 & Hdel & H).
    unfold modify in Hdel. inversion Hdel; subst. clear Hdel.
    assert (m_heap m2 = m_heap m) as Hh2
      by (unfold next_outcome in Hout; destruct (m_plan m);
          inversion Hout; subst; reflexivity).
    eapply grows_trans; [exact Hg2 |].
    eapply grows_trans.
    + apply grows_delete_array; [apply Hg2 | rewrite Hh2; exact Hptr].
    + eapply bytes_place; [| exact H].
      apply grows_delete_array; [apply Hg2 | rewrite Hh2; exact Hptr].
  - unfold ret in H. inversion H; subst. exact Hg2.
Qed.

Lemma bytes_load_slot ptr i : keeps_bytes (load_slot ptr i).
Proof. unfold load_slot. bytes_tac. Qed.

Lemma bytes_store_slot ptr i f : keeps_bytes (store_slot ptr i f).
Proof.
  unfold store_slot. apply bytes_bind; [apply bytes_load_slot |].
  intros s. apply bytes_modify. intros m [Hb Hwf].
  destruct (m_heap m !! ptr) as [[bs|sl]|] eqn:E;
    try (apply grows_refl; split; assumption).
  split; [| split; [msimpl; lia |]].
  - split; [exact Hb |]. intros p. msimpl. rewrite lookup_insert.
    case_decide; [subst; intros _; apply Hwf; rewrite E; eauto | apply Hwf].
  - intros p bs Hp. msimpl. rewrite lookup_insert_ne; [exact Hp | congruence].
Qed.

Lemma bytes_read_bytes buf off n : keeps_bytes (read_bytes buf off n).
Proof. unfold read_bytes. bytes_tac. Qed.

#[local] Hint Resolve bytes_grub_error bytes_grub_malloc bytes_grub_realloc
  bytes_load_slot bytes_store_slot bytes_read_bytes : bytes.

(** [grub_malloc] hands out the null pointer or the frontier. *)
Lemma grub_malloc_inv size m p m' :
  grub_malloc size m = Ok p m' -> p = NULL \/ p = m_brk m.
Proof.
  unfold grub_malloc. intros H.
  apply bind_inv_ok in H as ([|] & m1 & Hout & H).
  - right. unfold next_outcome in Hout.
    destruct (m_plan m); inversion Hout; subst; now inversion H.
  - left. unfold ret in H. now inversion H.
Qed.

(** The body of the entry loop writes bytes only to the buffer it has just
    obtained. *)
Lemma bytes_esd_body esl_data ssz g out st :
  keeps_bytes (esd_body esl_data ssz g out st).
Proof.
  intros m a m' Hwf H. unfold esd_body in H.
  apply bind_inv_ok in H as (sg & m1 & Hre & H).
  pose proof (bytes_grub_realloc _ _ _ _ _ Hwf Hre) as G1.
  destruct (sg =? NULL).
  { eapply grows_trans; [exact G1 |]. revert H.
    apply (bytes_bind _ _ (bytes_grub_error _) (fun _ => bytes_ret _)).
    apply G1. }
  apply bind_inv_ok in H as (p & m2 & Hma & H).
  pose proof (bytes_grub_malloc _ _ _ _ (proj1 G1) Hma) as G2.
  pose proof (grub_malloc_inv _ _ _ _ Hma) as Hp.
  apply bind_inv_ok in H as (? & m3 & Hst & H).
  pose proof (bytes_store_slot _ _ _ _ _ _ (proj1 G2) Hst) as G3.
  pose proof (grows_trans _ _ _ G1 (grows_trans _ _ _ G2 G3)) as G13.
  destruct (Z.eqb_spec p NULL) as [Hnull | Hnn].
  { eapply grows_trans; [exact G13 |]. revert H.
    apply (bytes_bind _ _ (bytes_grub_error _) (fun _ => bytes_ret _)).
    apply G13. }
  destruct Hp as [? | ->]; [contradiction |].
  apply bind_inv_ok in H as (bs & m4 & Hrd & H).
  apply read_bytes_inv in Hrd as (_ & -> & _).
  apply bind_inv_ok in H as ([] & m5 & Hwr & H).
  assert (grows m m5) as G5.
  { unfold write_bytes, bind, get, modify in Hwr.
    destruct (m_heap m3 !! m_brk m1) as [[old|]|] eqn:E; try discriminate.
    inversion Hwr; subst. clear Hwr.
    destruct G13 as ([Hb3 Hw3] & Hbrk3 & Hk3). destruct G1 as (_ & Hbrk1 & _).
    split; [| split; [msimpl; lia |]].
    - split; [exact Hb3 |]. intros p. msimpl. rewrite lookup_insert.
      case_decide; [subst; intros _; apply Hw3; rewrite E; eauto | apply Hw3].
    - intros p bs0 Hp. msimpl. rewrite lookup_insert_ne; [now apply Hk3 |].
      intros <-. destruct Hwf as [_ Hwf].
      assert (0 < m_brk m1 < m_brk m) by (apply Hwf; rewrite Hp; eauto). lia. }
  eapply grows_trans; [exact G5 |].
  revert H.
  apply (bytes_bind _ _ (bytes_store_slot _ _ _)).
  - intros ?. apply (bytes_bind _ _ (bytes_store_slot _ _ _)).
    intros ?. apply bytes_ret.
  - apply G5.
Qed.

Lemma bytes_esd_while fuel : forall esl_data ssz g out st,
  keeps_bytes (esd_while fuel esl_data ssz g out st).
Proof.
  induction fuel as [|fuel IH]; intros esl_data ssz g out st.
  - intros m a m' _ H. discriminate.
  - cbn [esd_while]. destruct (0 <? l_esl_size st); [| apply bytes_ret].
    apply bytes_bind; [apply bytes_esd_body |].
    intros [st' | v]; [apply IH | apply bytes_ret].
Qed.

Lemma bytes_esl_to_esd fuel esl_data next_esl out :
  keeps_bytes (esl_to_esd fuel esl_data next_esl out).
Proof.
  unfold esl_to_esd, _esl_to_esd.
  pose proof (bytes_esd_while fuel). bytes_tac.
Qed.

Lemma bytes_sd_body fuel st : keeps_bytes (sd_body fuel st).
Proof.
  unfold sd_body. apply bytes_bind; [apply bytes_esl_to_esd |].
  intros [[rc n] o]. destruct (grub_err_eqb rc GRUB_ERR_NONE); apply bytes_ret.
Qed.

Lemma bytes_sd_do_while fuel : forall st, keeps_bytes (sd_do_while fuel st).
Proof.
  induction fuel as [|fuel IH]; intros st.
  - intros m a m' _ H. discriminate.
  - cbn [sd_do_while]. apply bytes_bind; [apply bytes_sd_body |].
    intros [rc st'].
    destruct (grub_err_eqb rc GRUB_ERR_NONE && (0 <? s_esl_size st'));
      [apply IH | apply bytes_ret].
Qed.

(** X19. Whatever the buffer holds and whatever the allocator does, a run
    of [pks_sd_from_esl] that returns, with or without error, has neither
    released nor overwritten any byte buffer that was live when it started
    (the payloads of the entries already in the database among them), and
    has not called [grub_free]: the bytes it copies go to buffers it has
    itself just obtained. *)
Theorem pks_sd_from_esl_keeps_payloads fuel esl_data esl_size out m r m' :
  heap_wf m ->
  pks_sd_from_esl fuel esl_data esl_size out m = Ok r m' ->
  (forall p bs, m_heap m !! p = Some (Bytes bs) ->
                m_heap m' !! p = Some (Bytes bs)) /\
  m_freed m' = m_freed m /\
  heap_wf m'.
Proof.
  intros Hwf H. unfold pks_sd_from_esl in H.
  pose proof (bytes_sd_do_while _ _ _ _ _ Hwf H) as (Hw & _ & Hk).
  split; [exact Hk |]. split; [| exact Hw].
  exact (freed_sd_do_while _ _ _ _ _ H).
Qed.

Lemma pks_sd_from_esl_keeps_payloads_witness :
  exists r m',
    pks_sd_from_esl 6 (esl_bytes sample_esl ++ [0; 0; 0]) (64 + 3) (1, 1)
      sample_loaded = Ok r m' /\
    m_heap m' !! 2 = Some (Bytes [5; 6]) /\ m_freed m' = [].
Proof.
  eexists _, _. split; [vm_compute; reflexivity |].
  destruct (pks_sd_from_esl_keeps_payloads 6 (esl_bytes sample_esl ++ [0; 0; 0])
              (64 + 3) (1, 1) sample_loaded _ _ sample_loaded_wf
              ltac:(vm_compute; reflexivity)) as (Hk & Hf & _).
  split; [apply Hk; reflexivity | exact Hf].
Defined.

(** ** The teardown after an array that could not grow *)

(** X20. The keystore's allow-list being a live array of at least one
    entry, if the entry loop appends to it and [grub_realloc] fails in its
    second run or a later one, [_esl_to_esd] returns
    [GRUB_ERR_OUT_OF_MEMORY] with the outputs still naming the array that
    the earlier runs have released ([grub_realloc] being taken to move the
    array whenever it grows it); the teardown that [grub_pks_keystore_init]
    runs on such an error then reads that released array. *)
Theorem esl_to_esd_realloc_failure_use_after_free done post r fuel ssz g m sl pl :
  heap_wf m ->
  db (pks_keystore m) <> NULL ->
  m_heap m !! db (pks_keystore m) = Some (Slots sl) ->
  Z.of_nat (length sl) = db_entries (pks_keystore m) ->
  sl <> [] -> done <> [] ->
  (db_entries (pks_keystore m) + Z.of_nat (length done)) * sizeof_grub_pks_sd_t
    < 2 ^ 32 ->
  m_plan m = replicate (2 * length done) true ++ false :: pl ->
  Forall (esd_wf ssz) done ->
  0 < ssz -> 1 <= r -> (Z.of_nat (length done) + r) * ssz < 2 ^ 32 ->
  (length done < fuel)%nat ->
  exists m',
    _esl_to_esd fuel (esd_region done ++ post)
      ((Z.of_nat (length done) + r) * ssz) ssz g
      (db (pks_keystore m), db_entries (pks_keystore m)) m =
      Ok (GRUB_ERR_OUT_OF_MEMORY,
          (db (pks_keystore m), db_entries (pks_keystore m))) m' /\
    m_heap m' !! db (pks_keystore m) = None /\
    grub_pks_tmp_free
      (with_db (db (pks_keystore m), db_entries (pks_keystore m)) m') =
      Fault InvalidPointer.
Proof.
  intros Hwf Hnn Hl Hlen Hsl Hdone' Hcap Hplan Hdone Hss Hr Hfit Hfuel.
  destruct (esd_realloc_failure done post r fuel ssz g _ _ m sl pl
              Hwf (or_intror (conj Hnn Hl)) Hlen Hcap Hplan Hdone Hss Hr Hfit Hfuel)
    as (m' & Hrun & _ & _ & Hmoved & _ & Hks).
  destruct (Hmoved Hdone') as [Hgone _].
  exists m'. split; [exact Hrun |]. split; [exact Hgone |].
  unfold grub_pks_tmp_free, with_db. unfold bind at 1, get.
  cbn [pks_keystore set_keystore]. rewrite Hks.
  cbn [set_db db db_entries fst snd].
  destruct (Z.to_nat (db_entries (pks_keystore m))) as [|n] eqn:En.
  { destruct sl; [contradiction | cbn [length] in Hlen; lia]. }
  cbn [free_entries]. unfold bind at 1. unfold bind at 1.
  unfold load_slot at 1, bind at 1, get at 1.
  cbn [m_heap set_keystore]. rewrite Hgone. reflexivity.
Qed.

Lemma esl_to_esd_realloc_failure_use_after_free_witness :
  exists m',
    _esl_to_esd 3 (esd_region (esl_signatures sample_esl) ++ []) ((1 + 1) * 18) 18
      (esl_type sample_esl) (1, 1) (set_plan [true; true; false] sample_loaded) =
      Ok (GRUB_ERR_OUT_OF_MEMORY, (1, 1)) m' /\
    m_heap m' !! 1 = None /\
    grub_pks_tmp_free (with_db (1, 1) m') = Fault InvalidPointer.
Proof.
  exact (esl_to_esd_realloc_failure_use_after_free
           [(replicate 16 1, [5; 6])]
           (esd_region [(replicate 16 2, [7; 8])] ++ []) 1 3 18
           (esl_type sample_esl)
           (set_plan [true; true; false] sample_loaded)
           [full_slot (replicate 16 170) 2 2] []
           sample_loaded_wf ltac:(discriminate) eq_refl eq_refl
           ltac:(discriminate) ltac:(discriminate)
           ltac:(vm_compute; reflexivity) eq_refl
           ltac:(repeat constructor) ltac:(lia) ltac:(lia)
           ltac:(cbn; lia) ltac:(cbn; lia)).
Defined.

(** ** The error codes of the loader *)

Lemma esd_while_codes fuel : forall esl_data ssz g out st m rc o m',
  esd_while fuel esl_data ssz g out st m = Ok (rc, o) m' ->
  rc = GRUB_ERR_NONE \/ rc = GRUB_ERR_OUT_OF_MEMORY.
Proof.
  induction fuel as [|fuel IH]; intros esl_data ssz g out st m rc o m' H.
  - discriminate.
  - cbn [esd_while] in H. destruct (0 <? l_esl_size st).
    + apply bind_inv_ok in H as ([st1 | [e o1]] & m1 & Hb & H).
      * eapply IH; exact H.
      * right. apply esd_body_inr in Hb. unfold ret in H. congruence.
    + left. unfold ret in H. congruence.
Qed.

Lemma grub_error_inv e m e' m' :
  grub_error e m = Ok e' m' -> e' = e /\ m' = set_errno e m.
Proof.
  unfold grub_error, bind, modify, ret. intros H. inversion H. auto.
Qed.

Lemma esl_to_esd_codes fuel esl_data next_esl out m rc n o m' :
  esl_to_esd fuel esl_data next_esl out m = Ok (rc, n, o) m' ->
  rc = GRUB_ERR_NONE \/ rc = GRUB_ERR_OUT_OF_MEMORY \/ rc = GRUB_ERR_BUG.
Proof.
  unfold esl_to_esd. intros H.
  destruct (next_esl <? sizeof_grub_esl_t).
  { apply bind_inv_ok in H as (e & ? & Hg & H). apply grub_error_inv in Hg as [-> _].
    unfold ret in H. inversion H. auto. }
  apply bind_inv_ok in H as (g & ? & _ & H).
  apply bind_inv_ok in H as (b_list & ? & _ & H).
  apply bind_inv_ok in H as (b_header & ? & _ & H).
  apply bind_inv_ok in H as (b_size & ? & _ & H).
  destruct ((le32 b_list <? sizeof_grub_esl_t) || (next_esl <? le32 b_list)).
  { apply bind_inv_ok in H as (e & ? & Hg & H). apply grub_error_inv in Hg as [-> _].
    unfold ret in H. inversion H. auto. }
  apply bind_inv_ok in H as ([rc1 o1] & ? & Hrun & H).
  unfold ret in H. cbn [fst snd] in H. inversion H; subst.
  unfold _esl_to_esd in Hrun. apply esd_while_codes in Hrun. tauto.
Qed.

Lemma sd_do_while_codes fuel : forall st m rc o m',
  sd_do_while fuel st m = Ok (rc, o) m' ->
  rc = GRUB_ERR_NONE \/ rc = GRUB_ERR_OUT_OF_MEMORY \/ rc = GRUB_ERR_BUG.
Proof.
  induction fuel as [|fuel IH]; intros st m rc o m' H.
  - discriminate.
  - cbn [sd_do_while] in H.
    apply bind_inv_ok in H as ([rc1 st1] & m1 & Hb & H).
    destruct (grub_err_eqb rc1 GRUB_ERR_NONE && (0 <? s_esl_size st1)).
    + eapply IH; exact H.
    + unfold ret in H. inversion H; subst. clear H.
      unfold sd_body in Hb.
      apply bind_inv_ok in Hb as ([[rc2 n] o2] & m2 & He & Hb).
      apply esl_to_esd_codes in He.
      destruct (grub_err_eqb rc2 GRUB_ERR_NONE); unfold ret in Hb;
        inversion Hb; subst; exact He.
Qed.

(** The code [read_sbvar_from_pks] returns is one of the two that the
    initialization takes for an absent variable exactly when the firmware
    said so. *)
Lemma read_sbvar_recoverable fuel fw flags type out m rc bs len e o m' :
  fw_read_sbvar fw type = (rc, bs, len) ->
  read_sbvar_from_pks fuel fw flags type out m = Ok (e, o) m' ->
  (recoverable e = true <->
   (rc = IEEE1275_CELL_NOT_FOUND \/ (0 <= rc /\ len <= 0)) /\
   head (m_plan m) <> Some false /\ m_brk m <> NULL).
Proof.
  intros Hfw H. unfold read_sbvar_from_pks in H.
  unfold bind at 1, get in H.
  apply bind_inv_ok in H as (p & m1 & Hma & H).
  assert (p = NULL /\ (head (m_plan m) = Some false \/ m_brk m = NULL) \/
          p <> NULL /\ head (m_plan m) <> Some false /\ m_brk m <> NULL) as Hp.
  { unfold grub_malloc in Hma.
    apply bind_inv_ok in Hma as ([|] & m0 & Hout & Hma).
    - assert (head (m_plan m) <> Some false) as Hhd
        by (unfold next_outcome in Hout; destruct (m_plan m) as [|[|] ?];
            inversion Hout; discriminate).
      assert (p = m_brk m) as ->
        by (unfold next_outcome in Hout; destruct (m_plan m);
            inversion Hout; subst; now inversion Hma).
      destruct (Z.eq_dec (m_brk m) NULL); [left | right]; auto.
    - left. unfold ret in Hma. inversion Hma; subst. split; [reflexivity |].
      left. unfold next_outcome in Hout. destruct (m_plan m) as [|[|] ?];
        inversion Hout; reflexivity. }
  destruct (Z.eqb_spec p NULL) as [Hnull | Hnn].
  { apply bind_inv_ok in H as (e0 & ? & Hg & H).
    apply grub_error_inv in Hg as [-> _]. unfold ret in H. inversion H; subst.
    split; [discriminate |]. intros (_ & Hhd & Hb).
    destruct Hp as [[_ [? | ?]] | [? _]]; contradiction. }
  destruct Hp as [[? _] | (_ & Hhd & Hb)]; [contradiction |].
  rewrite Hfw in H.
  apply bind_inv_ok in H as (? & m2 & _ & H).
  apply bind_inv_ok in H as ([e1 o1] & m3 & Hmid & H).
  apply bind_inv_ok in H as (? & m4 & _ & H).
  unfold ret in H. inversion H; subst. clear H.
  unfold IEEE1275_CELL_NOT_FOUND in *.
  destruct (Z.eqb_spec rc (-7)) as [Hnf | Hnf].
  { apply bind_inv_ok in Hmid as (e0 & ? & Hg & Hmid).
    apply grub_error_inv in Hg as [-> _]. unfold ret in Hmid.
    inversion Hmid; subst. split; [auto | reflexivity]. }
  destruct (Z.ltb_spec rc 0) as [Hneg | Hpos].
  { apply bind_inv_ok in Hmid as (e0 & ? & Hg & Hmid).
    apply grub_error_inv in Hg as [-> _]. unfold ret in Hmid.
    inversion Hmid; subst. split; [discriminate |].
    intros ([? | [? _]] & _); [contradiction | lia]. }
  destruct (Z.ltb_spec 0 len) as [Hlen | Hlen].
  - apply bind_inv_ok in Hmid as (buf & ? & _ & Hmid).
    unfold pks_sd_from_esl in Hmid. apply sd_do_while_codes in Hmid.
    split.
    + intros Hrec. destruct Hmid as [-> | [-> | ->]]; discriminate.
    + intros ([? | [_ ?]] & _); [contradiction | lia].
  - unfold ret in Hmid. inversion Hmid; subst. split; [auto | reflexivity].
Qed.

(** X21. [read_sbvar_from_pks] returns [GRUB_ERR_FILE_NOT_FOUND] or
    [GRUB_ERR_BAD_NUMBER], the two codes that
    [grub_pks_keystore_init] takes for an absent variable, exactly when the
    firmware has reported the variable as not found or as holding no data:
    neither a malformed list nor a failed allocation nor a read error ever
    gives one of them. *)
Theorem read_sbvar_from_pks_recoverable_iff_absent fuel fw flags type out m
    rc bs len e o m' :
  heap_wf m ->
  fw_read_sbvar fw type = (rc, bs, len) ->
  read_sbvar_from_pks fuel fw flags type out m = Ok (e, o) m' ->
  (e = GRUB_ERR_FILE_NOT_FOUND \/ e = GRUB_ERR_BAD_NUMBER <->
   head (m_plan m) <> Some false /\
   (rc = IEEE1275_CELL_NOT_FOUND \/ (0 <= rc /\ len <= 0))).
Proof.
  intros [Hb _] Hfw H.
  pose proof (read_sbvar_recoverable _ _ _ _ _ _ _ _ _ _ _ _ Hfw H) as Hiff.
  assert (recoverable e = true <->
          e = GRUB_ERR_FILE_NOT_FOUND \/ e = GRUB_ERR_BAD_NUMBER) as Hrec.
  { destruct e; cbn; split; intros Hx; try discriminate; auto;
      destruct Hx as [? | ?]; discriminate. }
  rewrite <- Hrec, Hiff. unfold NULL. split.
  - intros (? & ? & _). auto.
  - intros (? & ?). repeat split; auto. lia.
Qed.

Lemma read_sbvar_from_pks_recoverable_iff_absent_witness :
  exists e m',
    read_sbvar_from_pks 6 (sample_fw 1 (0, replicate 28 0, 28) not_found)
      0 PKS_SBVAR_DB (NULL, 0) (boot_machine []) = Ok (e, (NULL, 0)) m' /\
    ~ (e = GRUB_ERR_FILE_NOT_FOUND \/ e = GRUB_ERR_BAD_NUMBER).
Proof.
  eexists _, _. split; [vm_compute; reflexivity |].
  intros He.
  apply (read_sbvar_from_pks_recoverable_iff_absent 6
           (sample_fw 1 (0, replicate 28 0, 28) not_found) 0 PKS_SBVAR_DB
           (NULL, 0) (boot_machine []) 0 (replicate 28 0) 28 _ _ _
           (boot_machine_wf []) eq_refl ltac:(vm_compute; reflexivity)) in He.
  destruct He as [_ [Hx | [_ Hx]]]; [discriminate Hx | lia].
Defined.

(** The probe writes neither the keystore record nor the mode flag. *)
Lemma is_pks_present_keystore fw m r m1 :
  heap_wf m ->
  is_pks_present fw m = Ok r m1 ->
  pks_keystore m1 = pks_keystore m /\ pks_use_keystore m1 = pks_use_keystore m.
Proof.
  intros Hwf Hprobe.
  rewrite (is_pks_present_eval fw m Hwf) in Hprobe.
  unfold is_pks_present_result in Hprobe.
  destruct (fw_read_object fw) as [[rc bs] outlen].
  destruct (fw_test fw <? 0); [now inversion Hprobe |].
  destruct (fst (fw_max_object_size fw) <? 0); [now inversion Hprobe |].
  destruct (m_plan m) as [|[|] pl]; [| | now inversion Hprobe].
  all: destruct (rc <? 0); [now inversion Hprobe |];
    destruct (negb (outlen =? 1)); [now inversion Hprobe |];
    destruct bs as [|b0 bs']; [discriminate |];
    destruct (2 <=? b0); now inversion Hprobe.
Qed.

(** What follows the load of db in [grub_pks_keystore_init] never sets
    [use_static_keys]. *)
Lemma init_dbx_part_static fuel fw rc m4 m' :
  use_static_keys (pks_keystore m4) = false ->
  (rc <- (if grub_err_eqb rc GRUB_ERR_NONE then
            m <- get ;;
            r <- read_sbvar_from_pks fuel fw 0 PKS_SBVAR_DBX
                   (dbx (pks_keystore m), dbx_entries (pks_keystore m)) ;;
            modify (fun m => set_keystore (set_dbx (snd r) (pks_keystore m)) m) ;;;
            if recoverable (fst r) then ret GRUB_ERR_NONE else ret (fst r)
          else ret rc) ;;
   (if negb (grub_err_eqb rc GRUB_ERR_NONE) then grub_pks_tmp_free else ret tt) ;;;
   modify (set_use_keystore true)) m4 = Ok tt m' ->
  use_static_keys (pks_keystore m') = false.
Proof.
  intros Hs H.
  apply bind_inv_ok in H as (rc2 & m5 & H5 & H).
  assert (use_static_keys (pks_keystore m5) = false) as Hs5.
  { destruct (grub_err_eqb rc GRUB_ERR_NONE).
    - apply bind_inv_ok in H5 as (m0 & ? & Hg & H5). inversion Hg; subst.
      apply bind_inv_ok in H5 as ([e2 o2] & ma & Hr & H5).
      apply keeps_read_sbvar_from_pks in Hr as (Hk & _).
      apply bind_inv_ok in H5 as (? & mb & Hmod & H5).
      inversion Hmod; subst.
      assert (m5 = set_keystore (set_dbx (snd (e2, o2)) (pks_keystore ma)) ma)
        as -> by (destruct (recoverable (fst (e2, o2))); now inversion H5).
      msimpl. now rewrite Hk.
    - inversion H5; subst. exact Hs. }
  apply bind_inv_ok in H as ([] & m6 & H6 & H).
  assert (use_static_keys (pks_keystore m6) = false) as Hs6.
  { destruct (negb (grub_err_eqb rc2 GRUB_ERR_NONE)).
    - apply grub_pks_tmp_free_inv in H6 as (-> & _). reflexivity.
    - inversion H6; subst. exact Hs5. }
  inversion H; subst. msimpl. exact Hs6.
Qed.

Lemma init_static_keys_only_if fuel fw m m' rc bs len :
  heap_wf m ->
  use_static_keys (pks_keystore m) = false ->
  fw_read_sbvar fw PKS_SBVAR_DB = (rc, bs, len) ->
  grub_pks_keystore_init fuel fw m = Ok tt m' ->
  use_static_keys (pks_keystore m') = true ->
  (exists m1, is_pks_present fw m = Ok true m1) /\
  (rc = IEEE1275_CELL_NOT_FOUND \/ (0 <= rc /\ len <= 0)).
Proof.
  intros Hwf Hs Hfw H Hfin. unfold grub_pks_keystore_init in H.
  apply bind_inv_ok in H as (r & m1 & Hprobe & H).
  pose proof (is_pks_present_keystore _ _ _ _ Hwf Hprobe) as [Hk1 _].
  destruct r; cbn [negb] in H.
  2:{ inversion H; subst. congruence. }
  split; [now exists m1 |].
  apply bind_inv_ok in H as (m0 & ? & Hg & H). inversion Hg; subst.
  apply bind_inv_ok in H as ([e1 o1] & m2 & Hr & H).
  pose proof (keeps_read_sbvar_from_pks _ _ _ _ _ _ _ _ Hr) as (Hk2 & _).
  apply bind_inv_ok in H as (? & m3 & Hmod & H). inversion Hmod; subst.
  apply bind_inv_ok in H as (rc1 & m4 & H4 & H).
  cbn [fst snd] in H4.
  destruct (recoverable e1) eqn:Hrec.
  - eapply read_sbvar_recoverable in Hr; [| exact Hfw].
    apply Hr in Hrec. tauto.
  - inversion H4; subst.
    apply init_dbx_part_static in H; [congruence |].
    cbn [pks_keystore set_db use_static_keys]. congruence.
Qed.

(** X22. [grub_pks_keystore_init] sets [use_static_keys] only for a db
    variable that the firmware reports as not found or as holding no data.
    If the flag was clear before and is set when the initialization
    returns, then the probe answered true and the firmware's answer for db
    was [IEEE1275_CELL_NOT_FOUND] or a success with a length of zero or
    less: a db that is malformed, that could not be read or for which
    memory ran out never turns the static keys on. *)
Theorem keystore_init_static_keys_only_if_db_absent fuel fw m m' rc bs len :
  heap_wf m ->
  use_static_keys (pks_keystore m) = false ->
  fw_read_sbvar fw PKS_SBVAR_DB = (rc, bs, len) ->
  grub_pks_keystore_init fuel fw m = Ok tt m' ->
  use_static_keys (pks_keystore m') = true ->
  (exists m1, is_pks_present fw m = Ok true m1) /\
  (rc = IEEE1275_CELL_NOT_FOUND \/ (0 <= rc /\ len <= 0)).
Proof.
  exact (init_static_keys_only_if fuel fw m m' rc bs len).
Qed.

Lemma keystore_init_static_keys_only_if_db_absent_witness :
  exists m',
    grub_pks_keystore_init 6 (sample_fw 1 (0, [], 0) not_found)
      (boot_machine []) = Ok tt m' /\
    use_static_keys (pks_keystore m') = true /\
    ((exists m1, is_pks_present (sample_fw 1 (0, [], 0) not_found)
                   (boot_machine []) = Ok true m1) /\
     (0 = IEEE1275_CELL_NOT_FOUND \/ (0 <= 0 /\ 0 <= 0))).
Proof.
  eexists. split; [vm_compute; reflexivity |].
  split; [vm_compute; reflexivity |].
  apply (keystore_init_static_keys_only_if_db_absent 6
           (sample_fw 1 (0, [], 0) not_found) (boot_machine []) _ 0 [] 0
           (boot_machine_wf []) eq_refl eq_refl
           ltac:(vm_compute; reflexivity) ltac:(vm_compute; reflexivity)).
Defined.
